(** * C/C++ Runner: settings resolution and command-line synthesis

    A shallow embedding of the extension's settings provider
    ([src/provider/settingsProvider.ts]), of the file and system helpers
    ([out/src/utils.js]) and of the build-task synthesis ([executeTask]),
    with the properties of the specification stated over them.

    Conventions.
    - JavaScript values that flow through [any]-typed code (persisted
      settings, configuration values) are [JsonValue]s; [undefined] is the
      [None] of an [option].
    - A JavaScript [TypeError] raised by a member access on a value of the
      wrong shape is the [TypeError] outcome of [Result]; the state reached
      by the aborted reaction is not tracked.
    - Node's [path.join] and the host's file listing, process execution and
      existence test are inputs of the functions that call them.
    - Strings are byte strings; numbers in documents are integers. The
      provider is embedded over the settings document as parsed; the
      module [JsonFile] embeds the read, the merge and the write of
      [update] over the file itself, with the numbers as doubles. *)

From Stdlib Require Import ZArith Ascii String List Bool Lia QArith Qround.
From stdpp Require Import base option strings gmap list sorting.

Local Open Scope string_scope.

(** ** JavaScript values and string primitives *)

Module JS.

#[warnings="-register-all"]
Inductive JsonValue : Type :=
| JNull
| JBool (b : bool)
| JNum (n : Z)
| JStr (s : string)
| JArr (l : list JsonValue)
| JObj (fields : list (string * JsonValue)).

(** A settings document as typed by [JsonSettings]: a JSON object used as
    a map from setting names to values. *)
Abbreviation JsonSettings := (gmap string JsonValue).

(** Outcome of a reaction that may raise a [TypeError]. *)
Inductive Result (A : Type) : Type :=
| Ok (a : A)
| TypeError.
Arguments Ok {A} a.
Arguments TypeError {A}.

#[global] Instance Result_ret : MRet Result := λ A a, Ok a.
#[global] Instance Result_bind : MBind Result := λ A B k r,
  match r with
  | Ok a => k a
  | TypeError => TypeError
  end.

Definition is_empty (s : string) : bool :=
  match s with
  | EmptyString => true
  | String _ _ => false
  end.

(** [if (v)]: the truthiness of a value. *)
Definition truthy (v : JsonValue) : bool :=
  match v with
  | JNull => false
  | JBool b => b
  | JNum n => negb (n =? 0)%Z
  | JStr s => negb (is_empty s)
  | JArr _ => true
  | JObj _ => true
  end.

(** [if (v)] for a value that may be [undefined]. *)
Definition truthy_opt (v : option JsonValue) : bool :=
  match v with
  | Some v => truthy v
  | None => false
  end.

(** [s.includes(sub)] on strings. *)
Fixpoint includes (sub s : string) : bool :=
  if String.prefix sub s then true
  else match s with
       | EmptyString => false
       | String _ s' => includes sub s'
       end.

(** [s.split(sep)[0]]: the part of [s] before the first occurrence of a
    non-empty separator, the whole of [s] when there is none. *)
Fixpoint split_first (sep s : string) : string :=
  if String.prefix sep s then EmptyString
  else match s with
       | EmptyString => EmptyString
       | String a s' => String a (split_first sep s')
       end.

(** The last element of [s.split(c)] for a one-character separator: the
    part of [s] after the last [c], the whole of [s] when there is none. *)
Fixpoint split_last (c : ascii) (s : string) : string :=
  match s with
  | EmptyString => EmptyString
  | String a s' =>
      if includes (String c EmptyString) s' then split_last c s'
      else if Ascii.eqb a c then s'
      else s
  end.

(** [l.join(sep)] on an array of strings. *)
Fixpoint join (sep : string) (l : list string) : string :=
  match l with
  | [] => EmptyString
  | [x] => x
  | x :: rest => x +:+ sep +:+ join sep rest
  end.

(** [text.replace(/\\/g, '/')]. *)
Fixpoint replace_backslashes (s : string) : string :=
  match s with
  | EmptyString => EmptyString
  | String a s' =>
      String (if Ascii.eqb a "\"%char then "/"%char else a)
             (replace_backslashes s')
  end.

(** A byte that continues a character of several bytes: texts are held
    as their UTF-8 bytes. *)
Definition isContinuation (a : ascii) : bool :=
  match a with
  | Ascii _ _ _ _ _ _ b6 b7 => b7 && negb b6
  end.

(** The characters of a text as its iterator yields them, one per code
    point: a byte with the continuation bytes that follow it. *)
Fixpoint codePoints (s : string) : list string :=
  match s with
  | EmptyString => []
  | String a rest =>
      match codePoints rest with
      | String b next :: more =>
          if isContinuation b then String a (String b next) :: more
          else String a EmptyString :: String b next :: more
      | groups => String a EmptyString :: groups
      end
  end.

(** Interpolation of a possibly undefined string in a template literal. *)
Definition template (v : option string) : string :=
  match v with
  | Some s => s
  | None => "undefined"
  end.

End JS.

Import JS.

(** ** Node's [path] module on directory-entry names

    [path.extname] and [path.parse] follow the POSIX variant; on names that
    hold no separator and no drive prefix the win32 variant agrees. *)

Module Path.

Fixpoint strip_trailing (c : ascii) (s : string) : string :=
  match s with
  | EmptyString => EmptyString
  | String a s' =>
      let t := strip_trailing c s' in
      if Ascii.eqb a c && is_empty t then EmptyString else String a t
  end.

(** The last portion of a path, trailing separators ignored. *)
Definition base (p : string) : string :=
  split_last "/"%char (strip_trailing "/"%char p).

(** Splits at the last dot: the text before it and the text from it on. *)
Fixpoint last_dot (s : string) : option (string * string) :=
  match s with
  | EmptyString => None
  | String a s' =>
      match last_dot s' with
      | Some (pre, suf) => Some (String a pre, suf)
      | None =>
          if Ascii.eqb a "."%char then Some (EmptyString, s) else None
      end
  end.

(** [path.parse(p)] restricted to its [name] and [ext] members. *)
Definition parse (p : string) : string * string :=
  let b := base p in
  match last_dot b with
  | None => (b, EmptyString)
  | Some (pre, suf) =>
      if is_empty pre then (b, EmptyString)
      else if String.eqb b ".." then (b, EmptyString)
      else (pre, suf)
  end.

Definition parse_name (p : string) : string := fst (parse p).
Definition parse_ext (p : string) : string := snd (parse p).

(** [path.extname(p)] is the [ext] member of [path.parse(p)]. *)
Definition extname (p : string) : string := parse_ext p.

End Path.

(** ** [out/src/utils.js] *)

Module Utils.

Inductive Architectures : Type := x86 | x64.
Inductive Languages : Type := c | cpp.
Inductive OperatingSystems : Type := windows | linux | mac.

Definition replaceBackslashes (text : string) : string :=
  replace_backslashes text.

(** [String.fromCharCode(...byteArray)]: the bytes are spread into the
    arguments of one call, each giving the character of its code. A call
    takes no more than [maxArguments] arguments, a limit of the engine's
    stack; beyond it the call throws a [RangeError], [None] here. *)
Definition fromCharCode_spread (maxArguments : N) (byteArray : string)
    : option string :=
  if (N.of_nat (String.length byteArray) <=? maxArguments)%N
  then Some byteArray
  else None.

(** [getArchitecture(compiler)]. [execSync] is the host's process
    execution: the bytes the command writes, or [None] when the call
    throws (binary missing, non-zero exit status, output over the buffer
    limit). The conversion of the bytes is inside the [try] as well. *)
Definition getArchitecture (maxArguments : N)
    (execSync : string → option string) (compiler : string)
    : Architectures :=
  let command := compiler +:+ " -dumpmachine" in
  match execSync command with
  | Some byteArray =>
      match fromCharCode_spread maxArguments byteArray with
      | Some str => if includes "64" str then x64 else x86
      | None => x86
      end
  | None => x86
  end.

Definition isHeaderFile (fileExtLower : string) : bool :=
  existsb (λ ext, String.eqb fileExtLower ext) [".hpp"; ".hh"; ".hxx"; ".h"].

Definition isCppSourceFile (fileExtLower : string) : bool :=
  existsb (λ ext, String.eqb fileExtLower ext) [".cpp"; ".cc"; ".cxx"].

Definition isCSourceFile (fileExtLower : string) : bool :=
  String.eqb fileExtLower ".c".

(** An entry of [fs.readdirSync(dir, { withFileTypes: true })]. *)
Record Dirent : Type := { name : string; isFile : bool }.

(** [getLanguage(fileDirName)], on the listing of the directory. *)
Definition getLanguage (fileDirents : list Dirent) : Languages :=
  let files := map name (filter (λ file, isFile file = true) fileDirents) in
  let anyCppFile :=
    existsb (λ file, isCppSourceFile (Path.extname file)) files in
  if anyCppFile then cpp else c.

End Utils.

(** ** [src/utils/vscodeUtils.ts] *)

Module VscodeUtils.

(** [getActivationState()]. [extensionState] is the extension's memento,
    [None] while it is not defined; the result may be [undefined]. *)
Definition getActivationState (extensionState : option JsonSettings)
    : option JsonValue :=
  match extensionState with
  | Some memento => memento !! "activatedExtension"
  | None => Some (JBool false)
  end.

End VscodeUtils.

(** ** [src/provider/settingsProvider.ts] *)

Module SettingsProvider.
Import Utils.

Definition EXTENSION_NAME : string := "C_Cpp_Runner".

Definition DEFAULT_C_COMPILER_PATH : JsonValue := JStr "gcc".
Definition DEFAULT_CPP_COMPILER_PATH : JsonValue := JStr "g++".
Definition DEFAULT_DEBUGGER_PATH : JsonValue := JStr "gdb".
Definition DEFAULT_MSVC_BATCH_PATH : JsonValue := JStr "".
Definition DEFAULT_MSVC_TOOLS_PATH : JsonValue := JStr "".
Definition DEFAULT_C_STANDARD_UNIX : JsonValue := JStr "".
Definition DEFAULT_CPP_STANDARD : JsonValue := JStr "".
Definition DEFAULT_INCLUDE_SEARCH : JsonValue := JArr [JStr "*"; JStr "**/*"].
Definition DEFAULT_EXCLUDE_SEARCH : JsonValue :=
  JArr [JStr "**/build"; JStr "**/build/**"; JStr "**/.*"; JStr "**/.*/**";
        JStr "**/.vscode"; JStr "**/.vscode/**"].
Definition DEFAULT_ENABLE_WARNINGS : JsonValue := JBool true.
Definition DEFAULT_WARNINGS_AS_ERRORS : JsonValue := JBool false.
Definition DEFAULT_WARNINGS_UNIX : JsonValue :=
  JArr [JStr "-Wall"; JStr "-Wextra"; JStr "-Wpedantic"].
Definition DEFAULT_WARNINGS_MSVC : JsonValue := JArr [JStr "/W4"].
Definition DEFAULT_COMPILER_ARGS : JsonValue := JArr [].
Definition DEFAULT_LINKER_ARGS : JsonValue := JArr [].
Definition DEFAULT_USE_MSVC : JsonValue := JBool false.

(** The settings file at [_outputPath], as parsed: a document is an
    object, as [JsonSettings] types it. [readJsonFile] yields [undefined]
    for a file that is absent or does not parse. *)
Inductive SettingsFile : Type :=
| Absent
| Malformed
| Doc (D : JsonSettings).

Definition pathExists_output (file : SettingsFile) : bool :=
  match file with
  | Absent => false
  | Malformed | Doc _ => true
  end.

Definition readJsonFile (file : SettingsFile) : option JsonSettings :=
  match file with
  | Doc D => Some D
  | Absent | Malformed => None
  end.

(** What the provider reads from its host. *)
Record Host : Type := {
  (** [_configGlobal]: [has(name)] is [is_Some], [get(name, d)] the value
      or [d]. *)
  configGlobal : JsonSettings;
  (** [_configGlobalCCpp['default']]. *)
  configGlobalCCpp_default : option JsonSettings;
  (** [foldersInDir] of [fileUtils]. *)
  foldersInDir : string → list string;
  (** [pathExists] of [fileUtils], on paths other than [_outputPath]. *)
  pathExists : string → bool;
  (** Node's [path.join] on its list of segments. *)
  path_join : list string → string;
  (** [getCompilerArchitecture] of [systemUtils]: the fields
      [architecure] and [isCygwin] of its result. *)
  getCompilerArchitecture : JsonValue → Architectures * bool
}.

(** The fields of a [SettingsProvider]. [DEFAULT_INCLUDE_PATHS] is the
    content of the static array of that name: [includePaths] is that
    very array whenever the default is taken, so a [push] on it shows in
    the static too. *)
Record State : Type := {
  operatingSystem : OperatingSystems;
  architecure : option Architectures;
  isCygwin : bool;
  cCompilerPath : JsonValue;
  cppCompilerPath : JsonValue;
  debuggerPath : JsonValue;
  msvcBatchPath : JsonValue;
  msvcToolsPath : JsonValue;
  useMsvc : JsonValue;
  cStandard : JsonValue;
  cppStandard : JsonValue;
  compilerArgs : JsonValue;
  linkerArgs : JsonValue;
  includePaths : JsonValue;
  includeSearch : JsonValue;
  excludeSearch : JsonValue;
  enableWarnings : JsonValue;
  warningsAsError : JsonValue;
  warnings : JsonValue;
  DEFAULT_INCLUDE_PATHS : list JsonValue
}.

(** The field initialisers of the class, before the constructor body. *)
Definition initial (os : OperatingSystems) (static : list JsonValue)
    : State := {|
  operatingSystem := os;
  architecure := None;
  isCygwin := false;
  cCompilerPath := DEFAULT_C_COMPILER_PATH;
  cppCompilerPath := DEFAULT_CPP_COMPILER_PATH;
  debuggerPath := DEFAULT_DEBUGGER_PATH;
  msvcBatchPath := DEFAULT_MSVC_BATCH_PATH;
  msvcToolsPath := DEFAULT_MSVC_TOOLS_PATH;
  useMsvc := DEFAULT_USE_MSVC;
  cStandard := DEFAULT_C_STANDARD_UNIX;
  cppStandard := DEFAULT_CPP_STANDARD;
  compilerArgs := DEFAULT_COMPILER_ARGS;
  linkerArgs := DEFAULT_LINKER_ARGS;
  includePaths := JArr static;
  includeSearch := DEFAULT_INCLUDE_SEARCH;
  excludeSearch := DEFAULT_EXCLUDE_SEARCH;
  enableWarnings := DEFAULT_ENABLE_WARNINGS;
  warningsAsError := DEFAULT_WARNINGS_AS_ERRORS;
  warnings := DEFAULT_WARNINGS_UNIX;
  DEFAULT_INCLUDE_PATHS := static
|}.

Definition set_msvcToolsPath (v : JsonValue) (st : State) : State := {|
  operatingSystem := operatingSystem st;
  architecure := architecure st;
  isCygwin := isCygwin st;
  cCompilerPath := cCompilerPath st;
  cppCompilerPath := cppCompilerPath st;
  debuggerPath := debuggerPath st;
  msvcBatchPath := msvcBatchPath st;
  msvcToolsPath := v;
  useMsvc := useMsvc st;
  cStandard := cStandard st;
  cppStandard := cppStandard st;
  compilerArgs := compilerArgs st;
  linkerArgs := linkerArgs st;
  includePaths := includePaths st;
  includeSearch := includeSearch st;
  excludeSearch := excludeSearch st;
  enableWarnings := enableWarnings st;
  warningsAsError := warningsAsError st;
  warnings := warnings st;
  DEFAULT_INCLUDE_PATHS := DEFAULT_INCLUDE_PATHS st
|}.

Definition set_architecture (a : option Architectures) (cygwin : bool)
    (st : State) : State := {|
  operatingSystem := operatingSystem st;
  architecure := a;
  isCygwin := cygwin;
  cCompilerPath := cCompilerPath st;
  cppCompilerPath := cppCompilerPath st;
  debuggerPath := debuggerPath st;
  msvcBatchPath := msvcBatchPath st;
  msvcToolsPath := msvcToolsPath st;
  useMsvc := useMsvc st;
  cStandard := cStandard st;
  cppStandard := cppStandard st;
  compilerArgs := compilerArgs st;
  linkerArgs := linkerArgs st;
  includePaths := includePaths st;
  includeSearch := includeSearch st;
  excludeSearch := excludeSearch st;
  enableWarnings := enableWarnings st;
  warningsAsError := warningsAsError st;
  warnings := warnings st;
  DEFAULT_INCLUDE_PATHS := DEFAULT_INCLUDE_PATHS st
|}.

(** *** Helper functions *)

Definition getGlobalSettingsValue (h : Host) (name : string)
    (defaultValue : JsonValue) : JsonValue :=
  match configGlobal h !! name with
  | Some v => v
  | None => defaultValue
  end.

(** The part of [getSettingsValue] before its last line: the value found
    in the document or in the global configuration, [None] when the
    caller's default is to be returned. *)
Definition findSettingsValue (h : Host) (settingsLocal : option JsonSettings)
    (name : string) (isExtensionSetting : bool) : option JsonValue :=
  let settingName :=
    if isExtensionSetting then EXTENSION_NAME +:+ "." +:+ name else name in
  match settingsLocal ≫= (λ D, D !! settingName) with
  | Some v => Some v
  | None => configGlobal h !! name
  end.

Definition getSettingsValue (h : Host) (settingsLocal : option JsonSettings)
    (name : string) (defaultValue : JsonValue)
    (isExtensionSetting : bool) : JsonValue :=
  default defaultValue
    (findSettingsValue h settingsLocal name isExtensionSetting).

(** [update(key, value)]: read, merge, write, on the document as parsed.
    The write is taken to succeed (the configuration directory exists);
    [JsonFile.update] below is the same function over the file, where the
    write can fail and the values pass through [JSON.stringify]. *)
Definition update (key : string) (value : JsonValue) (file : SettingsFile)
    : SettingsFile :=
  let settingsJson := default ∅ (readJsonFile file) in
  let settingName := EXTENSION_NAME +:+ "." +:+ key in
  Doc (<[settingName := value]> settingsJson).

(** [replaceBackslashes(settingsValue)] on a value of any shape: only a
    string has a [replace] method taking the pattern. *)
Definition replaceBackslashes_any (v : JsonValue) : Result JsonValue :=
  match v with
  | JStr s => Ok (JStr (replaceBackslashes s))
  | _ => TypeError
  end.

Definition updateBasedOnEnv (st : State) (settingsName : string)
    (settingsValue : JsonValue) (file : SettingsFile) : Result SettingsFile :=
  match operatingSystem st with
  | windows =>
      v ← replaceBackslashes_any settingsValue;
      Ok (update settingsName v file)
  | _ => Ok (update settingsName settingsValue file)
  end.

(** [warning.includes('/')] on an element of any shape: a string holds
    the text, an array holds it as an element, anything else has no
    [includes] method. *)
Definition value_includes (sub : string) (v : JsonValue) : Result bool :=
  match v with
  | JStr s => Ok (includes sub s)
  | JArr l =>
      Ok (existsb (λ x, match x with
                        | JStr s => String.eqb s sub
                        | _ => false
                        end) l)
  | _ => TypeError
  end.

(** [l.some((warning) => warning.includes(sub))]: left to right, stopping
    at the first hit. *)
Fixpoint some_includes (sub : string) (l : list JsonValue) : Result bool :=
  match l with
  | [] => Ok false
  | w :: rest =>
      b ← value_includes sub w;
      if b : bool then Ok true else some_includes sub rest
  end.

(** [this.warnings.some(...)]: only an array has the method. *)
Definition warnings_some (sub : string) (v : JsonValue) : Result bool :=
  match v with
  | JArr l => some_includes sub l
  | _ => TypeError
  end.

(** The elements produced by spreading a value: the characters of a
    string, the elements of an array; other values are not iterable. *)
Definition spread (v : JsonValue) : Result (list JsonValue) :=
  match v with
  | JStr s => Ok (map JStr (codePoints s))
  | JArr l => Ok l
  | _ => TypeError
  end.

(** *** Main functions *)

Definition searchMsvcToolsPath (h : Host) (st : State) : Result State :=
  match msvcBatchPath st with
  | JStr batch =>
      let msvcBasePath := split_first "VC" batch in
      if is_empty msvcBasePath then Ok st else
      let msvcBasePath := msvcBasePath +:+ "VC/Tools/MSVC" in
      let installed_versions := foldersInDir h msvcBasePath in
      match last installed_versions with
      | None => Ok st
      | Some newst_version_path =>
          if is_empty newst_version_path then Ok st else
          let versionNumber := split_last "\"%char newst_version_path in
          if is_empty versionNumber then Ok st else
          let architecturePath :=
            match architecure st with
            | Some x64 | None => "bin/Hostx64/x64"
            | Some x86 => "bin/Hostx86/x86"
            end in
          if negb (pathExists h architecturePath) then Ok st else
          Ok (set_msvcToolsPath
                (JStr (path_join h
                         [msvcBasePath; versionNumber; architecturePath]))
                st)
      end
  | _ => TypeError
  end.

Definition loadLocalSettings (h : Host) (file : SettingsFile) (st : State)
    : Result State :=
  let settingsLocal := readJsonFile file in
  let get name defaultValue :=
    getSettingsValue h settingsLocal name defaultValue true in
  (* mandatory, then msvcBatchPath and useMsvc *)
  let st1 := {|
    operatingSystem := operatingSystem st;
    architecure := architecure st;
    isCygwin := isCygwin st;
    cCompilerPath := get "cCompilerPath" DEFAULT_C_COMPILER_PATH;
    cppCompilerPath := get "cppCompilerPath" DEFAULT_CPP_COMPILER_PATH;
    debuggerPath := get "debuggerPath" DEFAULT_DEBUGGER_PATH;
    msvcBatchPath := get "msvcBatchPath" DEFAULT_MSVC_BATCH_PATH;
    msvcToolsPath := msvcToolsPath st;
    useMsvc := get "useMsvc" DEFAULT_USE_MSVC;
    cStandard := cStandard st;
    cppStandard := cppStandard st;
    compilerArgs := compilerArgs st;
    linkerArgs := linkerArgs st;
    includePaths := includePaths st;
    includeSearch := includeSearch st;
    excludeSearch := excludeSearch st;
    enableWarnings := enableWarnings st;
    warningsAsError := warningsAsError st;
    warnings := warnings st;
    DEFAULT_INCLUDE_PATHS := DEFAULT_INCLUDE_PATHS st
  |} in
  st2 ← (if truthy (useMsvc st1) then searchMsvcToolsPath h st1 else Ok st1);
  let loaded := get "warnings" DEFAULT_WARNINGS_UNIX in
  msvcWarnings ← warnings_some "/" loaded;
  let warnings' :=
    if truthy (useMsvc st2) && negb msvcWarnings then DEFAULT_WARNINGS_MSVC
    else if negb (truthy (useMsvc st2)) && msvcWarnings
         then DEFAULT_WARNINGS_UNIX
         else loaded in
  (* includePaths is the static default array itself when neither the
     document nor the global configuration holds the setting *)
  let found := findSettingsValue h settingsLocal "includePaths" true in
  let includePaths0 := default (JArr (DEFAULT_INCLUDE_PATHS st2)) found in
  let globalIncludePath :=
    getSettingsValue h (configGlobalCCpp_default h) "includePath"
      (JStr "") false in
  includePaths' ←
    (if truthy globalIncludePath then
       match includePaths0 with
       | JArr l => extra ← spread globalIncludePath; Ok (JArr (l ++ extra))
       | _ => TypeError
       end
     else Ok includePaths0);
  Ok {|
    operatingSystem := operatingSystem st2;
    architecure := architecure st2;
    isCygwin := isCygwin st2;
    cCompilerPath := cCompilerPath st2;
    cppCompilerPath := cppCompilerPath st2;
    debuggerPath := debuggerPath st2;
    msvcBatchPath := msvcBatchPath st2;
    msvcToolsPath := msvcToolsPath st2;
    useMsvc := useMsvc st2;
    cStandard := get "cStandard" DEFAULT_C_STANDARD_UNIX;
    cppStandard := get "cppStandard" DEFAULT_CPP_STANDARD;
    compilerArgs := get "compilerArgs" DEFAULT_COMPILER_ARGS;
    linkerArgs := get "linkerArgs" DEFAULT_LINKER_ARGS;
    includePaths := includePaths';
    includeSearch := get "includeSearch" DEFAULT_INCLUDE_SEARCH;
    excludeSearch := get "excludeSearch" DEFAULT_EXCLUDE_SEARCH;
    enableWarnings := get "enableWarnings" DEFAULT_ENABLE_WARNINGS;
    warningsAsError := get "warningsAsError" DEFAULT_WARNINGS_AS_ERRORS;
    warnings := warnings';
    DEFAULT_INCLUDE_PATHS :=
      match found, includePaths' with
      | None, JArr l => l
      | _, _ => DEFAULT_INCLUDE_PATHS st2
      end
  |}.

Definition loadGlobalSettings (h : Host) (st : State) : State := {|
  operatingSystem := operatingSystem st;
  architecure := architecure st;
  isCygwin := isCygwin st;
  cCompilerPath :=
    getGlobalSettingsValue h "cCompilerPath" DEFAULT_C_COMPILER_PATH;
  cppCompilerPath :=
    getGlobalSettingsValue h "cppCompilerPath" DEFAULT_CPP_COMPILER_PATH;
  debuggerPath :=
    getGlobalSettingsValue h "debuggerPath" DEFAULT_DEBUGGER_PATH;
  msvcBatchPath :=
    getGlobalSettingsValue h "msvcBatchPath" DEFAULT_MSVC_BATCH_PATH;
  msvcToolsPath :=
    getGlobalSettingsValue h "msvcToolsPath" DEFAULT_MSVC_TOOLS_PATH;
  useMsvc := useMsvc st;
  cStandard := getGlobalSettingsValue h "cStandard" DEFAULT_C_STANDARD_UNIX;
  cppStandard := getGlobalSettingsValue h "cppStandard" DEFAULT_CPP_STANDARD;
  compilerArgs :=
    getGlobalSettingsValue h "compilerArgs" DEFAULT_COMPILER_ARGS;
  linkerArgs := getGlobalSettingsValue h "linkerArgs" DEFAULT_LINKER_ARGS;
  includePaths :=
    getGlobalSettingsValue h "includePaths"
      (JArr (DEFAULT_INCLUDE_PATHS st));
  includeSearch := includeSearch st;
  excludeSearch :=
    getGlobalSettingsValue h "excludeSearch" DEFAULT_EXCLUDE_SEARCH;
  enableWarnings :=
    getGlobalSettingsValue h "enableWarnings" DEFAULT_ENABLE_WARNINGS;
  warningsAsError :=
    getGlobalSettingsValue h "warningsAsError" DEFAULT_WARNINGS_AS_ERRORS;
  warnings := getGlobalSettingsValue h "warnings" DEFAULT_WARNINGS_UNIX;
  DEFAULT_INCLUDE_PATHS := DEFAULT_INCLUDE_PATHS st
|}.

Definition storeSettings (st : State) (file : SettingsFile)
    : Result SettingsFile :=
  file ← updateBasedOnEnv st "cCompilerPath" (cCompilerPath st) file;
  file ← updateBasedOnEnv st "cppCompilerPath" (cppCompilerPath st) file;
  file ← updateBasedOnEnv st "debuggerPath" (debuggerPath st) file;
  let file := update "cStandard" (cStandard st) file in
  let file := update "cppStandard" (cppStandard st) file in
  let file := update "msvcBatchPath" (msvcBatchPath st) file in
  let file := update "warnings" (warnings st) file in
  let file := update "enableWarnings" (enableWarnings st) file in
  let file := update "warningsAsError" (warningsAsError st) file in
  let file := update "compilerArgs" (compilerArgs st) file in
  let file := update "linkerArgs" (linkerArgs st) file in
  let file := update "includePaths" (includePaths st) file in
  let file := update "includeSearch" (includeSearch st) file in
  let file := update "excludeSearch" (excludeSearch st) file in
  Ok file.

Definition writeFileData (h : Host) (st : State) (file : SettingsFile)
    : Result (State * SettingsFile) :=
  st ← loadLocalSettings h file st;
  file ← storeSettings st file;
  Ok (st, file).

Definition deleteCallback (h : Host) (extensionState : option JsonSettings)
    (st : State) (file : SettingsFile) : Result (State * SettingsFile) :=
  let extensionIsActive := VscodeUtils.getActivationState extensionState in
  if truthy_opt extensionIsActive then writeFileData h st file
  else Ok (st, file).

Definition changeCallback (h : Host) (st : State) (file : SettingsFile)
    : Result State :=
  loadLocalSettings h file st.


Definition getArchitecture (h : Host) (st : State) : State :=
  if truthy (useMsvc st) then set_architecture (Some x64) false st
  else if truthy (cCompilerPath st) then
    let ret := getCompilerArchitecture h (cCompilerPath st) in
    set_architecture (Some (fst ret)) (snd ret) st
  else if truthy (cppCompilerPath st) then
    let ret := getCompilerArchitecture h (cppCompilerPath st) in
    set_architecture (Some (fst ret)) (snd ret) st
  else set_architecture (Some x64) false st.

(** Modelled from the spec: [localSettingExist] of [fileUtils], which is
    not part of the sources at hand. The three mandatory keys count by
    their presence in the document; the stored paths are not checked to
    be valid executables. *)
Definition localSettingExist (key : string) (jsonData : JsonSettings)
    : bool :=
  bool_decide (is_Some (jsonData !! key)).

Definition commandsAlreadyStored (file : SettingsFile) : bool :=
  if pathExists_output file then
    match readJsonFile file with
    | None => false
    | Some settingsJson =>
        if localSettingExist (EXTENSION_NAME +:+ ".cCompilerPath")
             settingsJson
           && localSettingExist (EXTENSION_NAME +:+ ".cppCompilerPath")
                settingsJson
           && localSettingExist (EXTENSION_NAME +:+ ".debuggerPath")
                settingsJson
        then true
        else false
    end
  else false.

Definition updateCheck (file : SettingsFile) : bool :=
  if negb (pathExists_output file) then true
  else if negb (commandsAlreadyStored file) then true
  else false.

(** The branch the constructor takes, from the three tests it starts
    with ([localFileExist('settings.json')], [updateCheck()] and
    [localFileExist('c_cpp_properties.json')], each [true] when the thing
    is missing) and the active folder. *)
Inductive LoadStrategy : Type :=
| ColdStart
| FromProperties
| WarmLoad
| NoLoad.

Definition loadStrategy
    (settingsFileMissing settingsMissing propertiesFileMissing : bool)
    (activeFolder : string) : LoadStrategy :=
  let allInfoMissing :=
    settingsMissing && propertiesFileMissing && negb (is_empty activeFolder) in
  let onlySettingsMissing :=
    settingsFileMissing && negb propertiesFileMissing
    && negb (is_empty activeFolder) in
  if allInfoMissing then ColdStart
  else if onlySettingsMissing then FromProperties
  else if negb (is_empty activeFolder) then WarmLoad
  else NoLoad.

End SettingsProvider.

(** ** The settings document as a file

    [readJsonFile] and [writeJsonFile] of [out/src/utils.js] and the
    provider's [update] over the file itself: the text of the document as
    its syntax tree, [JSON.parse] and [JSON.stringify] between the text
    and the values of the program, and a write that can fail. A text is
    held as what it denotes: its layout, the way a numeral spells its
    exponent, and the escapes and the encoding of a string are not kept. *)

Module JsonFile.

(** A numeral of a JSON text: its sign, the digits of its integer and
    fraction parts, and its decimal exponent less the number of fraction
    digits; it denotes [digits * 10 ^ exponent]. *)
Record Numeral : Type := {
  negative : bool;
  digits : N;
  exponent : Z
}.

(** A Number: a double-precision value [mantissa * 2 ^ binaryExponent]
    with its sign, the mantissa odd or zero, an infinity, or NaN. *)
Inductive Number : Type :=
| Finite (negative : bool) (mantissa : N) (binaryExponent : Z)
| Infinity (negative : bool)
| NaN.

(** [base ^ n] for an exponent of either sign. *)
Definition power (base : Z) (n : Z) : Q := Qpower (inject_Z base) n.

(** The integer nearest to a non-negative rational, the even one of two
    that are equally near. *)
Definition roundHalfEven (q : Q) : Z :=
  let below := Qfloor q in
  let rest := (q - inject_Z below)%Q in
  match (rest ?= 1 # 2)%Q with
  | Lt => below
  | Gt => below + 1
  | Eq => if Z.even below then below else below + 1
  end.

(** [floor (log2 q)] of a positive rational. *)
Definition binade (q : Q) : Z :=
  let estimate := (Z.log2 (Qnum q) - Z.log2 (Zpos (Qden q)))%Z in
  if Qle_bool (power 2 estimate) q then estimate else (estimate - 1)%Z.

(** The same value with an odd mantissa. *)
Fixpoint halve (fuel : nat) (mantissa : Z) (binaryExponent : Z) : Z * Z :=
  match fuel with
  | O => (mantissa, binaryExponent)
  | S fuel =>
      if Z.even mantissa && negb (mantissa =? 0)%Z
      then halve fuel (mantissa / 2)%Z (binaryExponent + 1)%Z
      else (mantissa, binaryExponent)
  end.

(** The Number value of a non-negative rational: the nearest double, ties
    to the even mantissa; an infinity from [2 ^ 1024] on. *)
Definition numberValue (negative : bool) (q : Q) : Number :=
  if Qle_bool q 0 then Finite negative 0 0
  else
    let e := (Z.max (binade q) (-1022) - 52)%Z in
    let m := roundHalfEven (q / power 2 e)%Q in
    if (m =? 0)%Z then Finite negative 0 0
    else if (1024 <=? Z.log2 m + e)%Z then Infinity negative
    else let '(m, e) := halve 53 m e in Finite negative (Z.to_N m) e.

(** The magnitude a numeral denotes. *)
Definition numeralValue (n : Numeral) : Q :=
  (inject_Z (Z.of_N (digits n)) * power 10 (exponent n))%Q.

(** The Number a numeral denotes. *)
Definition StringToNumber (n : Numeral) : Number :=
  numberValue (negative n) (numeralValue n).

(** Whether two Numbers are the same. *)
Definition Number_eqb (x y : Number) : bool :=
  match x, y with
  | Finite s m e, Finite s' m' e' =>
      Bool.eqb s s' && (m =? m')%N && (e =? e')%Z
  | Infinity s, Infinity s' => Bool.eqb s s'
  | NaN, NaN => true
  | _, _ => false
  end.

(** The least [n] from [from] on with [q < 10 ^ n]. *)
Fixpoint magnitude (fuel : nat) (from : Z) (q : Q) : Z :=
  match fuel with
  | O => from
  | S fuel =>
      if Qle_bool (power 10 from) q then magnitude fuel (from + 1)%Z q
      else from
  end.

(** [Number::toString], as the numeral it spells: the fewest digits [k]
    and the digits [s] with [s * 10 ^ (n - k)] of Number value [x], of two
    such the one nearer to [x], the even one when equally near. *)
Fixpoint shortest (fuel : nat) (k : Z) (n : Z) (x : Number) (q : Q)
    : Numeral :=
  let low := Qfloor (q / power 10 (n - k))%Q in
  let candidate s := {| negative := false; digits := Z.to_N s;
                        exponent := n - k |} in
  let isX s := Number_eqb (StringToNumber (candidate s)) x in
  match fuel with
  | O => candidate low
  | S fuel =>
      match isX low, isX (low + 1)%Z with
      | true, false => candidate low
      | false, true => candidate (low + 1)%Z
      | true, true =>
          match ((q - numeralValue (candidate low))
                 ?= (numeralValue (candidate (low + 1)%Z) - q))%Q with
          | Lt => candidate low
          | Gt => candidate (low + 1)%Z
          | Eq => if Z.even low then candidate low
                  else candidate (low + 1)%Z
          end
      | false, false => shortest fuel (k + 1)%Z n x q
      end
  end.

(** The numeral [JSON.stringify] writes for a Number, by
    [Number::toString]: an integer of at most 21 digits in full, any
    other Number as its shortest digits with their exponent; [None] stands
    for [null], written for what is not finite. *)
Definition NumberToString (x : Number) : option Numeral :=
  match x with
  | Finite _ 0 _ => Some {| negative := false; digits := 0; exponent := 0 |}
  | Finite s m e =>
      let q := (inject_Z (Z.of_N m) * power 2 e)%Q in
      let n := magnitude 8 (binade q * 30103 / 100000 - 1) q in
      let r := shortest 17 1 n (Finite false m e) q in
      Some (if (0 <=? exponent r)%Z && (n <=? 21)%Z
            then {| negative := s;
                    digits := digits r * 10 ^ Z.to_N (exponent r);
                    exponent := 0 |}
            else {| negative := s; digits := digits r;
                    exponent := exponent r |})
  | Infinity _ | NaN => None
  end.

(** The text of a JSON document: the members of an object in the order of
    the text, a name as often as the text repeats it. *)
#[warnings="-register-all"]
Inductive Json : Type :=
| TNull
| TBool (b : bool)
| TNumber (n : Numeral)
| TString (s : string)
| TArray (elements : list Json)
| TObject (members : list (string * Json)).

(** The values [JSON.parse] gives and [JSON.stringify] takes: the
    properties of an object in property order. *)
#[warnings="-register-all"]
Inductive Value : Type :=
| VUndefined
| VNull
| VBoolean (b : bool)
| VNumber (x : Number)
| VString (s : string)
| VArray (elements : list Value)
| VObject (properties : list (string * Value)).

(** [!v] is [negb (ToBoolean v)]. *)
Definition ToBoolean (v : Value) : bool :=
  match v with
  | VUndefined | VNull => false
  | VBoolean b => b
  | VNumber (Finite _ 0 _) | VNumber NaN => false
  | VNumber _ => true
  | VString s => negb (String.eqb s "")
  | VArray _ | VObject _ => true
  end.

(** The value of a decimal digit. *)
Definition digitOf (a : ascii) : option N :=
  let code := N_of_ascii a in
  if (48 <=? code)%N && (code <=? 57)%N then Some (code - 48)%N else None.

(** The value of a text of decimal digits, after [value]. *)
Fixpoint digitsValue (value : N) (s : string) : option N :=
  match s with
  | EmptyString => Some value
  | String a rest =>
      match digitOf a with
      | Some d => digitsValue (10 * value + d)%N rest
      | None => None
      end
  end.

(** A property name that is an array index: the canonical decimal
    spelling of an integer below [2 ^ 32 - 1]. *)
Definition arrayIndex (name : string) : option N :=
  match name with
  | EmptyString => None
  | String a rest =>
      if Ascii.eqb a "0" && negb (String.eqb rest "") then None
      else match digitsValue 0 name with
           | Some i => if (i <? 2 ^ 32 - 1)%N then Some i else None
           | None => None
           end
  end.

(** Whether the object has an own property of the name. *)
Definition hasProperty (name : string) (properties : list (string * Value))
    : bool :=
  existsb (λ property, String.eqb property.1 name) properties.

(** The properties with the value of the property [name] replaced. *)
Fixpoint replaceValue (name : string) (value : Value)
    (properties : list (string * Value)) : list (string * Value) :=
  match properties with
  | [] => []
  | (k, v) :: rest =>
      if String.eqb k name then (k, value) :: rest
      else (k, v) :: replaceValue name value rest
  end.

(** The place of a new property in property order: the array indices
    first, ascending, then the other names as they were created. *)
Fixpoint insertProperty (name : string) (value : Value)
    (properties : list (string * Value)) : list (string * Value) :=
  match properties with
  | [] => [(name, value)]
  | (k, v) :: rest =>
      match arrayIndex name, arrayIndex k with
      | Some i, Some j =>
          if (i <? j)%N then (name, value) :: properties
          else (k, v) :: insertProperty name value rest
      | Some _, None => (name, value) :: properties
      | None, _ => (k, v) :: insertProperty name value rest
      end
  end.

(** A data property of an ordinary object created or given a value: an
    existing property keeps its place. *)
Definition defineProperty (name : string) (value : Value)
    (properties : list (string * Value)) : list (string * Value) :=
  if hasProperty name properties then replaceValue name value properties
  else insertProperty name value properties.

(** [JSON.parse] on a text that is JSON. *)
Fixpoint parse (text : Json) : Value :=
  match text with
  | TNull => VNull
  | TBool b => VBoolean b
  | TNumber n => VNumber (StringToNumber n)
  | TString s => VString s
  | TArray elements => VArray (map parse elements)
  | TObject members =>
      VObject (fold_left
                 (λ properties member,
                    defineProperty member.1 (parse member.2) properties)
                 members [])
  end.

(** [JSON.stringify(v, null, 2)]: [None] is [undefined]; an undefined
    element of an array is written [null], an undefined property is left
    out. *)
Fixpoint stringify (v : Value) : option Json :=
  match v with
  | VUndefined => None
  | VNull => Some TNull
  | VBoolean b => Some (TBool b)
  | VNumber x =>
      Some match NumberToString x with
           | Some n => TNumber n
           | None => TNull
           end
  | VString s => Some (TString s)
  | VArray elements =>
      Some (TArray (map (λ element, default TNull (stringify element))
                      elements))
  | VObject properties =>
      Some (TObject
              (omap (λ property,
                       match stringify property.2 with
                       | Some text => Some (property.1, text)
                       | None => None
                       end)
                 properties))
  end.

(** What the file at [_outputPath] holds. *)
Inductive FileContent : Type :=
| NoFile
| NotJson
| JsonText (text : Json).

(** The file and whether [fs.writeFileSync] can write it: it cannot when
    the configuration directory is gone or the file is protected. *)
Record Disk : Type := {
  content : FileContent;
  writable : bool
}.

(** Outcome of a reaction that writes the file. *)
Inductive Outcome : Type :=
| Written (disk : Disk)
| TypeErrorRaised
| SystemErrorRaised.

(** [readJsonFile(filePath)]: [undefined] when the file cannot be read or
    parsed. *)
Definition readJsonFile (disk : Disk) : Value :=
  match content disk with
  | JsonText text => parse text
  | NoFile | NotJson => VUndefined
  end.

(** [writeJsonFile(outputFilePath, jsonContent)]. For [undefined] there
    is no text to write and [fs.writeFileSync] rejects its data; [update]
    hands over an object or an array, never [undefined]. *)
Definition writeJsonFile (disk : Disk) (jsonContent : Value) : Outcome :=
  match stringify jsonContent with
  | None => TypeErrorRaised
  | Some jsonString =>
      if writable disk
      then Written {| content := JsonText jsonString; writable := true |}
      else SystemErrorRaised
  end.

(** [update(key, value)]. The name of the setting starts with the name of
    the extension: on an array it names no element, so the assignment
    changes nothing [JSON.stringify] writes; on a boolean, a number or a
    string the assignment raises, the code of the class being strict. *)
Definition update (key : string) (value : Value) (disk : Disk) : Outcome :=
  let settingsJson := readJsonFile disk in
  let settingsJson :=
    if negb (ToBoolean settingsJson) then VObject [] else settingsJson in
  let settingName := SettingsProvider.EXTENSION_NAME +:+ "." +:+ key in
  match settingsJson with
  | VObject properties =>
      writeJsonFile disk
        (VObject (defineProperty settingName value properties))
  | VArray elements => writeJsonFile disk (VArray elements)
  | _ => TypeErrorRaised
  end.

End JsonFile.

(** ** Build-task synthesis: [executeTask] *)

Module TaskProvider.
Import Utils.

Inductive Builds : Type := debug | release.

(** Modelled from the spec: the string values of the [Builds] enum of
    [utils/types], which is not part of the sources at hand; the
    specification names the directories [build/<mode>/] and the
    executables [<mode>Main] after the modes [debug] and [release]. *)
Definition Builds_value (buildMode : Builds) : string :=
  match buildMode with
  | debug => "debug"
  | release => "release"
  end.

(** The members of the settings provider that [executeTask] reads. *)
Record Settings : Type := {
  operatingSystem : OperatingSystems;
  cCompiler : option string;
  cppCompiler : option string;
  cStandard : option string;
  cppStandard : option string;
  enableWarnings : bool;
  warningsAsError : bool;
  warnings : list string;
  includePaths : list string;
  compilerArgs : option string;
  linkerArgs : option string
}.

Record TaskExecution : Type := { commandLine : string }.
Record Task : Type := { execution : option TaskExecution }.

(** [if (s)] on a string that may be undefined. *)
Definition nonempty (s : option string) : bool :=
  match s with
  | Some s => negb (is_empty s)
  | None => false
  end.

(** The directories that exist, by their paths as [path.join] spells
    them. *)
Definition pathExists (fs : gset string) (filePath : string) : bool :=
  bool_decide (filePath ∈ fs).

(** A character that separates the segments of a path: the slash, and on
    Windows the backslash as well. *)
Definition isSeparator (os : OperatingSystems) (a : ascii) : bool :=
  Ascii.eqb a "/"%char
  || match os with
     | windows => Ascii.eqb a "\"%char
     | _ => false
     end.

(** The prefixes of [before ++ rest] that end in [rest] where a separator
    follows, the empty one left out. *)
Fixpoint prefixesAt (os : OperatingSystems) (before rest : string)
    : list string :=
  match rest with
  | EmptyString => []
  | String a rest' =>
      (if isSeparator os a && negb (is_empty before) then [before] else [])
      ++ prefixesAt os (before +:+ String a EmptyString) rest'
  end.

(** The directories above a path, as the path spells them. *)
Definition parentsOf (os : OperatingSystems) (filePath : string)
    : list string :=
  prefixesAt os EmptyString filePath.

(** [fs.mkdirSync(filePath, { recursive: true })] creates the directory
    and the directories above it that are missing. *)
Definition mkdirRecursive (os : OperatingSystems) (fs : gset string)
    (filePath : string) : gset string :=
  {[filePath]} ∪ list_to_set (parentsOf os filePath) ∪ fs.

Section WithPathJoin.
(** Node's [path.join] on its list of segments. *)
Variable path_join : list string → string.

Definition buildDir (activeFolder : string) (buildMode : Builds) : string :=
  path_join [activeFolder; "build/" +:+ Builds_value buildMode +:+ "/"].

Definition executableName (os : OperatingSystems) (buildMode : Builds)
    : string :=
  match os with
  | windows => Builds_value buildMode +:+ "Main.exe"
  | _ => Builds_value buildMode +:+ "Main"
  end.

Definition executablePath (os : OperatingSystems) (activeFolder : string)
    (buildMode : Builds) : string :=
  path_join [buildDir activeFolder buildMode; executableName os buildMode].

Definition compilerOf (sp : Settings) (language : Languages)
    : option string :=
  match language with
  | cpp => cppCompiler sp
  | c => cCompiler sp
  end.

Definition standardOf (sp : Settings) (language : Languages)
    : option string :=
  match language with
  | cpp => cppStandard sp
  | c => cStandard sp
  end.

Definition warningsOf (sp : Settings) : string :=
  let useWarnings := enableWarnings sp in
  let warningsAsErrors := warningsAsError sp in
  let warnings0 := if useWarnings then join " " (warnings sp) else "" in
  if useWarnings && warningsAsErrors then warnings0 +:+ " -Werror"
  else warnings0.

Definition includesOf (sp : Settings) : string :=
  join " -I " (includePaths sp).

Definition fullCompilerArgs (sp : Settings) (language : Languages)
    (buildMode : Builds) : string :=
  let warnings := warningsOf sp in
  let standard := standardOf sp language in
  let includes := includesOf sp in
  let args := "" in
  let args := if negb (is_empty warnings) then args +:+ warnings else args in
  let args :=
    if nonempty standard then args +:+ " --std=" +:+ template standard
    else args in
  let args :=
    match buildMode with
    | debug => args +:+ " -g3 -O0"
    | release => args +:+ " -O3 -DNDEBUG"
    end in
  let args :=
    if nonempty (compilerArgs sp) then args +:+ template (compilerArgs sp)
    else args in
  let args :=
    if nonempty (linkerArgs sp) then args +:+ template (linkerArgs sp)
    else args in
  let args := if negb (is_empty includes) then args +:+ includes else args in
  args.

(** The variables the loop over [files] updates. *)
Record Loop : Type := {
  loop_commandLine : string;
  objectFiles : list string;
  loop_fs : gset string
}.

(** The two [continue] guards at the head of the loop body. *)
Definition skips (language : Languages) (file : string) : bool :=
  let fileExtension := Path.parse_ext file in
  if match language with
     | c => negb (isCSourceFile fileExtension)
     | cpp => false
     end
  then true
  else if match language with
          | cpp => negb (isCppSourceFile fileExtension)
          | c => false
          end
  then true
  else false.

(** One iteration of [for (const file of files)]. *)
Definition loopBody (sp : Settings) (activeFolder : string)
    (buildMode : Builds) (language : Languages) (acc : Loop)
    (file : string) : Loop :=
  if skips language file then acc
  else
    let compiler := compilerOf sp language in
    let args := fullCompilerArgs sp language buildMode in
    let dir := buildDir activeFolder buildMode in
    let fileBaseName := Path.parse_name file in
    let filePath := path_join [activeFolder; file] in
    let objectFilePath := path_join [dir; fileBaseName +:+ ".o"] in
    let fs :=
      if negb (pathExists (loop_fs acc) dir)
      then mkdirRecursive (operatingSystem sp) (loop_fs acc) dir
      else loop_fs acc in
    let fullFileArgs := "-c " +:+ filePath +:+ " -o " +:+ objectFilePath in
    let sub :=
      template compiler +:+ " " +:+ args +:+ " " +:+ fullFileArgs in
    {| loop_commandLine :=
         if (String.length (loop_commandLine acc) =? 0)%nat
         then loop_commandLine acc +:+ sub
         else loop_commandLine acc +:+ " && " +:+ sub;
       objectFiles := objectFiles acc ++ [objectFilePath];
       loop_fs := fs |}.

(** [executeTask(task, settingsProvider, activeFolder, buildMode)].
    [fileDirents] is the listing [getLanguage] reads, [files] the
    result of [filesInDir(activeFolder)] and [fs] the directories that
    exist. The result holds the command line handed to
    [vscode.tasks.executeTask], if any, and the directories that exist
    afterwards. *)
Definition executeTask (task : option Task) (sp : Settings)
    (activeFolder : string) (buildMode : Builds)
    (fileDirents : list Dirent) (files : list string) (fs : gset string)
    : option string * gset string :=
  let language := getLanguage fileDirents in
  let compiler := compilerOf sp language in
  let args := fullCompilerArgs sp language buildMode in
  let final :=
    fold_left (loopBody sp activeFolder buildMode language) files
      {| loop_commandLine := ""; objectFiles := []; loop_fs := fs |} in
  let objectFilesStr := join " " (objectFiles final) in
  let fullObjectFileArgs :=
    objectFilesStr +:+ " -o "
      +:+ executablePath (operatingSystem sp) activeFolder buildMode in
  match task ≫= execution with
  | Some _ =>
      (Some (loop_commandLine final +:+ " && " +:+ template compiler
               +:+ " " +:+ args +:+ " " +:+ fullObjectFileArgs),
       loop_fs final)
  | None => (None, loop_fs final)
  end.

(** The compile set: the files of the listing that reach the compile
    step of the loop, in listing order. *)
Definition compileSet (language : Languages) (files : list string)
    : list string :=
  List.filter (λ file, negb (skips language file)) files.

End WithPathJoin.

End TaskProvider.

(** ** [out/src/utils.js], the other helpers *)

Module UtilsMore.
Import Utils.

(** [getOperatingSystem()], on the value of [os.platform()]. *)
Definition getOperatingSystem (plattformName : string) : OperatingSystems :=
  if String.eqb plattformName "win32" || String.eqb plattformName "cygwin"
  then windows
  else if String.eqb plattformName "darwin" then mac
  else linux.

(** The text of [s] from position [n] on. *)
Fixpoint drop_chars (n : nat) (s : string) : string :=
  match n, s with
  | O, _ => s
  | S n', String _ s' => drop_chars n' s'
  | S _, EmptyString => EmptyString
  end.

(** [s.replace(pat, rep)] for a string pattern and a replacement without
    dollar signs: the first occurrence of [pat] only. *)
Fixpoint replace_first (pat rep s : string) : string :=
  if String.prefix pat s then rep +:+ drop_chars (String.length pat) s
  else match s with
       | EmptyString => EmptyString
       | String a s' => String a (replace_first pat rep s')
       end.

(** The result of [commandExists]: its members [found] and [path]. *)
Record CommandResult : Type := { found : bool; path : option string }.

(** [commandExists(command)]. [lookpath] is the package of that name: the
    path of the command, [None] when it is not on the search path. *)
Definition commandExists (lookpath : string → option string)
    (command : string) : CommandResult :=
  let commandPath := lookpath command in
  match commandPath with
  | None => {| found := false; path := commandPath |}
  | Some p =>
      if is_empty p then {| found := false; path := commandPath |}
      else
        let p' :=
          if includes ".EXE" p then replace_first ".EXE" ".exe" p else p in
        {| found := true; path := Some p' |}
  end.

(** [filterOnString(names, filterName)]. *)
Definition filterOnString (names : list string) (filterName : string)
    : list string :=
  List.filter (λ name, negb (includes filterName name)) names.

Section WithLowerCase.
(** [String.prototype.toLowerCase]. *)
Variable toLowerCase : string → string.

Definition isSourceFile (fileExt : string) : bool :=
  let fileExtLower := toLowerCase fileExt in
  if isHeaderFile fileExtLower then false
  else if negb (isCSourceFile fileExtLower || isCppSourceFile fileExtLower)
  then false
  else true.

End WithLowerCase.

(** The content of a directory as [fs.readdirSync] lists it, entry by
    entry: the name of the entry and, when [isDirectory()] holds of it,
    the content of that directory. *)
#[warnings="-register-all"]
Inductive DirTree : Type :=
| DirNode (entries : list (string * option DirTree)).

Section WithPathJoin.
(** Node's [path.join] on its list of segments. *)
Variable path_join : list string → string.

(** The two filters of [getDirectories] on a path. *)
Definition keptDirectory (dir : string) : bool :=
  negb (includes ".vscode" dir) && negb (includes "build" dir).

(** [directories] as it is before the [forEach]: the joined paths of the
    entries that are directories, filtered. *)
Fixpoint directDirectories (folder : string)
    (entries : list (string * option DirTree)) : list string :=
  match entries with
  | [] => []
  | (dirName, Some _) :: rest =>
      let dir := path_join [folder; dirName] in
      if keptDirectory dir then dir :: directDirectories folder rest
      else directDirectories folder rest
  | (_, None) :: rest => directDirectories folder rest
  end.

(** [getDirectories(folder)], [None] for [undefined]. The [forEach] visits
    the elements [directories] has when it starts, and appends to it the
    result of each recursive call. *)
Fixpoint getDirectories (folder : string) (content : DirTree)
    : option (list string) :=
  match content with
  | DirNode entries =>
      let directories := directDirectories folder entries in
      match directories with
      | [] => None
      | _ :: _ =>
          Some (app directories
                ((fix visit (es : list (string * option DirTree))
                   : list string :=
                   match es with
                   | [] => []
                   | (dirName, Some sub) :: rest =>
                       let dir := path_join [folder; dirName] in
                       if keptDirectory dir
                       then app (default [] (getDirectories dir sub))
                              (visit rest)
                       else visit rest
                   | (_, None) :: rest => visit rest
                   end) entries))
      end
  end.

End WithPathJoin.

End UtilsMore.

(** ** Run and clean tasks: [runTask], [cleanTask] *)

Module TaskCommands.
Import Utils TaskProvider.

Section WithPathJoin.
(** Node's [path.join] on its list of segments. *)
Variable path_join : list string → string.

(** [runTask(task, activeFolder, buildMode, operatingSystem)]: the command
    line handed to [vscode.tasks.executeTask], if any. *)
Definition runTask (task : option Task) (activeFolder : string)
    (buildMode : Builds) (operatingSystem : OperatingSystems)
    : option string :=
  let buildDir :=
    path_join [activeFolder; "build/" +:+ Builds_value buildMode +:+ "/"] in
  let executableName :=
    match operatingSystem with
    | windows => Builds_value buildMode +:+ "Main.exe"
    | _ => Builds_value buildMode +:+ "Main"
    end in
  let executablePath := path_join [buildDir; executableName] in
  match task ≫= execution with
  | Some _ => Some executablePath
  | None => None
  end.

(** [cleanTask(task, activeFolder, buildMode, operatingSystem)]. *)
Definition cleanTask (task : option Task) (activeFolder : string)
    (buildMode : Builds) (operatingSystem : OperatingSystems)
    : option string :=
  let buildDir :=
    path_join [activeFolder; "build/" +:+ Builds_value buildMode +:+ "/"] in
  let rmCommand :=
    match operatingSystem with
    | windows => "del "
    | _ => "rm -r"
    end in
  match task ≫= execution with
  | Some _ => Some (rmCommand +:+ " " +:+ buildDir)
  | None => None
  end.

End WithPathJoin.

End TaskCommands.

(** ** [src/provider/settingsProvider.ts], the constructor and the load
    from the properties document *)

Module SettingsConstruction.
Import Utils SettingsProvider.

(** The member [key] of a parsed JSON object; a key the text repeats has
    its last value, as [JSON.parse] has it. *)
Fixpoint assoc (key : string) (fields : list (string * JsonValue))
    : option JsonValue :=
  match fields with
  | [] => None
  | (k, v) :: rest =>
      match assoc key rest with
      | Some later => Some later
      | None => if String.eqb k key then Some v else None
      end
  end.

(** [v.configurations]: a [TypeError] on [undefined] and [null], the
    member of an object, [undefined] on any other value. *)
Definition configurationsOf (v : option JsonValue)
    : Result (option JsonValue) :=
  match v with
  | None | Some JNull => TypeError
  | Some (JObj fields) => Ok (assoc "configurations" fields)
  | Some _ => Ok None
  end.

(** [v[0]]: a [TypeError] on [undefined] and [null], the first element of
    an array, the first character of a string, the member [0] of an
    object, [undefined] otherwise. *)
Definition firstOf (v : option JsonValue) : Result (option JsonValue) :=
  match v with
  | None | Some JNull => TypeError
  | Some (JArr l) => Ok (head l)
  | Some (JStr s) =>
      Ok (match s with
          | EmptyString => None
          | String ch _ => Some (JStr (String ch EmptyString))
          end)
  | Some (JObj fields) => Ok (assoc "0" fields)
  | Some _ => Ok None
  end.

(** [getPropertiesValue(properties, name, defaultValue)], for the names
    the provider asks for, which only an object can hold. *)
Definition getPropertiesValue (properties : option JsonValue) (name : string)
    (defaultValue : JsonValue) : JsonValue :=
  match properties with
  | Some (JObj fields) => default defaultValue (assoc name fields)
  | _ => defaultValue
  end.

(** [v !== s] for a string [s]. *)
Definition differsFrom (v : JsonValue) (s : string) : bool :=
  match v with
  | JStr t => negb (String.eqb t s)
  | _ => true
  end.

(** [v.length !== 0]: a [TypeError] on [null]. *)
Definition lengthIsNotZero (v : JsonValue) : Result bool :=
  match v with
  | JNull => TypeError
  | JArr l => Ok (negb (length l =? 0)%nat)
  | JStr s => Ok (negb (is_empty s))
  | JObj fields =>
      Ok (match assoc "length" fields with
          | Some (JNum n) => negb (n =? 0)%Z
          | _ => true
          end)
  | JNum _ | JBool _ => Ok true
  end.

Section WithPath.
(** Node's [path.dirname] and [path.basename], and
    [String.prototype.toLowerCase]. *)
Variables (path_dirname path_basename toLowerCase : string → string).

(** [getSettingsFromProperties()]. [propertiesFile] is what [readJsonFile]
    yields for [c_cpp_properties.json]. The functions of [path] raise a
    [TypeError] on an argument that is not a string. *)
Definition getSettingsFromProperties (h : Host)
    (propertiesFile : option JsonValue) (st : State) : Result State :=
  configurations ← configurationsOf propertiesFile;
  properties ← firstOf configurations;
  if negb (truthy_opt properties) then Ok st
  else
    let cCompilerPath' :=
      getPropertiesValue properties "compilerPath" DEFAULT_C_COMPILER_PATH in
    match cCompilerPath' with
    | JStr cPath =>
        let rootDirCompiler := path_dirname cPath in
        let programSuffix :=
          match operatingSystem st with
          | windows => ".exe"
          | _ => ""
          end in
        let isClang := includes "clang" (toLowerCase (path_basename cPath)) in
        let cppCompilerPath' :=
          if isClang then "clang++" +:+ programSuffix
          else "g++" +:+ programSuffix in
        let debuggerPath' :=
          if isClang then "lldb" +:+ programSuffix
          else "gdb" +:+ programSuffix in
        let _cStandard :=
          getPropertiesValue properties "cStandard" DEFAULT_C_STANDARD_UNIX in
        let _cppStandard :=
          getPropertiesValue properties "cppStandard" DEFAULT_CPP_STANDARD in
        let _includePaths :=
          getPropertiesValue properties "includePath"
            (JArr (DEFAULT_INCLUDE_PATHS st)) in
        notEmpty ← lengthIsNotZero _includePaths;
        Ok {|
          operatingSystem := operatingSystem st;
          architecure := architecure st;
          isCygwin := isCygwin st;
          cCompilerPath := cCompilerPath';
          cppCompilerPath :=
            JStr (path_join h [rootDirCompiler; cppCompilerPath']);
          debuggerPath := JStr (path_join h [rootDirCompiler; debuggerPath']);
          msvcBatchPath := msvcBatchPath st;
          msvcToolsPath := msvcToolsPath st;
          useMsvc := useMsvc st;
          cStandard :=
            if differsFrom _cStandard "${default}" then _cStandard
            else DEFAULT_C_STANDARD_UNIX;
          cppStandard :=
            if differsFrom _cppStandard "${default}" then _cppStandard
            else DEFAULT_CPP_STANDARD;
          compilerArgs := DEFAULT_COMPILER_ARGS;
          linkerArgs := DEFAULT_LINKER_ARGS;
          includePaths :=
            if notEmpty : bool then _includePaths
            else JArr (DEFAULT_INCLUDE_PATHS st);
          includeSearch := includeSearch st;
          excludeSearch := DEFAULT_EXCLUDE_SEARCH;
          enableWarnings := DEFAULT_ENABLE_WARNINGS;
          warningsAsError := DEFAULT_WARNINGS_AS_ERRORS;
          warnings := DEFAULT_WARNINGS_UNIX;
          DEFAULT_INCLUDE_PATHS := DEFAULT_INCLUDE_PATHS st
        |}
    | _ => TypeError
    end.

(** The constructor. [createFileData] is the method of that name of
    [FileProvider], which is not part of the sources at hand;
    [settingsFileMissing] and [propertiesFileMissing] are the answers of
    [localFileExist], [os] the one of [getOperatingSystem()] and [static]
    the content of the static default include paths. *)
Definition constructor (h : Host)
    (createFileData : State → SettingsFile → Result (State * SettingsFile))
    (os : OperatingSystems) (static : list JsonValue)
    (settingsFileMissing propertiesFileMissing : bool)
    (file : SettingsFile) (propertiesFile : option JsonValue)
    (activeFolder : string) : Result (State * SettingsFile) :=
  let st := initial os static in
  let settingsMissing := updateCheck file in
  match loadStrategy settingsFileMissing settingsMissing propertiesFileMissing
          activeFolder with
  | ColdStart =>
      let st := loadGlobalSettings h st in
      created ← createFileData st file;
      Ok (getArchitecture h (fst created), snd created)
  | FromProperties =>
      st ← getSettingsFromProperties h propertiesFile st;
      created ← createFileData st file;
      Ok (getArchitecture h (fst created), snd created)
  | WarmLoad =>
      st ← loadLocalSettings h file st;
      Ok (getArchitecture h st, file)
  | NoLoad => Ok (st, file)
  end.

End WithPath.

End SettingsConstruction.

(** ** [src/utils/vscodeUtils.ts], the other helpers *)

Module VscodeUtilsMore.
Import Utils.

(** [updateActivationState(newState)] on the memento, which it leaves
    undefined when it is. *)
Definition updateActivationState (newState : bool)
    (extensionState : option JsonSettings) : option JsonSettings :=
  match extensionState with
  | Some memento => Some (<["activatedExtension" := JBool newState]> memento)
  | None => None
  end.

Section WithConfig.
(** A launch configuration and its member [name]. *)
Variable Config : Type.
Variable name : Config → string.

Record JsonLaunchConfig : Type := { configurations : list Config }.

(** The loop of [getLaunchConfigIndex], from the index [configIdx] on. *)
Fixpoint indexFrom (configIdx : nat) (configs : list Config)
    (configName : string) : option nat :=
  match configs with
  | [] => None
  | config :: rest =>
      if negb (String.eqb (name config) configName)
      then indexFrom (S configIdx) rest configName
      else Some configIdx
  end.

(** [getLaunchConfigIndex(configJson, configName)], [None] for
    [undefined]. *)
Definition getLaunchConfigIndex (configJson : option JsonLaunchConfig)
    (configName : string) : option nat :=
  match configJson with
  | Some json => indexFrom 0 (configurations json) configName
  | None => None
  end.

End WithConfig.

(** What [isCmakeProject] reads from its host. *)
Record CmakeHost : Type := {
  (** [vscode.workspace.workspaceFolders], as the paths of the folders. *)
  workspaceFolders : option (list string);
  (** [filesInDir] of [fileUtils]. *)
  filesInDir : string → list string;
  pathExists : string → bool;
  readJsonFile : string → option JsonSettings;
  path_join : list string → string;
  toLowerCase : string → string;
  (** [config.get('sourceDirectory')] of the [cmake] configuration. *)
  cmakeSourceDirectory : option JsonValue
}.

(** The body of the loop over the workspace folders. *)
Definition visitFolder (host : CmakeHost) (cmakeFileFound : bool)
    (folder : string) : bool :=
  if negb cmakeFileFound then
    let cmakeFileFound :=
      fold_left
        (λ found file,
           if includes (toLowerCase host "CMakeLists.txt")
                (toLowerCase host file)
           then true else found)
        (filesInDir host folder) cmakeFileFound in
    let settingsPath :=
      path_join host [folder; ".vscode"; "settings.json"] in
    if pathExists host settingsPath then
      match readJsonFile host settingsPath with
      | Some configLocal =>
          if truthy_opt (configLocal !! "cmake.sourceDirectory") then true
          else cmakeFileFound
      | None => cmakeFileFound
      end
    else cmakeFileFound
  else cmakeFileFound.

Definition isCmakeProject (host : CmakeHost) : bool :=
  let cmakeFileFound :=
    match workspaceFolders host with
    | Some folders => fold_left (visitFolder host) folders false
    | None => false
    end in
  if negb cmakeFileFound then
    match cmakeSourceDirectory host with
    | Some cmakeSetting =>
        if truthy cmakeSetting
           && match cmakeSetting with
              | JStr s => negb (String.eqb s "${workspaceFolder}")
              | _ => true
              end
        then true else cmakeFileFound
    | None => cmakeFileFound
    end
  else cmakeFileFound.

(** The two kinds of execution handed to the task. *)
Inductive Execution : Type :=
| ShellExecution (commandLine executable : string) (shellArgs : list string)
| ProcessExecution (process : string) (args : list string) (cwd : string).

(** [winProcessExecution]; [SystemDrive] is the environment variable. *)
Definition winProcessExecution (SystemDrive : option string)
    (isMsvcBuildTask : bool) (commandLine cwd : string) : Execution :=
  let drive :=
    match SystemDrive with
    | Some d => if is_empty d then "C:" else d
    | None => "C:"
    end in
  if isMsvcBuildTask then
    ShellExecution commandLine (drive +:+ "/Windows/System32/cmd.exe")
      ["/d"; "/c"]
  else
    ProcessExecution (drive +:+ "/Windows/System32/cmd.exe")
      ["/d"; "/c"; commandLine] cwd.

(** [unixProcessExecution]; [SHELL] is the environment variable. *)
Definition unixProcessExecution (SHELL : option string)
    (commandLine cwd : string) : Execution :=
  let standard_shell :=
    match SHELL with
    | Some sh => if is_empty sh then "/bin/bash" else sh
    | None => "/bin/bash"
    end in
  ProcessExecution standard_shell ["-c"; commandLine] cwd.

Definition getProcessExecution (SystemDrive SHELL : option string)
    (operatingSystem : OperatingSystems) (isMsvcBuildTask : bool)
    (commandLine activeFolder : string) : Execution :=
  match operatingSystem with
  | windows =>
      winProcessExecution SystemDrive isMsvcBuildTask commandLine activeFolder
  | _ => unixProcessExecution SHELL commandLine activeFolder
  end.

End VscodeUtilsMore.

(** ** The provider class over the workspace configuration

    The [SettingsProvider] that looks the compilers up in [PATH] and keeps
    its settings in the [C_Cpp_Runner] workspace configuration. *)

Module WorkspaceProvider.
Import Utils.

Inductive Compilers : Type := gcc | gpp | clang | clangpp.
Inductive Debuggers : Type := lldb | gdb.

(** The object [commandExists] resolves to, as this class reads it: its
    members [f] and [p]. *)
Record Lookup : Type := { f : bool; p : option string }.

Record State : Type := {
  _operatingSystem : OperatingSystems;
  _architecure : option Architectures;
  _cCompiler : option Compilers;
  _cppCompiler : option Compilers;
  _debugger : option Debuggers;
  _enableWarnings : JsonValue;
  _warnings : JsonValue;
  _warningsAsError : JsonValue;
  _compilerPathC : JsonValue;
  _compilerPathCpp : JsonValue;
  _debuggerPath : JsonValue;
  _makePath : JsonValue;
  _standardC : JsonValue;
  _standardCpp : JsonValue;
  _compilerArgs : JsonValue;
  _linkerArgs : JsonValue;
  _includePaths : JsonValue
}.

Definition set_architecure (v : option Architectures) (st : State) : State :=
  {| _operatingSystem := _operatingSystem st; _architecure := v;
     _cCompiler := _cCompiler st; _cppCompiler := _cppCompiler st;
     _debugger := _debugger st; _enableWarnings := _enableWarnings st;
     _warnings := _warnings st; _warningsAsError := _warningsAsError st;
     _compilerPathC := _compilerPathC st;
     _compilerPathCpp := _compilerPathCpp st;
     _debuggerPath := _debuggerPath st; _makePath := _makePath st;
     _standardC := _standardC st; _standardCpp := _standardCpp st;
     _compilerArgs := _compilerArgs st; _linkerArgs := _linkerArgs st;
     _includePaths := _includePaths st |}.

Definition set_cCompiler (v : option Compilers) (st : State) : State :=
  {| _operatingSystem := _operatingSystem st;
     _architecure := _architecure st;
     _cCompiler := v; _cppCompiler := _cppCompiler st;
     _debugger := _debugger st; _enableWarnings := _enableWarnings st;
     _warnings := _warnings st; _warningsAsError := _warningsAsError st;
     _compilerPathC := _compilerPathC st;
     _compilerPathCpp := _compilerPathCpp st;
     _debuggerPath := _debuggerPath st; _makePath := _makePath st;
     _standardC := _standardC st; _standardCpp := _standardCpp st;
     _compilerArgs := _compilerArgs st; _linkerArgs := _linkerArgs st;
     _includePaths := _includePaths st |}.

Definition set_cppCompiler (v : option Compilers) (st : State) : State :=
  {| _operatingSystem := _operatingSystem st;
     _architecure := _architecure st;
     _cCompiler := _cCompiler st; _cppCompiler := v;
     _debugger := _debugger st; _enableWarnings := _enableWarnings st;
     _warnings := _warnings st; _warningsAsError := _warningsAsError st;
     _compilerPathC := _compilerPathC st;
     _compilerPathCpp := _compilerPathCpp st;
     _debuggerPath := _debuggerPath st; _makePath := _makePath st;
     _standardC := _standardC st; _standardCpp := _standardCpp st;
     _compilerArgs := _compilerArgs st; _linkerArgs := _linkerArgs st;
     _includePaths := _includePaths st |}.

Definition set_debugger (v : option Debuggers) (st : State) : State :=
  {| _operatingSystem := _operatingSystem st;
     _architecure := _architecure st;
     _cCompiler := _cCompiler st; _cppCompiler := _cppCompiler st;
     _debugger := v; _enableWarnings := _enableWarnings st;
     _warnings := _warnings st; _warningsAsError := _warningsAsError st;
     _compilerPathC := _compilerPathC st;
     _compilerPathCpp := _compilerPathCpp st;
     _debuggerPath := _debuggerPath st; _makePath := _makePath st;
     _standardC := _standardC st; _standardCpp := _standardCpp st;
     _compilerArgs := _compilerArgs st; _linkerArgs := _linkerArgs st;
     _includePaths := _includePaths st |}.

(** The provider together with the [this._config.update(section, value)]
    calls issued so far, oldest first. *)
Definition Run : Type := State * list (string * string).

Definition config_update (section value : string) (s : Run) : Run :=
  (fst s, (snd s ++ [(section, value)])%list).

Definition setGcc (pathGcc : string) (s : Run) : Run :=
  let s := config_update "compilerPathC" pathGcc s in
  (set_cCompiler (Some gcc) (fst s), snd s).

Definition setClang (pathClang : string) (s : Run) : Run :=
  let s := config_update "compilerPathC" pathClang s in
  (set_cCompiler (Some clang) (fst s), snd s).

Definition setGpp (pathGpp : string) (s : Run) : Run :=
  let s := config_update "compilerPathCpp" pathGpp s in
  (set_cppCompiler (Some gpp) (fst s), snd s).

Definition setClangpp (pathClangpp : string) (s : Run) : Run :=
  let s := config_update "compilerPathCpp" pathClangpp s in
  (set_cppCompiler (Some clangpp) (fst s), snd s).

Definition setLLDB (pathLLDB : string) (s : Run) : Run :=
  let s := config_update "debuggerPath" pathLLDB s in
  (set_debugger (Some lldb) (fst s), snd s).

Definition setGDB (pathGDB : string) (s : Run) : Run :=
  let s := config_update "debuggerPath" pathGDB s in
  (set_debugger (Some gdb) (fst s), snd s).

Definition setMake (pathMake : string) (s : Run) : Run :=
  config_update "makePath" pathMake s.

(** [found && path] of a lookup: the path when both are truthy. *)
Definition usable (r : Lookup) : option string :=
  if f r then
    match p r with
    | Some path => if is_empty path then None else Some path
    | None => None
    end
  else None.

Section WithHost.
(** The string behind each member of the enum [Compilers]. *)
Variable Compilers_value : Compilers → string.
(** [commandExists] of [utils], awaited. *)
Variable commandExists : string → Lookup.
(** The argument limit of the engine and [child_process.execSync]. *)
Variable maxArguments : N.
Variable execSync : string → option string.
(** [path.basename(p, ext)]. *)
Variable path_basename : string → string → string.

(** [first], else [second], else the field set to [undefined]. *)
Definition choose (first second : option string)
    (setFirst setSecond : string → Run → Run) (unset : State → State)
    (s : Run) : Run :=
  match first with
  | Some path => setFirst path s
  | None =>
      match second with
      | Some path => setSecond path s
      | None => (unset (fst s), snd s)
      end
  end.

Definition checkCompilers (st : State) : Run :=
  let Gcc := usable (commandExists "gcc") in
  let Gpp := usable (commandExists "g++") in
  let Clang := usable (commandExists "clang") in
  let Clangpp := usable (commandExists "clang++") in
  let GDB := usable (commandExists "gdb") in
  let LLDB := usable (commandExists "lldb") in
  let Make := usable (commandExists "make") in
  let s : Run := (st, []) in
  let s :=
    match _operatingSystem st with
    | mac =>
        let s := choose Clang Gcc setClang setGcc (set_cCompiler None) s in
        let s :=
          choose Clangpp Gpp setClangpp setGpp (set_cppCompiler None) s in
        choose LLDB GDB setLLDB setGDB (set_debugger None) s
    | os =>
        let s := choose Gcc Clang setGcc setClang (set_cCompiler None) s in
        let s :=
          choose Gpp Clangpp setGpp setClangpp (set_cppCompiler None) s in
        let s := choose GDB LLDB setGDB setLLDB (set_debugger None) s in
        match Make with
        | Some pathMake => setMake pathMake s
        | None =>
            match os with
            | windows =>
                match usable (commandExists "mingw32-make") with
                | Some pathMake => setMake pathMake s
                | None => s
                end
            | _ => s
            end
        end
    end in
  match _cCompiler (fst s) with
  | Some compiler =>
      if negb (is_empty (Compilers_value compiler)) then
        (set_architecure
           (Some (getArchitecture maxArguments execSync
                    (Compilers_value compiler)))
           (fst s), snd s)
      else s
  | None => s
  end.

(** [path.basename] raises a [TypeError] on what is not a string. *)
Definition basename (path : JsonValue) (ext : string) : Result string :=
  match path with
  | JStr path => Ok (path_basename path ext)
  | _ => TypeError
  end.

(** [getSettings()], on the [C_Cpp_Runner] configuration as a function
    from a section to its value, [None] where it is [undefined]. *)
Definition getSettings (config : string → option JsonValue) (st : State)
    : Result State :=
  let get section defaultValue :=
    from_option id defaultValue (config section) in
  let enableWarnings := get "enableWarnings" (JBool true) in
  let warnings := get "warnings" (JStr "-Wall -Wextra -Wpedantic") in
  let warningsAsError := get "warningsAsError" (JBool false) in
  let compilerPathC := get "compilerPathC" (JStr "gcc") in
  let compilerPathCpp := get "compilerPathCpp" (JStr "g++") in
  let debuggerPath := get "debuggerPath" (JStr "gdb") in
  let makePath := get "makePath" (JStr "make") in
  let standardC := get "standardC" (JStr "c90") in
  let standardCpp := get "standardCpp" (JStr "c++11") in
  let compilerArgs := get "compilerArgs" (JStr EmptyString) in
  let linkerArgs := get "linkerArgs" (JStr EmptyString) in
  let includePaths := get "includePaths" (JStr EmptyString) in
  cBasename ← basename compilerPathC "exe";
  cppBasename ← basename compilerPathCpp "exe";
  let '(cCompiler, debugger) :=
    if includes (Compilers_value clang) cBasename then (clang, lldb)
    else (gcc, gdb) in
  let '(cppCompiler, debugger) :=
    if includes (Compilers_value clangpp) cppBasename then (clangpp, lldb)
    else (gpp, gdb) in
  Ok {| _operatingSystem := _operatingSystem st;
        _architecure :=
          Some (getArchitecture maxArguments execSync
                  (Compilers_value cCompiler));
        _cCompiler := Some cCompiler;
        _cppCompiler := Some cppCompiler;
        _debugger := Some debugger;
        _enableWarnings := enableWarnings;
        _warnings := warnings;
        _warningsAsError := warningsAsError;
        _compilerPathC := compilerPathC;
        _compilerPathCpp := compilerPathCpp;
        _debuggerPath := debuggerPath;
        _makePath := makePath;
        _standardC := standardC;
        _standardCpp := standardCpp;
        _compilerArgs := compilerArgs;
        _linkerArgs := linkerArgs;
        _includePaths := includePaths |}.

End WithHost.

End WorkspaceProvider.

(** * Terms of the properties *)

Import Utils.

Section DocumentTerms.
Import Utils SettingsProvider.

(** The host [h] with another compiler probe. *)
Definition withProbe (probe : JsonValue → Architectures * bool) (h : Host)
    : Host := {|
  configGlobal := configGlobal h;
  configGlobalCCpp_default := configGlobalCCpp_default h;
  foldersInDir := foldersInDir h;
  pathExists := pathExists h;
  path_join := path_join h;
  getCompilerArchitecture := probe
|}.

(** The keys of the completeness test. *)
Definition mandatoryKeys : list string :=
  ["C_Cpp_Runner.cCompilerPath"; "C_Cpp_Runner.cppCompilerPath";
   "C_Cpp_Runner.debuggerPath"].

(** The shapes the rest of a load relies on: the warnings are an array of
    strings, and when a global include path is configured it is a string
    or an array and the include paths of the settings are an array. *)
Definition wellShaped (h : Host) (file : SettingsFile) : Prop :=
  (∃ l, getSettingsValue h (readJsonFile file) "warnings"
          DEFAULT_WARNINGS_UNIX true = JArr l
        ∧ ∀ w, w ∈ l → ∃ s, w = JStr s)
  ∧ (let globalIncludePath :=
       getSettingsValue h (configGlobalCCpp_default h) "includePath"
         (JStr "") false in
     truthy globalIncludePath = false
     ∨ ((∃ s, globalIncludePath = JStr s) ∨ (∃ l, globalIncludePath = JArr l))
       ∧ ∀ v, findSettingsValue h (readJsonFile file) "includePaths" true
                = Some v → ∃ l, v = JArr l).



End DocumentTerms.

Section BuildTerms.
Import Utils TaskProvider.
Variable path_join : list string → string.
Variables (sp : Settings) (activeFolder : string) (buildMode : Builds).

Definition cppExtensions : list string := [".cpp"; ".cc"; ".cxx"].

(** A C++ source file is directly present in the listing. *)
Definition hasCppFile (fileDirents : list Dirent) : Prop :=
  ∃ d, d ∈ fileDirents ∧ isFile d = true
       ∧ Path.extname (name d) ∈ cppExtensions.

(** The object file of a source file. *)
Definition objectFilePath (file : string) : string :=
  path_join [buildDir path_join activeFolder buildMode;
             Path.parse_name file +:+ ".o"].

(** The compile sub-command of a source file. *)
Definition compileCommand (language : Languages) (file : string) : string :=
  template (compilerOf sp language) +:+ " "
    +:+ fullCompilerArgs sp language buildMode +:+ " "
    +:+ "-c " +:+ path_join [activeFolder; file]
    +:+ " -o " +:+ objectFilePath file.

(** The link sub-command over a list of object files. *)
Definition linkCommand (language : Languages) (objects : list string)
    : string :=
  template (compilerOf sp language) +:+ " "
    +:+ fullCompilerArgs sp language buildMode +:+ " "
    +:+ join " " objects +:+ " -o "
    +:+ executablePath path_join (operatingSystem sp) activeFolder buildMode.

(** The build directory is created unless it exists. *)
Definition ensureBuildDir (fs : gset string) : gset string :=
  if negb (pathExists fs (buildDir path_join activeFolder buildMode))
  then mkdirRecursive (operatingSystem sp) fs
         (buildDir path_join activeFolder buildMode)
  else fs.

(** Appends sub-commands the way the loop does. *)
Definition chain (commandLine : string) (subs : list string) : string :=
  fold_left (λ acc sub,
               if (String.length acc =? 0)%nat then acc +:+ sub
               else acc +:+ " && " +:+ sub) subs commandLine.

End BuildTerms.

Section FlagTerms.
Import Utils TaskProvider.

(** The settings [sp] with other include paths. *)
Definition withIncludePaths (paths : list string) (sp : Settings)
    : Settings := {|
  operatingSystem := operatingSystem sp;
  cCompiler := cCompiler sp;
  cppCompiler := cppCompiler sp;
  cStandard := cStandard sp;
  cppStandard := cppStandard sp;
  enableWarnings := enableWarnings sp;
  warningsAsError := warningsAsError sp;
  warnings := warnings sp;
  includePaths := paths;
  compilerArgs := compilerArgs sp;
  linkerArgs := linkerArgs sp
|}.

End FlagTerms.

Section CmakeTerms.
Import VscodeUtilsMore.

(** A workspace folder shows a CMake project: one of its files has
    [cmakelists.txt] in its lower-case name, or its settings document
    exists, parses and holds a truthy [cmake.sourceDirectory]. *)
Definition folderShowsCmake (host : CmakeHost) (folder : string) : Prop :=
  (∃ file, file ∈ filesInDir host folder
           ∧ includes (toLowerCase host "CMakeLists.txt")
               (toLowerCase host file) = true)
  ∨ (pathExists host (path_join host [folder; ".vscode"; "settings.json"])
       = true
     ∧ ∃ configLocal,
         readJsonFile host
           (path_join host [folder; ".vscode"; "settings.json"])
           = Some configLocal
         ∧ truthy_opt (configLocal !! "cmake.sourceDirectory") = true).

End CmakeTerms.

Section LookupTerms.

(** The commands whose path may end up in a section of the
    configuration. *)
Definition commandsOf (section : string) : list string :=
  if String.eqb section "compilerPathC" then ["gcc"; "clang"]
  else if String.eqb section "compilerPathCpp" then ["g++"; "clang++"]
  else if String.eqb section "debuggerPath" then ["gdb"; "lldb"]
  else if String.eqb section "makePath" then ["make"; "mingw32-make"]
  else [].

(** The update a choice between two lookups issues on a section: the
    path of the first one if it is usable, else the one of the second. *)
Definition written (section : string) (first second : option string)
    : list (string * string) :=
  match first with
  | Some path => [(section, path)]
  | None =>
      match second with
      | Some path => [(section, path)]
      | None => []
      end
  end.

End LookupTerms.

Section FileTerms.
Import JsonFile.

(** The value a list of members or properties gives a name: that of the
    first entry of the name. *)
Fixpoint memberOf {A : Type} (name : string) (members : list (string * A))
    : option A :=
  match members with
  | [] => None
  | (k, v) :: rest => if String.eqb k name then Some v else memberOf name rest
  end.


(** The text [JSON.stringify] writes for what [JSON.parse] reads of a
    text. *)
Definition rewritten (text : Json) : option Json :=
  stringify (parse text).



End FileTerms.

(** ** Workspaces of the examples

    In the examples plain concatenation with a slash stands for
    [path.join]. *)

Definition exampleHost : SettingsProvider.Host := {|
  SettingsProvider.configGlobal := ∅;
  SettingsProvider.configGlobalCCpp_default := None;
  SettingsProvider.foldersInDir := λ _, [];
  SettingsProvider.pathExists := λ _, false;
  SettingsProvider.path_join := join "/";
  SettingsProvider.getCompilerArchitecture := λ _, (x64, false)
|}.

(** A document that asks for the Microsoft toolchain and lists an MSVC
    warning next to a Unix one. *)
Definition mixedWarningsDoc : JsonSettings :=
  <["C_Cpp_Runner.useMsvc" := JBool true]>
    (<["C_Cpp_Runner.warnings" := JArr [JStr "/W4"; JStr "-Wall"]]> ∅).


(** An installation of the Microsoft toolchain under [C:/VS], of the
    version [14.30] alone: every path under [C:/VS/] exists. The working
    directory of the process holds a directory [bin/Hostx64/x64] of its own
    when [cwdHasToolsDir] is set. *)
Definition msvcInstallation (cwdHasToolsDir : bool)
    : SettingsProvider.Host := {|
  SettingsProvider.configGlobal := ∅;
  SettingsProvider.configGlobalCCpp_default := None;
  SettingsProvider.foldersInDir := λ dir,
    if String.eqb dir "C:/VS/VC/Tools/MSVC"
    then ["C:\VS\VC\Tools\MSVC\14.30"]
    else [];
  SettingsProvider.pathExists := λ filePath,
    String.prefix "C:/VS/" filePath
    || (cwdHasToolsDir && String.eqb filePath "bin/Hostx64/x64");
  SettingsProvider.path_join := join "/";
  SettingsProvider.getCompilerArchitecture := λ _, (x64, false)
|}.

Definition msvcDoc (batch : string) : JsonSettings :=
  <["C_Cpp_Runner.useMsvc" := JBool true]>
    (<["C_Cpp_Runner.msvcBatchPath" := JStr batch]> ∅).




(** The members of [Compilers] by the name of their command, and a
    provider of the workspace configuration before any load. *)
Definition commandNames (compiler : WorkspaceProvider.Compilers) : string :=
  match compiler with
  | WorkspaceProvider.gcc => "gcc"
  | WorkspaceProvider.gpp => "g++"
  | WorkspaceProvider.clang => "clang"
  | WorkspaceProvider.clangpp => "clang++"
  end.

Definition freshProvider (os : OperatingSystems) : WorkspaceProvider.State :=
  {| WorkspaceProvider._operatingSystem := os;
     WorkspaceProvider._architecure := None;
     WorkspaceProvider._cCompiler := None;
     WorkspaceProvider._cppCompiler := None;
     WorkspaceProvider._debugger := None;
     WorkspaceProvider._enableWarnings := JBool true;
     WorkspaceProvider._warnings := JStr EmptyString;
     WorkspaceProvider._warningsAsError := JBool true;
     WorkspaceProvider._compilerPathC := JStr EmptyString;
     WorkspaceProvider._compilerPathCpp := JStr EmptyString;
     WorkspaceProvider._debuggerPath := JStr EmptyString;
     WorkspaceProvider._makePath := JStr EmptyString;
     WorkspaceProvider._standardC := JStr EmptyString;
     WorkspaceProvider._standardCpp := JStr EmptyString;
     WorkspaceProvider._compilerArgs := JStr EmptyString;
     WorkspaceProvider._linkerArgs := JStr EmptyString;
     WorkspaceProvider._includePaths := JStr EmptyString |}.

(** Two configurations that name the same C++ compiler and different C
    compilers. *)
Definition clangCConfig (section : string) : option JsonValue :=
  if String.eqb section "compilerPathC" then Some (JStr "/usr/bin/clang")
  else if String.eqb section "compilerPathCpp" then Some (JStr "/usr/bin/g++")
  else None.

Definition gccCConfig (section : string) : option JsonValue :=
  if String.eqb section "compilerPathCpp" then Some (JStr "/usr/bin/g++")
  else None.

(** A host whose compiler probe answers [x86] under Cygwin. *)
Definition cygwinHost : SettingsProvider.Host :=
  withProbe (λ _, (x86, true)) exampleHost.

(** A settings document that holds the three mandatory keys, and the same
    document asking for the Microsoft toolchain with MSVC warnings. *)
Definition gccDoc : JsonSettings :=
  <["C_Cpp_Runner.cCompilerPath" := JStr "gcc"]>
    (<["C_Cpp_Runner.cppCompilerPath" := JStr "g++"]>
       (<["C_Cpp_Runner.debuggerPath" := JStr "gdb"]> ∅)).

Definition gccMsvcDoc : JsonSettings :=
  <["C_Cpp_Runner.useMsvc" := JBool true]>
    (<["C_Cpp_Runner.warnings" := JArr [JStr "/W4"]]> gccDoc).

(** The provider the constructor builds on [cygwinHost] from a document,
    with both configuration files in place; the initial provider stands in
    for a construction that raises. *)
Definition constructed (D : JsonSettings) : SettingsProvider.State :=
  match SettingsConstruction.constructor id id id cygwinHost
          (λ st file, Ok (st, file)) windows [] false false
          (SettingsProvider.Doc D) None "proj" with
  | Ok built => fst built
  | TypeError => SettingsProvider.initial windows []
  end.





(** A host whose C/C++ configuration holds one global include path. *)
Definition includeHost : SettingsProvider.Host := {|
  SettingsProvider.configGlobal := ∅;
  SettingsProvider.configGlobalCCpp_default :=
    Some (<["includePath" := JArr [JStr "/opt/include"]]> ∅);
  SettingsProvider.foldersInDir := λ _, [];
  SettingsProvider.pathExists := λ _, false;
  SettingsProvider.path_join := join "/";
  SettingsProvider.getCompilerArchitecture := λ _, (x64, false)
|}.

(** [path.join] on segments that hold no dot segment: the segments joined
    by a slash, a run of slashes written once. *)
Fixpoint collapseSlashes (s : string) : string :=
  match s with
  | String a (String b rest as tail) =>
      if Ascii.eqb a "/"%char && Ascii.eqb b "/"%char
      then collapseSlashes tail
      else String a (collapseSlashes tail)
  | other => other
  end.

Definition posixJoin (segments : list string) : string :=
  collapseSlashes (join "/" segments).

(** The settings of a C++ project with every kind of flag set. *)
Definition flagSettings : TaskProvider.Settings := {|
  TaskProvider.operatingSystem := linux;
  TaskProvider.cCompiler := Some "gcc";
  TaskProvider.cppCompiler := Some "g++";
  TaskProvider.cStandard := Some "c99";
  TaskProvider.cppStandard := Some "c++17";
  TaskProvider.enableWarnings := true;
  TaskProvider.warningsAsError := true;
  TaskProvider.warnings := ["-Wall"; "-Wextra"];
  TaskProvider.includePaths := ["inc"; "third/inc"];
  TaskProvider.compilerArgs := Some " -fPIC";
  TaskProvider.linkerArgs := Some " -lm"
|}.

(** An engine that takes up to 125000 arguments in a call. *)
Definition argumentLimit : N := 125000.

(** A compiler that answers [-dumpmachine] with the text [64] and 125000
    spaces after it. *)
Definition longOutput : string :=
  "64" +:+ N.iter 125000 (String " "%char) EmptyString.

Definition verboseCompiler (command : string) : option string :=
  Some longOutput.

(** A machine on which only [gcc -dumpmachine] answers. *)
Definition dumpmachine (command : string) : option string :=
  if String.eqb command "gcc -dumpmachine" then Some "x86_64-linux-gnu"
  else None.





(** * Properties *)

(** ** String primitives *)

Example extname_of_sources :
  Path.extname "a.cpp" = ".cpp" ∧ Path.extname "main.c" = ".c"
  ∧ Path.extname "lib.tar.cc" = ".cc" ∧ Path.extname "A.CPP" = ".CPP".
Proof. repeat split. Qed.

Example extname_without_extension :
  Path.extname "Makefile" = "" ∧ Path.extname ".bashrc" = ""
  ∧ Path.extname ".." = "" ∧ Path.extname "..." = ".".
Proof. repeat split. Qed.

Example parse_name_of_sources :
  Path.parse_name "a.cpp" = "a" ∧ Path.parse_name "lib.tar.cc" = "lib.tar"
  ∧ Path.parse_name ".bashrc" = ".bashrc".
Proof. repeat split. Qed.

Example split_of_msvc_paths :
  split_first "VC" "C:/VS/VC/Auxiliary/Build/vcvarsall.bat" = "C:/VS/"
  ∧ split_first "VC" "" = ""
  ∧ split_last "\"%char "C:\VS\VC\Tools\MSVC\14.30" = "14.30"
  ∧ split_last "\"%char "C:/VS/14.30" = "C:/VS/14.30".
Proof. repeat split. Qed.

Example join_of_include_paths :
  join " -I " ["inc"; "third_party"] = "inc -I third_party"
  ∧ join " " [] = "".
Proof. repeat split. Qed.

Section StringFacts.

Lemma append_nil_l (s : string) : "" +:+ s = s.
Proof. reflexivity. Qed.

Lemma append_cons (x : ascii) (a s : string) :
  String x a +:+ s = String x (a +:+ s).
Proof. reflexivity. Qed.

Lemma append_empty_r (s : string) : s +:+ "" = s.
Proof. induction s as [|x s IH]; [done|]. by rewrite append_cons, IH. Qed.

Lemma append_assoc (a b d : string) : (a +:+ b) +:+ d = a +:+ b +:+ d.
Proof.
  induction a as [|x a IH]; [done|]. by rewrite !append_cons, IH.
Qed.

Lemma length_append (a b : string) :
  String.length (a +:+ b) = String.length a + String.length b.
Proof.
  induction a as [|x a IH]; [done|]. rewrite append_cons. simpl. lia.
Qed.

Lemma is_empty_true (s : string) : is_empty s = true ↔ s = "".
Proof. destruct s; simpl; split; congruence. Qed.

Lemma prefix_spec (a s : string) :
  String.prefix a s = true ↔ ∃ t, s = a +:+ t.
Proof.
  revert s. induction a as [|x a IH]; intros s; simpl.
  - destruct s; split; eauto.
  - destruct s as [|y s]; simpl.
    + split; [discriminate | intros [t Ht]; discriminate].
    + destruct (Ascii.ascii_dec x y) as [->|Hne].
      * rewrite IH. split; intros [t Ht]; exists t;
          rewrite append_cons in *; congruence.
      * split; [discriminate|]. intros [t Ht].
        rewrite append_cons in Ht. congruence.
Qed.

Lemma includes_eq (sub s : string) :
  includes sub s =
    if String.prefix sub s then true
    else match s with
         | EmptyString => false
         | String _ s' => includes sub s'
         end.
Proof. destruct s; reflexivity. Qed.

(** [includes] decides the substring relation. *)
Lemma includes_spec (sub s : string) :
  includes sub s = true ↔ ∃ pre post, s = pre +:+ sub +:+ post.
Proof.
  induction s as [|x s IH]; rewrite includes_eq;
    destruct (String.prefix sub _) eqn:Hp.
  - apply prefix_spec in Hp as [t Ht]. split; [|done].
    intros _. exists "", t. done.
  - split; [discriminate|]. intros (pre & post & Heq).
    destruct pre; [|discriminate]. rewrite append_nil_l in Heq.
    assert (String.prefix sub "" = true) by (apply prefix_spec; eauto).
    congruence.
  - apply prefix_spec in Hp as [t Ht]. split; [|done].
    intros _. exists "", t. done.
  - rewrite IH. split.
    + intros (pre & post & ->). exists (String x pre), post. done.
    + intros (pre & post & Heq). destruct pre as [|y pre].
      * rewrite append_nil_l in Heq.
        assert (String.prefix sub (String x s) = true)
          by (apply prefix_spec; eauto).
        congruence.
      * rewrite append_cons in Heq. injection Heq as -> ->. eauto.
Qed.

End StringFacts.

(** ** The architecture probe of [utils.js] *)

(** C6, as the code has it. [getArchitecture] answers [x64] exactly when
    the execution of [<compiler> -dumpmachine] succeeds, its output is no
    longer than the engine's argument limit, so that
    [String.fromCharCode(...byteArray)] converts it, and the output
    contains the text [64]. It is a total function: when the execution
    fails, and when the conversion does, its answer is [x86]. *)
Theorem getArchitecture_x64_iff_output_has_64
    (maxArguments : N) (execSync : string → option string)
    (compiler : string) :
  (Utils.getArchitecture maxArguments execSync compiler = x64 ↔
     ∃ out pre post,
       execSync (compiler +:+ " -dumpmachine") = Some out
       ∧ (N.of_nat (String.length out) ≤ maxArguments)%N
       ∧ out = pre +:+ "64" +:+ post)
  ∧ (execSync (compiler +:+ " -dumpmachine") = None →
       Utils.getArchitecture maxArguments execSync compiler = x86)
  ∧ (∀ out,
       execSync (compiler +:+ " -dumpmachine") = Some out →
       (maxArguments < N.of_nat (String.length out))%N →
       Utils.getArchitecture maxArguments execSync compiler = x86).
Proof.
  unfold Utils.getArchitecture, Utils.fromCharCode_spread.
  split; [|split].
  - destruct (execSync _) as [out|] eqn:Hout.
    + destruct (N.leb_spec (N.of_nat (String.length out)) maxArguments)
        as [Hfits|Hlong].
      * destruct (includes "64" out) eqn:Hinc.
        -- split; [|done]. intros _.
           apply includes_spec in Hinc as (pre & post & ->).
           exists (pre +:+ "64" +:+ post), pre, post.
           split; [reflexivity|]. split; [lia|done].
        -- split; [discriminate|].
           intros (out' & pre & post & [= <-] & _ & Heq).
           assert (includes "64" out = true) by (apply includes_spec; eauto).
           congruence.
      * split; [discriminate|].
        intros (out' & pre & post & [= <-] & Hfits & _). lia.
    + split; [discriminate|]. intros (? & ? & ? & ? & ?). discriminate.
  - intros ->. done.
  - intros out -> Hlong.
    destruct (N.leb_spec (N.of_nat (String.length out)) maxArguments);
      [lia|done].
Qed.

Lemma length_iter_String (n : N) (a : ascii) :
  String.length (N.iter n (String a) EmptyString) = N.to_nat n.
Proof.
  induction n as [|n IH] using N.peano_ind; [reflexivity|].
  rewrite N.iter_succ, N2Nat.inj_succ. simpl. by rewrite IH.
Qed.

(** C6, as the specification has it, fails: the execution succeeds and
    its output contains [64], but the output is longer than the argument
    limit of the engine, the conversion raises, and the answer is [x86]. *)
Lemma getArchitecture_long_output_is_x86 :
  (∃ out pre post,
     verboseCompiler ("gcc" +:+ " -dumpmachine") = Some out
     ∧ out = pre +:+ "64" +:+ post)
  ∧ Utils.getArchitecture argumentLimit verboseCompiler "gcc" = x86.
Proof.
  split.
  - exists longOutput, "", (N.iter 125000 (String " "%char) EmptyString).
    split; reflexivity.
  - unfold Utils.getArchitecture, Utils.fromCharCode_spread, verboseCompiler.
    destruct (N.leb_spec (N.of_nat (String.length longOutput)) argumentLimit)
      as [Hfits|Hlong]; [|reflexivity].
    unfold longOutput, argumentLimit in Hfits.
    rewrite length_append, length_iter_String in Hfits.
    change (String.length "64") with 2 in Hfits. lia.
Qed.

(** A witness of the probe: a compiler that answers [x86_64-linux-gnu],
    and one that does not answer. *)
Lemma getArchitecture_x64_iff_output_has_64_witness :
  Utils.getArchitecture argumentLimit dumpmachine "gcc" = x64
  ∧ Utils.getArchitecture argumentLimit dumpmachine "clang" = x86.
Proof.
  destruct (getArchitecture_x64_iff_output_has_64 argumentLimit dumpmachine
              "gcc") as [Hiff _].
  destruct (getArchitecture_x64_iff_output_has_64 argumentLimit dumpmachine
              "clang") as (_ & Hfails & _).
  split.
  - apply Hiff. exists "x86_64-linux-gnu", "x86_", "-linux-gnu".
    split; [reflexivity|]. split; [|reflexivity]. vm_compute. discriminate.
  - apply Hfails. reflexivity.
Defined.

(** ** The persisted settings document *)

Section Document.
Import SettingsProvider.

(** The merge of [update] on the document as parsed: the document
    written maps [C_Cpp_Runner.<key>] to [value] and every other key to
    its value in [D]; with no document, or one that does not parse, it
    holds that one entry only. *)
Lemma update_sets_one_key_keeps_others
    (D : JsonSettings) (key : string) (value : JsonValue) :
  (∃ D', update key value (Doc D) = Doc D'
         ∧ D' !! ("C_Cpp_Runner." +:+ key) = Some value
         ∧ ∀ other, other ≠ "C_Cpp_Runner." +:+ key → D' !! other = D !! other)
  ∧ update key value Absent = Doc {[ "C_Cpp_Runner." +:+ key := value ]}
  ∧ update key value Malformed = Doc {[ "C_Cpp_Runner." +:+ key := value ]}.
Proof.
  split; [|split; reflexivity].
  eexists. split; [reflexivity|]. simpl. split.
  - apply lookup_insert_eq.
  - intros other Hne. by apply lookup_insert_ne.
Qed.

(** C4. On a settings document the completeness test
    [commandsAlreadyStored] holds exactly when the three mandatory keys
    are present together; two documents that agree on which of the three
    are present get the same answer, whatever else they hold and whatever
    the stored values are; [updateCheck] reports the settings missing
    exactly when the test fails; and when the test holds on the existing
    document the constructor takes the warm load, for every active
    folder. *)
Theorem commandsAlreadyStored_iff_mandatory_keys (D : JsonSettings) :
  (commandsAlreadyStored (Doc D) = true ↔
     is_Some (D !! "C_Cpp_Runner.cCompilerPath")
     ∧ is_Some (D !! "C_Cpp_Runner.cppCompilerPath")
     ∧ is_Some (D !! "C_Cpp_Runner.debuggerPath"))
  ∧ (∀ D' : JsonSettings,
       (∀ k, k ∈ mandatoryKeys → is_Some (D' !! k) ↔ is_Some (D !! k)) →
       commandsAlreadyStored (Doc D') = commandsAlreadyStored (Doc D))
  ∧ updateCheck (Doc D) = negb (commandsAlreadyStored (Doc D))
  ∧ (commandsAlreadyStored (Doc D) = true →
     ∀ (propertiesFileMissing : bool) (activeFolder : string),
       loadStrategy false (updateCheck (Doc D)) propertiesFileMissing
         activeFolder =
       if is_empty activeFolder then NoLoad else WarmLoad).
Proof.
  assert (Hiff : ∀ E : JsonSettings,
    commandsAlreadyStored (Doc E) = true ↔
      is_Some (E !! "C_Cpp_Runner.cCompilerPath")
      ∧ is_Some (E !! "C_Cpp_Runner.cppCompilerPath")
      ∧ is_Some (E !! "C_Cpp_Runner.debuggerPath")).
  { intros E. unfold commandsAlreadyStored, localSettingExist. simpl.
    match goal with
    | |- (if ?b then true else false) = true ↔ _ =>
        replace (if b then true else false) with b by (by destruct b)
    end.
    rewrite !andb_true_iff, !bool_decide_eq_true. tauto. }
  split; [apply Hiff|]. split.
  - intros D' Hagree.
    assert (commandsAlreadyStored (Doc D') = true
            ↔ commandsAlreadyStored (Doc D) = true) as Heq.
    { rewrite !Hiff.
      rewrite !Hagree by (apply list_elem_of_In; simpl; auto). done. }
    destruct (commandsAlreadyStored (Doc D')),
      (commandsAlreadyStored (Doc D)); try done.
    + symmetry. by apply Heq.
    + by apply Heq.
  - split.
    + unfold updateCheck. simpl. by destruct (commandsAlreadyStored (Doc D)).
    + intros Hstored propertiesFileMissing activeFolder.
      unfold loadStrategy, updateCheck. simpl. rewrite Hstored. simpl.
      by destruct (is_empty activeFolder).
Qed.

End Document.

(** ** The settings document as a file *)

Section FileDocument.
Import JsonFile.


Lemma memberOf_None {A : Type} (name : string) (l : list (string * A)) :
  name ∉ l.*1 → memberOf name l = None.
Proof.
  induction l as [|[k0 v0] l IH]; [done|]. simpl.
  rewrite not_elem_of_cons. intros [Hne Hnot].
  destruct (String.eqb_spec k0 name); [congruence|auto].
Qed.

Lemma hasProperty_elem_of (name : string) (properties : list (string * Value)) :
  hasProperty name properties = true ↔ name ∈ properties.*1.
Proof.
  unfold hasProperty. induction properties as [|[k v] rest IH]; simpl.
  - split; [discriminate|by intros ?%elem_of_nil].
  - rewrite orb_true_iff, elem_of_cons, IH.
    destruct (String.eqb_spec k name) as [->|Hne]; [by split; left|].
    split; (intros [H|H]; [congruence|by right]).
Qed.




Lemma memberOf_replaceValue (name other : string) (value : Value)
    (properties : list (string * Value)) :
  memberOf other (replaceValue name value properties) =
    if String.eqb other name
    then match memberOf name properties with
         | Some _ => Some value
         | None => None
         end
    else memberOf other properties.
Proof.
  induction properties as [|[k v] rest IH]; simpl.
  - by destruct (String.eqb other name).
  - destruct (String.eqb_spec k name) as [->|Hk]; simpl.
    + destruct (String.eqb_spec other name) as [->|Hne].
      * by rewrite String.eqb_refl.
      * destruct (String.eqb_spec name other); [congruence|done].
    + rewrite IH. destruct (String.eqb_spec other name) as [->|Hne].
      * by destruct (String.eqb_spec k name).
      * done.
Qed.

Lemma memberOf_insertProperty (name other : string) (value : Value)
    (properties : list (string * Value)) :
  memberOf name properties = None →
  memberOf other (insertProperty name value properties) =
    if String.eqb other name then Some value else memberOf other properties.
Proof.
  induction properties as [|[k v] rest IH]; simpl.
  - intros _. rewrite String.eqb_sym. by destruct (String.eqb other name).
  - destruct (String.eqb_spec k name) as [->|Hk]; [discriminate|].
    intros Hnone. specialize (IH Hnone).
    assert (Hhead : memberOf other ((name, value) :: (k, v) :: rest) =
              if String.eqb other name then Some value
              else if String.eqb k other then Some v else memberOf other rest).
    { simpl. rewrite (String.eqb_sym name other).
      by destruct (String.eqb other name). }
    assert (Htail : memberOf other ((k, v) :: insertProperty name value rest) =
              if String.eqb other name then Some value
              else if String.eqb k other then Some v else memberOf other rest).
    { simpl. rewrite IH.
      destruct (String.eqb_spec k other) as [<-|]; [|done].
      by destruct (String.eqb_spec k name). }
    destruct (arrayIndex name) as [i|], (arrayIndex k) as [j|];
      try destruct (i <? j)%N; done.
Qed.

Lemma memberOf_elem_of {A : Type} (name : string) (l : list (string * A)) :
  memberOf name l = None ↔ name ∉ l.*1.
Proof.
  split; [|apply memberOf_None].
  induction l as [|[k0 v0] l IH]; simpl; [by intros _ ?%elem_of_nil|].
  destruct (String.eqb_spec k0 name); [discriminate|].
  rewrite not_elem_of_cons. auto.
Qed.

(** The value of a name after a property is defined. *)
Lemma memberOf_defineProperty (name other : string) (value : Value)
    (properties : list (string * Value)) :
  memberOf other (defineProperty name value properties) =
    if String.eqb other name then Some value else memberOf other properties.
Proof.
  unfold defineProperty. destruct (hasProperty name properties) eqn:Hhas.
  - rewrite memberOf_replaceValue.
    destruct (String.eqb other name); [|done].
    apply hasProperty_elem_of in Hhas.
    destruct (memberOf name properties) eqn:Hm; [done|].
    by apply memberOf_elem_of in Hm.
  - apply memberOf_insertProperty, memberOf_elem_of.
    rewrite <- hasProperty_elem_of. by rewrite Hhas.
Qed.



Lemma rewritten_is_Some (text : Json) : is_Some (rewritten text).
Proof. unfold rewritten. destruct text; simpl; eauto. Qed.





(** The properties of an object as a finite map: the merge of [update] is
    the insertion of the entry, as [SettingsProvider.update] has it. *)
Lemma memberOf_list_to_map {A : Type} (name : string)
    (members : list (string * A)) :
  (list_to_map members : gmap string A) !! name = memberOf name members.
Proof.
  induction members as [|[k v] members IH]; [done|]. simpl.
  destruct (String.eqb_spec k name) as [->|Hne].
  - apply lookup_insert_eq.
  - by rewrite lookup_insert_ne.
Qed.

Lemma defineProperty_insert (name : string) (value : Value)
    (properties : list (string * Value)) :
  (list_to_map (defineProperty name value properties) : gmap string Value) =
    <[name := value]> (list_to_map properties).
Proof.
  apply map_eq. intros other.
  rewrite memberOf_list_to_map, memberOf_defineProperty.
  destruct (String.eqb_spec other name) as [->|Hne].
  - by rewrite lookup_insert_eq.
  - by rewrite lookup_insert_ne, memberOf_list_to_map.
Qed.


End FileDocument.



(** ** Language of a folder and the compile set *)

Section Language.
Import TaskProvider.

Lemma isCppSourceFile_iff (ext : string) :
  isCppSourceFile ext = true ↔ ext ∈ cppExtensions.
Proof.
  unfold isCppSourceFile, cppExtensions. rewrite existsb_exists. split.
  - intros (e & Hin & Heq). apply String.eqb_eq in Heq as ->.
    by apply list_elem_of_In.
  - intros Hin. exists ext. split; [by apply list_elem_of_In|].
    apply String.eqb_refl.
Qed.

Lemma isCSourceFile_iff (ext : string) : isCSourceFile ext = true ↔ ext = ".c".
Proof. apply String.eqb_eq. Qed.

Lemma getLanguage_cpp_iff (fileDirents : list Dirent) :
  getLanguage fileDirents = cpp ↔ hasCppFile fileDirents.
Proof.
  unfold getLanguage, hasCppFile.
  destruct (existsb _ _) eqn:Hex.
  - split; [intros _|done].
    apply existsb_exists in Hex as (f & Hin & Hcpp).
    apply in_map_iff in Hin as (d & <- & Hd).
    apply list_elem_of_In, list_elem_of_filter in Hd as [Hfile Hd].
    exists d. by rewrite <- isCppSourceFile_iff.
  - split; [discriminate|]. intros (d & Hd & Hfile & Hext).
    assert (existsb (λ file, isCppSourceFile (Path.extname file))
              (map name (filter (λ file, isFile file = true) fileDirents))
            = true) as Habs; [|congruence].
    apply existsb_exists. exists (name d). split.
    + apply in_map, list_elem_of_In, list_elem_of_filter. done.
    + by apply isCppSourceFile_iff.
Qed.

Lemma getLanguage_c_iff (fileDirents : list Dirent) :
  getLanguage fileDirents = c ↔ ¬ hasCppFile fileDirents.
Proof.
  rewrite <- getLanguage_cpp_iff. destruct (getLanguage fileDirents); split;
    congruence.
Qed.

Lemma skips_c (file : string) :
  skips c file = false ↔ Path.parse_ext file = ".c".
Proof.
  unfold skips. rewrite <- isCSourceFile_iff.
  destruct (isCSourceFile _); simpl; split; congruence.
Qed.

Lemma skips_cpp (file : string) :
  skips cpp file = false ↔ Path.parse_ext file ∈ cppExtensions.
Proof.
  unfold skips. rewrite <- isCppSourceFile_iff.
  destruct (isCppSourceFile _); simpl; split; congruence.
Qed.

Lemma elem_of_compileSet (language : Languages) (files : list string)
    (file : string) :
  file ∈ compileSet language files ↔
    file ∈ files ∧ skips language file = false.
Proof.
  unfold compileSet. rewrite !list_elem_of_In, filter_In, negb_true_iff. done.
Qed.

End Language.

(** ** The build command line *)

Section BuildTask.
Import TaskProvider.
Variable path_join : list string → string.
Variables (sp : Settings) (activeFolder : string) (buildMode : Builds).

Local Abbreviation objectFilePath :=
  (objectFilePath path_join activeFolder buildMode).
Local Abbreviation compileCommand :=
  (compileCommand path_join sp activeFolder buildMode).
Local Abbreviation linkCommand := (linkCommand path_join sp activeFolder buildMode).
Local Abbreviation ensureBuildDir :=
  (ensureBuildDir path_join sp activeFolder buildMode).

Lemma ensureBuildDir_idemp (fs : gset string) :
  ensureBuildDir (ensureBuildDir fs) = ensureBuildDir fs.
Proof.
  unfold ensureBuildDir, pathExists, mkdirRecursive.
  destruct (bool_decide (_ ∈ fs)) eqn:Hin; simpl.
  - by rewrite Hin.
  - rewrite bool_decide_eq_true_2; [done|].
    apply elem_of_union_l, elem_of_union_l, elem_of_singleton. done.
Qed.

Lemma loopBody_skip (language : Languages) (acc : Loop) (file : string) :
  skips language file = true →
  loopBody path_join sp activeFolder buildMode language acc file = acc.
Proof. intros H. unfold loopBody. by rewrite H. Qed.

Lemma loopBody_compile (language : Languages) (acc : Loop) (file : string) :
  skips language file = false →
  loopBody path_join sp activeFolder buildMode language acc file =
    {| loop_commandLine :=
         chain (loop_commandLine acc) [compileCommand language file];
       objectFiles := objectFiles acc ++ [objectFilePath file];
       loop_fs := ensureBuildDir (loop_fs acc) |}.
Proof.
  intros H. unfold loopBody. rewrite H. unfold chain, compileCommand. simpl.
  reflexivity.
Qed.

(** The loop in closed form: it compiles the compile set in listing order
    and creates the build directory on the first file it compiles. *)
Lemma loop_closed_form (language : Languages) (files : list string)
    (acc : Loop) :
  fold_left (loopBody path_join sp activeFolder buildMode language) files acc =
    {| loop_commandLine :=
         chain (loop_commandLine acc)
           (map (compileCommand language) (compileSet language files));
       objectFiles :=
         objectFiles acc ++ map objectFilePath (compileSet language files);
       loop_fs :=
         match compileSet language files with
         | [] => loop_fs acc
         | _ :: _ => ensureBuildDir (loop_fs acc)
         end |}.
Proof.
  revert acc. induction files as [|file files IH]; intros acc.
  - destruct acc. simpl. by rewrite app_nil_r.
  - simpl fold_left. unfold compileSet in *. simpl List.filter.
    destruct (skips language file) eqn:Hskip; simpl negb; cbv iota.
    + rewrite loopBody_skip by done. apply IH.
    + rewrite loopBody_compile by done. rewrite IH. simpl.
      rewrite <- app_assoc. simpl. f_equal.
      destruct (List.filter _ files); [done|]. apply ensureBuildDir_idemp.
Qed.

Lemma compileCommand_nonempty (language : Languages) (file : string) :
  String.length (compileCommand language file) ≠ 0.
Proof.
  unfold compileCommand. rewrite !length_append. simpl. lia.
Qed.

Lemma chain_from_nonempty (commandLine : string) (subs : list string) :
  String.length commandLine ≠ 0 →
  chain commandLine subs =
    commandLine +:+ join "" (map (λ sub, " && " +:+ sub) subs).
Proof.
  revert commandLine. induction subs as [|sub subs IH]; intros s Hs.
  - simpl. by rewrite append_empty_r.
  - unfold chain in *. simpl fold_left.
    destruct (String.length s =? 0)%nat eqn:Hz;
      [apply Nat.eqb_eq in Hz; lia|].
    rewrite IH by (rewrite !length_append; simpl; lia).
    rewrite !append_assoc. do 2 f_equal.
    destruct subs; simpl; [by rewrite append_empty_r|].
    by rewrite !append_assoc.
Qed.

Lemma join_cons (sep x : string) (l : list string) :
  join sep (x :: l) = x +:+ join "" (map (λ y, sep +:+ y) l).
Proof.
  revert x. induction l as [|y l IH]; intros x.
  - simpl. by rewrite append_empty_r.
  - change (join sep (x :: y :: l)) with (x +:+ sep +:+ join sep (y :: l)).
    rewrite IH. f_equal. simpl map.
    destruct l; simpl; by rewrite ?append_empty_r, ?append_assoc.
Qed.

(** From an empty command line the loop joins the sub-commands by the AND
    separator. *)
Lemma chain_from_empty (language : Languages) (files : list string) :
  chain "" (map (compileCommand language) files) =
    join " && " (map (compileCommand language) files).
Proof.
  destruct files as [|file files]; [done|].
  simpl map. rewrite join_cons. unfold chain. simpl fold_left.
  apply chain_from_nonempty, compileCommand_nonempty.
Qed.

End BuildTask.

Section BuildCommandLine.
Import TaskProvider.
Variable path_join : list string → string.

(** [executeTask] in closed form, for a task that has an execution. *)
Lemma executeTask_closed_form (e : TaskExecution) (sp : Settings)
    (activeFolder : string) (buildMode : Builds)
    (fileDirents : list Dirent) (files : list string) (fs : gset string) :
  let language := getLanguage fileDirents in
  let sources := compileSet language files in
  executeTask path_join (Some {| execution := Some e |}) sp activeFolder
    buildMode fileDirents files fs =
  (Some (chain "" (map (compileCommand path_join sp activeFolder buildMode
                          language) sources)
           +:+ " && "
           +:+ linkCommand path_join sp activeFolder buildMode language
                 (map (objectFilePath path_join activeFolder buildMode)
                      sources)),
   match sources with
   | [] => fs
   | _ :: _ => ensureBuildDir path_join sp activeFolder buildMode fs
   end).
Proof.
  intros language sources. unfold executeTask. fold language.
  rewrite loop_closed_form. fold sources. simpl. unfold linkCommand.
  reflexivity.
Qed.

(** The flags of a sub-command, piece by piece. *)
Lemma fullCompilerArgs_pieces (sp : Settings) (language : Languages)
    (buildMode : Builds) :
  fullCompilerArgs sp language buildMode =
    warningsOf sp
    +:+ (if nonempty (standardOf sp language)
         then " --std=" +:+ template (standardOf sp language) else "")
    +:+ match buildMode with
        | debug => " -g3 -O0"
        | release => " -O3 -DNDEBUG"
        end
    +:+ (if nonempty (compilerArgs sp) then template (compilerArgs sp) else "")
    +:+ (if nonempty (linkerArgs sp) then template (linkerArgs sp) else "")
    +:+ includesOf sp.
Proof.
  unfold fullCompilerArgs.
  destruct (is_empty (warningsOf sp)) eqn:Hw;
    [apply is_empty_true in Hw; rewrite Hw|];
  destruct (is_empty (includesOf sp)) eqn:Hi;
    [apply is_empty_true in Hi; rewrite Hi| |apply is_empty_true in Hi;
     rewrite Hi|];
  destruct (nonempty (standardOf sp language)), buildMode,
    (nonempty (compilerArgs sp)), (nonempty (linkerArgs sp)); simpl negb;
    cbv iota; rewrite ?append_nil_l, ?append_empty_r, ?append_assoc;
    reflexivity.
Qed.


(** C10. When no file of the listing matches the source extensions of the
    resolved language, the executor still receives a command line: the AND
    separator followed by the link sub-command over no object file; and
    the directories that exist are the ones that existed before, the build
    directory is not created. *)
Theorem executeTask_without_sources (e : TaskExecution) (sp : Settings)
    (activeFolder : string) (buildMode : Builds)
    (fileDirents : list Dirent) (files : list string) (fs : gset string) :
  compileSet (getLanguage fileDirents) files = [] →
  executeTask path_join (Some {| execution := Some e |}) sp activeFolder
    buildMode fileDirents files fs =
  (Some (" && " +:+ template (compilerOf sp (getLanguage fileDirents))
           +:+ " " +:+ fullCompilerArgs sp (getLanguage fileDirents) buildMode
           +:+ " " +:+ "" +:+ " -o "
           +:+ executablePath path_join (operatingSystem sp) activeFolder
                 buildMode),
   fs).
Proof.
  intros Hnone. rewrite executeTask_closed_form. rewrite Hnone.
  reflexivity.
Qed.

(** C3. The language of a folder is [c] when its listing holds no file
    with a C++ extension and [cpp] when it holds one. In a C folder the
    compile set is made of the listed files with extension [.c]; in a C++
    folder it is made of the listed files with extension [.cpp], [.cc] or
    [.cxx], and no file with extension [.c] is in it. The object files the
    loop of [executeTask] produces are those of the compile set. *)
Theorem language_and_compile_set (sp : Settings) (activeFolder : string)
    (buildMode : Builds) (fileDirents : list Dirent) (files : list string)
    (fs : gset string) :
  let language := getLanguage fileDirents in
  (¬ hasCppFile fileDirents →
     language = c
     ∧ ∀ f, f ∈ compileSet language files ↔
            f ∈ files ∧ Path.parse_ext f = ".c")
  ∧ (hasCppFile fileDirents →
       language = cpp
       ∧ (∀ f, f ∈ compileSet language files ↔
               f ∈ files ∧ Path.parse_ext f ∈ cppExtensions)
       ∧ ∀ f, Path.parse_ext f = ".c" → f ∉ compileSet language files)
  ∧ objectFiles
      (fold_left (loopBody path_join sp activeFolder buildMode language) files
         {| loop_commandLine := ""; objectFiles := []; loop_fs := fs |}) =
    map (objectFilePath path_join activeFolder buildMode)
      (compileSet language files).
Proof.
  intros language. split; [|split].
  - intros Hno. apply getLanguage_c_iff in Hno. fold language in Hno.
    rewrite Hno. split; [done|]. intros f.
    by rewrite elem_of_compileSet, skips_c.
  - intros Hcpp. apply getLanguage_cpp_iff in Hcpp. fold language in Hcpp.
    rewrite Hcpp. split; [done|]. split.
    + intros f. by rewrite elem_of_compileSet, skips_cpp.
    + intros f Hext. rewrite elem_of_compileSet, skips_cpp, Hext.
      intros [_ Hin]. unfold cppExtensions in Hin.
      apply list_elem_of_In in Hin. simpl in Hin.
      destruct Hin as [?|[?|[?|[]]]]; discriminate.
  - rewrite loop_closed_form. reflexivity.
Qed.

End BuildCommandLine.

(** A witness of C10: a folder that holds a header and a text file only. *)
Lemma executeTask_without_sources_witness :
  TaskProvider.executeTask (join "/")
    (Some {| TaskProvider.execution :=
               Some {| TaskProvider.commandLine := "" |} |})
    {| TaskProvider.operatingSystem := linux;
       TaskProvider.cCompiler := Some "gcc";
       TaskProvider.cppCompiler := Some "g++";
       TaskProvider.cStandard := Some "c99";
       TaskProvider.cppStandard := None;
       TaskProvider.enableWarnings := true;
       TaskProvider.warningsAsError := false;
       TaskProvider.warnings := ["-Wall"];
       TaskProvider.includePaths := [];
       TaskProvider.compilerArgs := None;
       TaskProvider.linkerArgs := None |}
    "proj" TaskProvider.debug
    [{| name := "util.h"; isFile := true |};
     {| name := "notes.txt"; isFile := true |}]
    ["util.h"; "notes.txt"] ∅ =
  (Some " && gcc -Wall --std=c99 -g3 -O0  -o proj/build/debug//debugMain", ∅).
Proof.
  apply (executeTask_without_sources (join "/")). reflexivity.
Defined.


(** ** Loading and storing settings *)

Section SettingsLoad.
Import SettingsProvider.

Lemma bind_Ok {A B : Type} (r : Result A) (k : A → Result B) (b : B) :
  r ≫= k = Ok b ↔ ∃ a, r = Ok a ∧ k a = Ok b.
Proof.
  destruct r as [a|]; simpl; split.
  - eauto.
  - by intros (a' & [= <-] & Hk).
  - discriminate.
  - by intros (a' & Ha & _).
Qed.

(** What [searchMsvcToolsPath] leaves of the state. *)
Lemma searchMsvcToolsPath_frame (h : Host) (st st' : State) :
  searchMsvcToolsPath h st = Ok st' →
  st' = st ∨ ∃ p, st' = set_msvcToolsPath (JStr p) st.
Proof.
  unfold searchMsvcToolsPath. intros H.
  repeat match type of H with
         | match ?x with _ => _ end = _ => destruct x; try discriminate
         | (if ?x then _ else _) = _ => destruct x
         end;
    injection H as <-; eauto.
Qed.

(** The architecture step in Microsoft toolchain mode: with [useMsvc] set
    [getArchitecture] sets the architecture to [x64] and the Cygwin flag
    to [false], the same for every host. *)
Lemma getArchitecture_msvc_is_x64 (h : Host) (st : State) :
  truthy (useMsvc st) = true →
  architecure (getArchitecture h st) = Some x64
  ∧ isCygwin (getArchitecture h st) = false
  ∧ architecure (getArchitecture h st) ≠ Some x86
  ∧ ∀ h' : Host, getArchitecture h' st = getArchitecture h st.
Proof.
  intros Hmsvc. unfold getArchitecture. rewrite Hmsvc. simpl.
  split; [done|]. split; [done|]. split; [discriminate|done].
Qed.

Lemma some_includes_false (sub : string) (l : list JsonValue) :
  some_includes sub l = Ok false →
  ∀ w, w ∈ l → value_includes sub w = Ok false.
Proof.
  induction l as [|x l IH]; intros H w Hw.
  - by apply elem_of_nil in Hw.
  - simpl in H. apply bind_Ok in H as (b & Hx & H).
    destruct b; [discriminate|].
    apply elem_of_cons in Hw as [->|Hw]; [done|by apply IH].
Qed.

Lemma some_includes_true (sub : string) (l : list JsonValue) :
  some_includes sub l = Ok true →
  ∃ w, w ∈ l ∧ value_includes sub w = Ok true.
Proof.
  induction l as [|x l IH]; intros H; [discriminate|].
  simpl in H. apply bind_Ok in H as (b & Hx & H). destruct b.
  - exists x. split; [apply elem_of_cons; by left|done].
  - destruct (IH H) as (w & Hw & Hinc). exists w.
    split; [apply elem_of_cons; by right|done].
Qed.

(** What a load that completes has done. *)
Lemma loadLocalSettings_Ok (h : Host) (file : SettingsFile) (st st' : State) :
  loadLocalSettings h file st = Ok st' →
  let get name defaultValue :=
    getSettingsValue h (readJsonFile file) name defaultValue true in
  ∃ st2 msvcWarnings,
    warnings_some "/" (get "warnings" DEFAULT_WARNINGS_UNIX) = Ok msvcWarnings
    ∧ (msvcToolsPath st2 = msvcToolsPath st
       ∨ truthy (get "useMsvc" DEFAULT_USE_MSVC) = true
         ∧ ∃ p, msvcToolsPath st2 = JStr p)
    ∧ msvcToolsPath st' = msvcToolsPath st2
    ∧ useMsvc st' = get "useMsvc" DEFAULT_USE_MSVC
    ∧ msvcBatchPath st' = get "msvcBatchPath" DEFAULT_MSVC_BATCH_PATH
    ∧ cCompilerPath st' = get "cCompilerPath" DEFAULT_C_COMPILER_PATH
    ∧ cppCompilerPath st' = get "cppCompilerPath" DEFAULT_CPP_COMPILER_PATH
    ∧ debuggerPath st' = get "debuggerPath" DEFAULT_DEBUGGER_PATH
    ∧ architecure st' = architecure st
    ∧ isCygwin st' = isCygwin st
    ∧ operatingSystem st' = operatingSystem st
    ∧ warnings st' =
        if truthy (useMsvc st') && negb msvcWarnings
        then DEFAULT_WARNINGS_MSVC
        else if negb (truthy (useMsvc st')) && msvcWarnings
             then DEFAULT_WARNINGS_UNIX
             else get "warnings" DEFAULT_WARNINGS_UNIX.
Proof.
  intros H get. unfold loadLocalSettings in H. cbv zeta in H.
  apply bind_Ok in H as (st2 & Hsearch & H).
  apply bind_Ok in H as (msvcWarnings & Hsome & H).
  apply bind_Ok in H as (includePaths' & _ & H).
  injection H as <-. exists st2, msvcWarnings. simpl.
  split; [exact Hsome|].
  match type of Hsearch with
  | (if truthy (useMsvc ?s) then _ else _) = _ => set (st1 := s) in *
  end.
  assert (Hst2 : st2 = st1
                 ∨ truthy (useMsvc st1) = true
                   ∧ ∃ p, st2 = set_msvcToolsPath (JStr p) st1).
  { destruct (truthy (useMsvc st1)) eqn:Hu.
    - apply searchMsvcToolsPath_frame in Hsearch as [->|[p ->]]; eauto.
    - injection Hsearch as <-. by left. }
  destruct Hst2 as [->|(Hu & p & ->)]; simpl.
  - repeat split; try reflexivity. by left.
  - repeat split; try reflexivity. right. split; [exact Hu|by exists p].
Qed.

End SettingsLoad.

(** ** The tools path of the Microsoft toolchain *)

Section MsvcToolsPath.
Import SettingsProvider.

(** The outcomes of [searchMsvcToolsPath] on a batch path that is a
    string. *)
Lemma searchMsvcToolsPath_outcomes (h : Host) (st : State) (batch : string) :
  msvcBatchPath st = JStr batch →
  let base := split_first "VC" batch in
  let versionsDir := base +:+ "VC/Tools/MSVC" in
  let architecturePath :=
    match architecure st with
    | Some x64 | None => "bin/Hostx64/x64"
    | Some x86 => "bin/Hostx86/x86"
    end in
  (base = "" ∨ foldersInDir h versionsDir = []
   ∨ pathExists h architecturePath = false →
     searchMsvcToolsPath h st = Ok st)
  ∧ (∀ (earlier : list string) (newest : string),
       base ≠ "" →
       foldersInDir h versionsDir = (earlier ++ [newest])%list →
       split_last "\"%char newest ≠ "" →
       pathExists h architecturePath = true →
       searchMsvcToolsPath h st =
         Ok (set_msvcToolsPath
               (JStr (path_join h [versionsDir; split_last "\"%char newest;
                                   architecturePath])) st))
  ∧ ∃ st2, searchMsvcToolsPath h st = Ok st2.
Proof.
  intros Hbatch base versionsDir architecturePath.
  unfold searchMsvcToolsPath. rewrite Hbatch.
  fold base. fold versionsDir. fold architecturePath.
  split; [|split].
  - intros Hmissing.
    destruct (is_empty base) eqn:Hbase; [done|].
    destruct (last (foldersInDir h versionsDir)) as [newest|] eqn:Hlast;
      [|done].
    destruct (is_empty newest); [done|].
    destruct (is_empty (split_last "\" newest)); [done|].
    destruct (pathExists h architecturePath) eqn:Hexists; [|done].
    destruct Hmissing as [Hb|[Hnil|Hno]].
    + apply is_empty_true in Hb. congruence.
    + rewrite Hnil in Hlast. discriminate.
    + discriminate.
  - intros earlier newest Hbase Hlist Hversion Hexists.
    destruct (is_empty base) eqn:Hb; [by apply is_empty_true in Hb|].
    rewrite Hlist, last_snoc.
    destruct (is_empty newest) eqn:Hn.
    { apply is_empty_true in Hn. subst newest. by destruct Hversion. }
    destruct (is_empty (split_last "\" newest)) eqn:Hv;
      [by apply is_empty_true in Hv|].
    by rewrite Hexists.
  - repeat match goal with
           | |- ∃ _, (if ?b then _ else _) = _ => destruct b
           | |- ∃ _, match ?o with _ => _ end = _ => destruct o
           end; eauto.
Qed.

Lemma some_includes_strings (sub : string) (l : list JsonValue) :
  (∀ w, w ∈ l → ∃ s, w = JStr s) → ∃ b, some_includes sub l = Ok b.
Proof.
  induction l as [|x l IH]; intros Hstr; [by exists false|].
  destruct (Hstr x) as [s ->]; [apply elem_of_cons; by left|].
  simpl. destruct (includes sub s); [by exists true|].
  apply IH. intros w Hw. apply Hstr, elem_of_cons. by right.
Qed.

(** After the tools-path step, a load over well-shaped values completes
    and keeps the tools path of that step. *)
Lemma loadLocalSettings_completes (h : Host) (file : SettingsFile)
    (st : State) (batch : string) :
  let get name defaultValue :=
    getSettingsValue h (readJsonFile file) name defaultValue true in
  get "msvcBatchPath" DEFAULT_MSVC_BATCH_PATH = JStr batch →
  wellShaped h file →
  ∃ st1 st2 st',
    msvcBatchPath st1 = JStr batch
    ∧ architecure st1 = architecure st
    ∧ msvcToolsPath st1 = msvcToolsPath st
    ∧ (if truthy (get "useMsvc" DEFAULT_USE_MSVC)
       then searchMsvcToolsPath h st1 else Ok st1) = Ok st2
    ∧ loadLocalSettings h file st = Ok st'
    ∧ msvcToolsPath st' = msvcToolsPath st2.
Proof.
  intros get Hbatch [(l & Hw & Hstr) Hinc].
  unfold loadLocalSettings. cbv zeta. fold get.
  match goal with
  | |- context [searchMsvcToolsPath h ?s] => set (st1 := s)
  end.
  assert (Hb1 : msvcBatchPath st1 = JStr batch) by exact Hbatch.
  destruct (searchMsvcToolsPath_outcomes h st1 batch Hb1) as (_ & _ & st2s & Hs).
  set (step := if truthy (useMsvc st1) then searchMsvcToolsPath h st1
               else Ok st1).
  assert (∃ st2, step = Ok st2) as [st2 Hstep].
  { unfold step. destruct (truthy (useMsvc st1)); eauto. }
  exists st1, st2. rewrite Hstep. simpl mbind.
  rewrite Hw. simpl warnings_some.
  destruct (some_includes_strings "/" l Hstr) as [b ->]. simpl mbind.
  simpl in Hinc.
  set (g := getSettingsValue h (configGlobalCCpp_default h) "includePath"
              (JStr "") false) in *.
  destruct (truthy g) eqn:Hg;
    [|simpl; eexists; do 4 (split; [done|]); split; reflexivity].
  destruct Hinc as [Hfalsy|[Hshape Harr]]; [discriminate|].
  destruct (findSettingsValue h (readJsonFile file) "includePaths" true)
    as [v|] eqn:Hfound; simpl default.
  - destruct (Harr v eq_refl) as [paths ->].
    destruct Hshape as [[s ->]|[extra ->]]; simpl; eexists;
      do 4 (split; [done|]); split; reflexivity.
  - destruct Hshape as [[s ->]|[extra ->]]; simpl; eexists;
      do 4 (split; [done|]); split; reflexivity.
Qed.

(** The derivation of the tools path as the code runs it. In Microsoft
    toolchain mode, on a batch path that is a string and well-shaped
    values, the load completes. The derivation takes the last entry of the
    listing of the version directory, takes the text after its last
    backslash as the version, and joins the version directory, the version
    and the architecture subdirectory ([bin/Hostx64/x64] when the
    architecture is [x64] or undefined, [bin/Hostx86/x86] otherwise). The
    existence test it makes before is on the architecture subdirectory
    alone, a relative path, not on the joined path. When the base path is
    empty, no version is listed or that test fails, the tools path is left
    as it was before the load. *)
Lemma msvcToolsPath_derivation (h : Host) (file : SettingsFile)
    (st : State) (batch : string) :
  let get name defaultValue :=
    getSettingsValue h (readJsonFile file) name defaultValue true in
  let base := split_first "VC" batch in
  let versionsDir := base +:+ "VC/Tools/MSVC" in
  let architecturePath :=
    match architecure st with
    | Some x64 | None => "bin/Hostx64/x64"
    | Some x86 => "bin/Hostx86/x86"
    end in
  truthy (get "useMsvc" DEFAULT_USE_MSVC) = true →
  get "msvcBatchPath" DEFAULT_MSVC_BATCH_PATH = JStr batch →
  wellShaped h file →
  ∃ st', loadLocalSettings h file st = Ok st'
    ∧ (base = "" ∨ foldersInDir h versionsDir = []
       ∨ pathExists h architecturePath = false →
         msvcToolsPath st' = msvcToolsPath st)
    ∧ (∀ (earlier : list string) (newest : string),
         base ≠ "" →
         foldersInDir h versionsDir = (earlier ++ [newest])%list →
         split_last "\"%char newest ≠ "" →
         pathExists h architecturePath = true →
         msvcToolsPath st' =
           JStr (path_join h [versionsDir; split_last "\"%char newest;
                              architecturePath])
         ∧ (StronglySorted String.le (earlier ++ [newest])%list →
            ∀ v, v ∈ earlier → String.le v newest)).
Proof.
  intros get base versionsDir architecturePath Huse Hbatch Hshape.
  destruct (loadLocalSettings_completes h file st batch Hbatch Hshape)
    as (st1 & st2 & st' & Hb1 & Harch & Htools & Hstep & Hload & Hkeep).
  unfold get in Huse. cbv beta zeta in Hstep. rewrite Huse in Hstep.
  destruct (searchMsvcToolsPath_outcomes h st1 batch Hb1)
    as (Habort & Hderive & _).
  rewrite Harch in Habort, Hderive.
  fold base versionsDir architecturePath in Habort, Hderive.
  exists st'. split; [exact Hload|]. split.
  - intros Hmissing. rewrite (Habort Hmissing) in Hstep.
    injection Hstep as <-. by rewrite Hkeep.
  - intros earlier newest Hbase Hlist Hversion Hexists. split.
    + rewrite (Hderive earlier newest Hbase Hlist Hversion Hexists) in Hstep.
      injection Hstep as <-. by rewrite Hkeep.
    + intros Hsorted v Hv.
      apply (StronglySorted_app_1_elem_of _ earlier [newest]);
        [done|done|by apply list_elem_of_singleton].
Qed.

End MsvcToolsPath.

(** C5. The tools path of an installed toolchain is not found. The
    existence test of [searchMsvcToolsPath] is on [bin/Hostx64/x64], a path
    relative to the working directory of the process, where the joined
    path is meant: for every host the outcome depends on the existence of
    that relative path only. On an installation that holds the version
    directory [14.30] with its [bin/Hostx64/x64], the load in Microsoft
    toolchain mode completes and leaves the tools path empty; it derives
    the path of that very directory once the working directory happens to
    hold a [bin/Hostx64/x64] of its own. *)
Theorem searchMsvcToolsPath_misses_installed_toolchain :
  (∀ (h h' : SettingsProvider.Host) (st : SettingsProvider.State),
     SettingsProvider.foldersInDir h' = SettingsProvider.foldersInDir h →
     SettingsProvider.path_join h' = SettingsProvider.path_join h →
     (∀ relative, relative ∈ ["bin/Hostx64/x64"; "bin/Hostx86/x86"] →
        SettingsProvider.pathExists h' relative
        = SettingsProvider.pathExists h relative) →
     SettingsProvider.searchMsvcToolsPath h' st
     = SettingsProvider.searchMsvcToolsPath h st)
  ∧ SettingsProvider.pathExists (msvcInstallation false)
      "C:/VS/VC/Tools/MSVC/14.30/bin/Hostx64/x64" = true
  ∧ SettingsProvider.foldersInDir (msvcInstallation false)
      "C:/VS/VC/Tools/MSVC" = ["C:\VS\VC\Tools\MSVC\14.30"]
  ∧ (∃ st',
       SettingsProvider.loadLocalSettings (msvcInstallation false)
         (SettingsProvider.Doc
            (msvcDoc "C:/VS/VC/Auxiliary/Build/vcvarsall.bat"))
         (SettingsProvider.initial windows []) = Ok st'
       ∧ truthy (SettingsProvider.useMsvc st') = true
       ∧ SettingsProvider.msvcToolsPath st' = JStr "")
  ∧ (∃ st',
       SettingsProvider.loadLocalSettings (msvcInstallation true)
         (SettingsProvider.Doc
            (msvcDoc "C:/VS/VC/Auxiliary/Build/vcvarsall.bat"))
         (SettingsProvider.initial windows []) = Ok st'
       ∧ SettingsProvider.msvcToolsPath st'
         = JStr "C:/VS/VC/Tools/MSVC/14.30/bin/Hostx64/x64").
Proof.
  split; [|split; [reflexivity|split; [reflexivity|split]]].
  - intros h h' st Hfolders Hjoin Hexists.
    unfold SettingsProvider.searchMsvcToolsPath. rewrite Hfolders, Hjoin.
    destruct (SettingsProvider.msvcBatchPath st); try reflexivity.
    destruct (is_empty _); [reflexivity|].
    destruct (last _) as [newest|]; [|reflexivity].
    destruct (is_empty newest); [reflexivity|].
    destruct (is_empty _); [reflexivity|].
    rewrite Hexists; [reflexivity|].
    destruct (SettingsProvider.architecure st) as [[|]|];
      apply list_elem_of_In; simpl; tauto.
  - eexists. split; [vm_compute; reflexivity|]. split; reflexivity.
  - eexists. split; [vm_compute; reflexivity|]. reflexivity.
Qed.

(** ** The style of the warning list *)

Section WarningStyle.
Import SettingsProvider.

(** C2, as the code has it. A load over well-shaped values completes, and
    a load that completes classifies the loaded warning list as MSVC-style
    when one of its entries contains a slash and as Unix-style otherwise.
    When [useMsvc] is set and the list is Unix-style the warnings become
    the MSVC defaults; when [useMsvc] is not set and the list is MSVC-style
    they become the Unix defaults; in the other cases the loaded list is
    kept. So after the load no entry contains a slash when [useMsvc] is
    not set, and some entry contains one when it is set. *)
Theorem loadLocalSettings_normalizes_warnings
    (h : Host) (file : SettingsFile) (st : State) :
  let loaded :=
    getSettingsValue h (readJsonFile file) "warnings" DEFAULT_WARNINGS_UNIX
      true in
  (∀ batch,
     getSettingsValue h (readJsonFile file) "msvcBatchPath"
       DEFAULT_MSVC_BATCH_PATH true = JStr batch →
     wellShaped h file →
     ∃ st', loadLocalSettings h file st = Ok st')
  ∧ ∀ st',
      loadLocalSettings h file st = Ok st' →
      ∃ (msvcWarnings : bool) (l : list JsonValue),
        warnings_some "/" loaded = Ok msvcWarnings
        ∧ warnings st' =
            (if truthy (useMsvc st')
             then if msvcWarnings then loaded else DEFAULT_WARNINGS_MSVC
             else if msvcWarnings then DEFAULT_WARNINGS_UNIX else loaded)
        ∧ warnings st' = JArr l
        ∧ (truthy (useMsvc st') = false →
             ∀ w, w ∈ l → value_includes "/" w = Ok false)
        ∧ (truthy (useMsvc st') = true →
             ∃ w, w ∈ l ∧ value_includes "/" w = Ok true).
Proof.
  intros loaded. split.
  { intros batch Hbatch Hshape.
    destruct (loadLocalSettings_completes h file st batch Hbatch Hshape)
      as (_ & _ & st' & _ & _ & _ & _ & Hload & _).
    by exists st'. }
  intros st' H.
  apply loadLocalSettings_Ok in H
    as (st2 & msvcWarnings & Hsome & _ & _ & _ & _ & _ & _ & _ & _ & _ & _ & Hw).
  fold loaded in Hsome, Hw. exists msvcWarnings.
  destruct loaded as [| | | |entries|] eqn:Hloaded; try discriminate.
  simpl in Hsome.
  destruct (truthy (useMsvc st')), msvcWarnings; simpl in Hw; rewrite Hw;
    eexists; (split; [exact Hsome|]); (split; [reflexivity|]);
    (split; [reflexivity|]); (split; [try discriminate|try discriminate]).
  - intros _. by apply some_includes_true.
  - intros _. exists (JStr "/W4"). split; [apply list_elem_of_singleton|]; done.
  - intros _ w Hin. apply list_elem_of_In in Hin. simpl in Hin.
    destruct Hin as [<-|[<-|[<-|[]]]]; reflexivity.
  - intros _. by apply some_includes_false.
Qed.

End WarningStyle.

(** C2, as the specification has it, fails: with [useMsvc] set, a list
    that mixes an entry containing a slash with an entry containing [-W]
    is in effect after the load. *)
Lemma loadLocalSettings_keeps_mixed_warnings :
  ∃ st', SettingsProvider.loadLocalSettings exampleHost
           (SettingsProvider.Doc mixedWarningsDoc)
           (SettingsProvider.initial windows []) = Ok st'
         ∧ truthy (SettingsProvider.useMsvc st') = true
         ∧ SettingsProvider.warnings st' = JArr [JStr "/W4"; JStr "-Wall"]
         ∧ includes "/" "/W4" = true
         ∧ includes "-W" "-Wall" = true.
Proof.
  eexists. split; [vm_compute; reflexivity|]. repeat split.
Qed.

(** A witness of the warning rule: a Unix list loaded with [useMsvc] set. *)
Lemma loadLocalSettings_normalizes_warnings_witness :
  ∃ st', SettingsProvider.loadLocalSettings exampleHost
           (SettingsProvider.Doc
              (<["C_Cpp_Runner.useMsvc" := JBool true]>
                 (<["C_Cpp_Runner.warnings" := JArr [JStr "-Wall"]]> ∅)))
           (SettingsProvider.initial windows []) = Ok st'
         ∧ SettingsProvider.warnings st' = SettingsProvider.DEFAULT_WARNINGS_MSVC.
Proof.
  eexists. split; [vm_compute; reflexivity|].
  destruct (loadLocalSettings_normalizes_warnings exampleHost
              (SettingsProvider.Doc
                 (<["C_Cpp_Runner.useMsvc" := JBool true]>
                    (<["C_Cpp_Runner.warnings" := JArr [JStr "-Wall"]]> ∅)))
              (SettingsProvider.initial windows [])) as [_ Hrule].
  edestruct Hrule as (msvcWarnings & l & Hsome & Hw & _);
    [vm_compute; reflexivity|].
  vm_compute in Hsome. injection Hsome as <-. exact Hw.
Defined.

(** ** Deletion of a configuration file *)

Section DeleteCallback.
Import SettingsProvider.



(** The settings of a load that are read by name, and its include paths,
    from the value found for the setting and the global include path. *)
Lemma loadLocalSettings_fields (h : Host) (file : SettingsFile)
    (st st' : State) :
  loadLocalSettings h file st = Ok st' →
  let get name defaultValue :=
    getSettingsValue h (readJsonFile file) name defaultValue true in
  let found := findSettingsValue h (readJsonFile file) "includePaths" true in
  let includePaths0 := default (JArr (DEFAULT_INCLUDE_PATHS st)) found in
  let globalIncludePath :=
    getSettingsValue h (configGlobalCCpp_default h) "includePath" (JStr "")
      false in
  cStandard st' = get "cStandard" DEFAULT_C_STANDARD_UNIX
  ∧ cppStandard st' = get "cppStandard" DEFAULT_CPP_STANDARD
  ∧ compilerArgs st' = get "compilerArgs" DEFAULT_COMPILER_ARGS
  ∧ linkerArgs st' = get "linkerArgs" DEFAULT_LINKER_ARGS
  ∧ includeSearch st' = get "includeSearch" DEFAULT_INCLUDE_SEARCH
  ∧ excludeSearch st' = get "excludeSearch" DEFAULT_EXCLUDE_SEARCH
  ∧ enableWarnings st' = get "enableWarnings" DEFAULT_ENABLE_WARNINGS
  ∧ warningsAsError st' = get "warningsAsError" DEFAULT_WARNINGS_AS_ERRORS
  ∧ (truthy globalIncludePath = false ∧ includePaths st' = includePaths0
     ∨ truthy globalIncludePath = true
       ∧ ∃ l extra, includePaths0 = JArr l
                    ∧ spread globalIncludePath = Ok extra
                    ∧ includePaths st' = JArr (l ++ extra))
  ∧ DEFAULT_INCLUDE_PATHS st' =
      match found, includePaths st' with
      | None, JArr l => l
      | _, _ => DEFAULT_INCLUDE_PATHS st
      end.
Proof.
  intros H get found includePaths0 globalIncludePath.
  unfold loadLocalSettings in H. cbv zeta in H.
  apply bind_Ok in H as (st2 & Hsearch & H).
  apply bind_Ok in H as (msvcWarnings & _ & H).
  apply bind_Ok in H as (includePaths' & Hinc & H).
  injection H as <-. simpl.
  assert (Hstatic : DEFAULT_INCLUDE_PATHS st2 = DEFAULT_INCLUDE_PATHS st).
  { match type of Hsearch with
    | (if ?b then _ else _) = _ => destruct b
    end.
    - by apply searchMsvcToolsPath_frame in Hsearch as [->|[p ->]].
    - by injection Hsearch as <-. }
  rewrite Hstatic in *. fold found in Hinc |- *.
  fold includePaths0 globalIncludePath in Hinc.
  do 8 (split; [reflexivity|]). split; [|reflexivity].
  destruct (truthy globalIncludePath).
  - right. split; [done|].
    destruct includePaths0 as [| | | |l|]; try discriminate.
    apply bind_Ok in Hinc as (extra & Hspread & [= <-]). eauto.
  - left. split; [done|]. by injection Hinc as <-.
Qed.


End DeleteCallback.



(** * Further properties of the helpers and providers *)

(** ** The helpers of [utils.js] *)

Section UtilsHelpers.
Import UtilsMore.

Lemma prefix_empty (s : string) : String.prefix "" s = true.
Proof. by destruct s. Qed.

Lemma includes_empty (s : string) : includes "" s = true.
Proof. rewrite includes_eq. by rewrite prefix_empty. Qed.

Lemma includes_char (ch a : ascii) (s : string) :
  includes (String ch "") (String a s) =
    Ascii.eqb ch a || includes (String ch "") s.
Proof.
  rewrite includes_eq. simpl String.prefix.
  destruct (Ascii.ascii_dec ch a) as [->|Hne].
  - by rewrite prefix_empty, Ascii.eqb_refl.
  - apply Ascii.eqb_neq in Hne. by rewrite Hne.
Qed.

Lemma replace_backslashes_no_backslash (s : string) :
  includes "\" (replace_backslashes s) = false.
Proof.
  induction s as [|a s IH]; [done|]. simpl replace_backslashes.
  rewrite includes_char, IH.
  destruct (Ascii.eqb a "\") eqn:Ha; [done|].
  rewrite Ascii.eqb_sym, Ha. done.
Qed.

(** X1. [replaceBackslashes] leaves no backslash in its result, keeps the
    length of the text, changes nothing in a text without backslashes and
    so is idempotent. *)
Theorem replaceBackslashes_leaves_no_backslash (text : string) :
  includes "\" (replaceBackslashes text) = false
  ∧ String.length (replaceBackslashes text) = String.length text
  ∧ (includes "\" text = false → replaceBackslashes text = text)
  ∧ replaceBackslashes (replaceBackslashes text) = replaceBackslashes text.
Proof.
  unfold replaceBackslashes.
  assert (Hno := replace_backslashes_no_backslash).
  assert (Hid : ∀ s, includes "\" s = false → replace_backslashes s = s).
  { induction s as [|a s IH]; [done|]. rewrite includes_char.
    intros [Ha Hs]%orb_false_iff. simpl.
    rewrite Ascii.eqb_sym, Ha, IH; done. }
  split; [apply Hno|]. split; [|split; [apply Hid|by apply Hid]].
  induction text as [|a s IH]; simpl; congruence.
Qed.

(** X2. [isSourceFile] holds exactly of the extensions whose lower-case
    form is [.c], [.cpp], [.cc] or [.cxx]; it never holds of a header
    extension, and the header test it starts with decides nothing. *)
Theorem isSourceFile_iff_source_extension
    (toLowerCase : string → string) (fileExt : string) :
  (isSourceFile toLowerCase fileExt = true ↔
     toLowerCase fileExt ∈ [".c"; ".cpp"; ".cc"; ".cxx"])
  ∧ (isHeaderFile (toLowerCase fileExt) = true →
       isSourceFile toLowerCase fileExt = false)
  ∧ isSourceFile toLowerCase fileExt =
      isCSourceFile (toLowerCase fileExt)
      || isCppSourceFile (toLowerCase fileExt).
Proof.
  unfold isSourceFile. set (ext := toLowerCase fileExt).
  assert (Hsrc : isCSourceFile ext || isCppSourceFile ext = true
                 ↔ ext ∈ [".c"; ".cpp"; ".cc"; ".cxx"]).
  { rewrite orb_true_iff, isCSourceFile_iff, isCppSourceFile_iff.
    unfold cppExtensions. rewrite !elem_of_cons. tauto. }
  assert (Hhdr : isHeaderFile ext = true →
                 isCSourceFile ext || isCppSourceFile ext = false).
  { unfold isHeaderFile. intros (e & Hin & Heq)%existsb_exists.
    apply String.eqb_eq in Heq as ->. simpl in Hin.
    destruct Hin as [<-|[<-|[<-|[<-|[]]]]]; reflexivity. }
  split; [|split].
  - rewrite <- Hsrc. destruct (isHeaderFile ext) eqn:Hh.
    + rewrite (Hhdr eq_refl). done.
    + by destruct (isCSourceFile ext || isCppSourceFile ext).
  - by intros ->.
  - destruct (isHeaderFile ext) eqn:Hh.
    + by rewrite (Hhdr eq_refl).
    + by destruct (isCSourceFile ext || isCppSourceFile ext).
Qed.

(** X3. [filterOnString] keeps, in their order, exactly the names that do
    not contain the filter text; filtering twice filters once; and since
    every name contains the empty text, an empty filter keeps nothing. *)
Theorem filterOnString_keeps_names_without_text
    (names : list string) (filterName : string) :
  (∀ n, n ∈ filterOnString names filterName ↔
        n ∈ names ∧ ¬ ∃ pre post, n = pre +:+ filterName +:+ post)
  ∧ sublist (filterOnString names filterName) names
  ∧ filterOnString (filterOnString names filterName) filterName =
      filterOnString names filterName
  ∧ filterOnString names "" = [].
Proof.
  unfold filterOnString. split; [|split; [|split]].
  - intros n. rewrite !list_elem_of_In, filter_In, negb_true_iff.
    rewrite <- includes_spec. destruct (includes filterName n); split;
      intros [? ?]; split; congruence.
  - induction names as [|n names IH]; simpl; [done|].
    destruct (negb _); by constructor.
  - induction names as [|n names IH]; simpl; [done|].
    destruct (negb (includes filterName n)) eqn:Hn; simpl; [|done].
    by rewrite Hn, IH.
  - induction names as [|n names IH]; simpl; [done|].
    by rewrite includes_empty.
Qed.

(** An induction principle that reaches the directories below. *)
Lemma DirTree_nested_ind (P : DirTree → Prop) :
  (∀ entries,
     Forall (λ e, match snd e with Some sub => P sub | None => True end)
       entries →
     P (DirNode entries)) →
  ∀ content, P content.
Proof.
  intros Hnode. fix IH 1. intros [entries]. apply Hnode.
  induction entries as [|[dirName [sub|]] rest IHrest]; constructor;
    simpl; auto.
Qed.

Lemma directDirectories_kept (path_join : list string → string)
    (folder : string) (entries : list (string * option DirTree)) (dir : string) :
  dir ∈ directDirectories path_join folder entries →
  keptDirectory dir = true.
Proof.
  induction entries as [|[dirName [sub|]] rest IH]; simpl.
  - by intros ?%elem_of_nil.
  - destruct (keptDirectory (path_join [folder; dirName])) eqn:Hk; [|done].
    intros [->|?]%elem_of_cons; auto.
  - done.
Qed.

(** X4. [getDirectories] never answers an empty list: it answers
    [undefined] exactly when no directory directly below survives the two
    filters. What it lists starts with the directories directly below that
    survive, and no path it lists, at any depth, contains [.vscode] or
    [build]. *)
Theorem getDirectories_lists_no_excluded_path
    (path_join : list string → string) (folder : string)
    (content : DirTree) :
  getDirectories path_join folder content ≠ Some []
  ∧ (getDirectories path_join folder content = None ↔
       match content with
       | DirNode entries => directDirectories path_join folder entries = []
       end)
  ∧ ∀ dirs,
      getDirectories path_join folder content = Some dirs →
      (∃ below,
         dirs = (match content with
                 | DirNode entries =>
                     directDirectories path_join folder entries
                 end ++ below)%list)
      ∧ ∀ dir, dir ∈ dirs →
               includes ".vscode" dir = false ∧ includes "build" dir = false.
Proof.
  split; [|split].
  - destruct content as [entries]. simpl.
    by destruct (directDirectories path_join folder entries).
  - destruct content as [entries]. simpl.
    by destruct (directDirectories path_join folder entries).
  - intros dirs Hdirs. split.
    + destruct content as [entries]. simpl in Hdirs.
      destruct (directDirectories path_join folder entries) eqn:Hd;
        [done|]. injection Hdirs as <-. eauto.
    + assert (Hkept : ∀ dir, dir ∈ dirs → keptDirectory dir = true).
      { revert folder dirs Hdirs.
        induction content as [entries IH] using DirTree_nested_ind.
        intros folder dirs Hdirs dir Hdir. simpl in Hdirs.
        destruct (directDirectories path_join folder entries) eqn:Hd;
          [done|]. injection Hdirs as <-.
        rewrite app_comm_cons, <- Hd in Hdir.
        apply elem_of_app in Hdir as [Hdir|Hdir];
          [by eapply directDirectories_kept|].
        clear Hd. induction entries as [|[dirName [sub|]] rest IHrest].
        - by apply elem_of_nil in Hdir.
        - apply Forall_cons in IH as [IHsub IHrest'].
          destruct (keptDirectory (path_join [folder; dirName]));
            [|by apply IHrest].
          apply elem_of_app in Hdir as [Hdir|Hdir]; [|by apply IHrest].
          simpl in IHsub.
          destruct (getDirectories path_join (path_join [folder; dirName])
                      sub) as [found|] eqn:Hsub.
          + by eapply IHsub.
          + by apply elem_of_nil in Hdir.
        - apply Forall_cons in IH as [_ IHrest']. by apply IHrest. }
      intros dir Hdir. apply Hkept in Hdir. unfold keptDirectory in Hdir.
      apply andb_true_iff in Hdir as [H1 H2].
      by rewrite negb_true_iff in H1, H2.
Qed.

Lemma replace_first_eq (pat rep s : string) :
  replace_first pat rep s =
    if String.prefix pat s then rep +:+ drop_chars (String.length pat) s
    else match s with
         | EmptyString => EmptyString
         | String a s' => String a (replace_first pat rep s')
         end.
Proof. destruct s; reflexivity. Qed.

Lemma drop_chars_append (p s : string) :
  drop_chars (String.length p) (p +:+ s) = s.
Proof.
  induction p as [|x p IH]; [by destruct s|]. rewrite append_cons. apply IH.
Qed.

Lemma replace_first_at_first_occurrence (pat rep pre post : string) :
  (∀ pre1 pre2, pre = pre1 +:+ pre2 → pre2 ≠ "" →
                String.prefix pat (pre2 +:+ pat +:+ post) = false) →
  replace_first pat rep (pre +:+ pat +:+ post) = pre +:+ rep +:+ post.
Proof.
  induction pre as [|a pre IH]; intros Hfirst.
  - rewrite !append_nil_l, replace_first_eq.
    rewrite (proj2 (prefix_spec pat (pat +:+ post))) by eauto.
    by rewrite drop_chars_append.
  - rewrite replace_first_eq.
    rewrite (Hfirst "" (String a pre) eq_refl) by discriminate.
    rewrite !append_cons. f_equal. apply IH.
    intros pre1 pre2 -> Hne. by apply (Hfirst (String a pre1) pre2).
Qed.

(** X5. [commandExists] reports a command found exactly when [lookpath]
    answers a path that is not empty, and otherwise hands back the answer
    of [lookpath]. The path of a found command is the answer of
    [lookpath], in which the first occurrence of [.EXE], and only that
    one, is written [.exe]. *)
Theorem commandExists_found_iff_path
    (lookpath : string → option string) (command : string) :
  let result := commandExists lookpath command in
  (found result = true ↔ ∃ p, lookpath command = Some p ∧ p ≠ "")
  ∧ (found result = false → path result = lookpath command)
  ∧ ∀ p, lookpath command = Some p → p ≠ "" →
      (includes ".EXE" p = false → path result = Some p)
      ∧ ∀ pre post,
          p = pre +:+ ".EXE" +:+ post →
          (∀ pre1 pre2, pre = pre1 +:+ pre2 → pre2 ≠ "" →
             String.prefix ".EXE" (pre2 +:+ ".EXE" +:+ post) = false) →
          path result = Some (pre +:+ ".exe" +:+ post).
Proof.
  unfold commandExists. split; [|split].
  - destruct (lookpath command) as [p|]; simpl.
    + destruct (is_empty p) eqn:He; simpl.
      * apply is_empty_true in He. split; [done|].
        by intros (p' & [= <-] & Hne).
      * split; [|done]. intros _. exists p. split; [done|].
        intros ->. discriminate.
    + split; [done|]. by intros (p & ? & _).
  - destruct (lookpath command) as [p|]; simpl; [|done].
    by destruct (is_empty p).
  - intros p -> Hne. simpl.
    destruct (is_empty p) eqn:He; [by apply is_empty_true in He|]. simpl.
    split.
    + by intros ->.
    + intros pre post -> Hfirst.
      rewrite (proj2 (includes_spec ".EXE" _)) by eauto.
      by rewrite replace_first_at_first_occurrence.
Qed.

End UtilsHelpers.

(** ** Build, run and clean commands *)

Section TaskCommandFacts.
Import TaskProvider TaskCommands.
Variable path_join : list string → string.

Lemma join_snoc_chain (sep : string) (l : list string) (x : string) :
  l ≠ [] → join sep (l ++ [x]) = join sep l +:+ sep +:+ x.
Proof.
  induction l as [|y l IH]; [done|]. intros _.
  destruct l as [|z l]; [reflexivity|].
  change (join sep ((y :: z :: l) ++ [x]))
    with (y +:+ sep +:+ join sep ((z :: l) ++ [x])).
  rewrite IH by done.
  change (join sep (y :: z :: l)) with (y +:+ sep +:+ join sep (z :: l)).
  by rewrite !append_assoc.
Qed.

(** X6. For a task that has an execution, [executeTask] hands over the
    compile sub-commands of the compile set, in the order of the listing,
    and then the link sub-command over their object files, all joined by
    the AND separator; the compile set is a sublist of the listing. With
    an empty compile set the command line starts with the separator. *)
Theorem executeTask_joins_compile_and_link (e : TaskExecution)
    (sp : Settings) (activeFolder : string) (buildMode : Builds)
    (fileDirents : list Dirent) (files : list string) (fs : gset string) :
  let language := getLanguage fileDirents in
  let sources := compileSet language files in
  let link :=
    linkCommand path_join sp activeFolder buildMode language
      (map (objectFilePath path_join activeFolder buildMode) sources) in
  fst (executeTask path_join (Some {| execution := Some e |}) sp activeFolder
         buildMode fileDirents files fs) =
    Some (match sources with
          | [] => " && " +:+ link
          | _ :: _ =>
              join " && "
                (map (compileCommand path_join sp activeFolder buildMode
                        language) sources ++ [link])
          end)
  ∧ sublist sources files.
Proof.
  intros language sources link. split.
  - rewrite executeTask_closed_form. fold language sources link. simpl fst.
    rewrite chain_from_empty. destruct sources as [|file rest]; [done|].
    by rewrite join_snoc_chain.
  - unfold sources, compileSet. clear. induction files as [|f files IH];
      simpl; [done|]. destruct (negb _); by constructor.
Qed.

(** A directory above a path is a prefix of the path that is not empty
    and is followed by a separator. *)
Lemma prefixesAt_above (os : OperatingSystems) (before rest d : string) :
  d ∈ prefixesAt os before rest →
  ∃ mid a rest',
    rest = mid +:+ String a rest' ∧ isSeparator os a = true
    ∧ d = before +:+ mid ∧ d ≠ "".
Proof.
  revert before. induction rest as [|a rest IH]; intros before Hd.
  - by apply elem_of_nil in Hd.
  - simpl in Hd. apply elem_of_app in Hd as [Hd|Hd].
    + destruct (isSeparator os a) eqn:Hsep; simpl in Hd;
        [|by apply elem_of_nil in Hd].
      destruct (is_empty before) eqn:Hempty; simpl in Hd;
        [by apply elem_of_nil in Hd|].
      apply list_elem_of_singleton in Hd as ->.
      exists "", a, rest. rewrite append_nil_l, append_empty_r.
      repeat split; [done|]. intros ->. discriminate.
    + destruct (IH _ Hd) as (mid & b & rest' & -> & Hsep & -> & Hne).
      exists (String a mid), b, rest'.
      split; [by rewrite append_cons|]. split; [done|]. split; [|done].
      by rewrite append_assoc, append_cons, append_nil_l.
Qed.

Lemma parentsOf_above (os : OperatingSystems) (filePath d : string) :
  d ∈ parentsOf os filePath →
  ∃ a rest, filePath = d +:+ String a rest ∧ isSeparator os a = true
            ∧ d ≠ "".
Proof.
  intros (mid & a & rest & -> & Hsep & -> & Hne)%prefixesAt_above.
  rewrite append_nil_l in *. eauto.
Qed.

Lemma prefixesAt_below (os : OperatingSystems) (before mid rest : string)
    (a : ascii) :
  isSeparator os a = true →
  before +:+ mid ≠ "" →
  before +:+ mid ∈ prefixesAt os before (mid +:+ String a rest).
Proof.
  intros Hsep. revert before.
  induction mid as [|b mid IH]; intros before Hne.
  - rewrite append_nil_l. rewrite append_empty_r in *. simpl. rewrite Hsep.
    destruct (is_empty before) eqn:Hempty.
    + by apply is_empty_true in Hempty.
    + simpl. apply elem_of_cons. by left.
  - rewrite append_cons. simpl. apply elem_of_app. right.
    assert (Heq : before +:+ String b mid
                  = (before +:+ String b EmptyString) +:+ mid)
      by (by rewrite append_assoc, append_cons, append_nil_l).
    rewrite Heq in *. by apply IH.
Qed.

(** The directories a recursive creation leaves: the ones there were, the
    directory, and every directory above it. *)
Lemma elem_of_mkdirRecursive (os : OperatingSystems) (fs : gset string)
    (filePath d : string) :
  d ∈ mkdirRecursive os fs filePath ↔
    d ∈ fs ∨ d = filePath
    ∨ ∃ a rest, filePath = d +:+ String a rest ∧ isSeparator os a = true
                ∧ d ≠ "".
Proof.
  unfold mkdirRecursive.
  rewrite !elem_of_union, elem_of_singleton, elem_of_list_to_set. split.
  - intros [[->|Hd]|Hd]; [by right; left| |by left].
    right. right. by apply parentsOf_above.
  - intros [Hd|[->|(a & rest & -> & Hsep & Hne)]];
      [by right|by left; left|].
    left. right. unfold parentsOf.
    rewrite <- (append_nil_l d) at 1. apply prefixesAt_below; [done|].
    by rewrite append_nil_l.
Qed.

(** What [executeTask] leaves of the directories: they are as they were,
    or the build directory has been created once. *)
Lemma executeTask_directories (task : option Task)
    (sp : Settings) (activeFolder : string) (buildMode : Builds)
    (fileDirents : list Dirent) (files : list string) (fs : gset string) :
  snd (executeTask path_join task sp activeFolder buildMode fileDirents
         files fs)
  = match compileSet (getLanguage fileDirents) files with
    | [] => fs
    | _ :: _ =>
        if bool_decide (buildDir path_join activeFolder buildMode ∈ fs)
        then fs
        else mkdirRecursive (operatingSystem sp) fs
               (buildDir path_join activeFolder buildMode)
    end.
Proof.
  assert (Hensure :
    ensureBuildDir path_join sp activeFolder buildMode fs
    = if bool_decide (buildDir path_join activeFolder buildMode ∈ fs)
      then fs
      else mkdirRecursive (operatingSystem sp) fs
             (buildDir path_join activeFolder buildMode)).
  { unfold ensureBuildDir, pathExists.
    by destruct (bool_decide (_ ∈ fs)). }
  rewrite <- Hensure. unfold executeTask. rewrite loop_closed_form.
  by destruct (task ≫= execution).
Qed.

(** X7. The only effect of [executeTask] on the directories is one
    recursive creation of the build directory, made when a file is
    compiled and the build directory does not exist: no directory is
    removed, the ones added are then the build directory and every
    directory above it, which the recursive creation makes on its way, and
    the build directory exists afterwards exactly when it existed before
    or a file was compiled. That holds also for a task without execution,
    to which no command line is handed. *)
Theorem executeTask_creates_only_the_build_directory (task : option Task)
    (sp : Settings) (activeFolder : string) (buildMode : Builds)
    (fileDirents : list Dirent) (files : list string) (fs : gset string) :
  let result :=
    executeTask path_join task sp activeFolder buildMode fileDirents files
      fs in
  let dir := buildDir path_join activeFolder buildMode in
  fs ⊆ snd result
  ∧ (snd result = fs
     ∨ (dir ∉ fs) ∧ compileSet (getLanguage fileDirents) files ≠ []
       ∧ snd result = mkdirRecursive (operatingSystem sp) fs dir)
  ∧ (∀ d, d ∈ snd result ↔
       d ∈ fs
       ∨ (dir ∉ fs) ∧ compileSet (getLanguage fileDirents) files ≠ []
         ∧ (d = dir
            ∨ ∃ a rest, dir = d +:+ String a rest
                        ∧ isSeparator (operatingSystem sp) a = true
                        ∧ d ≠ ""))
  ∧ (dir ∈ snd result ↔
       dir ∈ fs ∨ compileSet (getLanguage fileDirents) files ≠ [])
  ∧ (task ≫= execution = None → fst result = None).
Proof.
  intros result dir.
  assert (Hcases :
    snd result = fs
    ∨ (dir ∉ fs) ∧ compileSet (getLanguage fileDirents) files ≠ []
      ∧ snd result = mkdirRecursive (operatingSystem sp) fs dir).
  { unfold result. rewrite executeTask_directories. fold dir.
    destruct (compileSet _ _) as [|f l]; [by left|].
    case_bool_decide; [by left|]. right. done. }
  split; [|split; [exact Hcases|split; [|split]]].
  - destruct Hcases as [->|(_ & _ & ->)]; [done|].
    unfold mkdirRecursive. apply union_subseteq_r.
  - intros d. unfold result. rewrite executeTask_directories. fold dir.
    destruct (compileSet _ _) as [|f l].
    + split; [by left|]. by intros [?|(_ & ? & _)].
    + case_bool_decide as Hdir.
      * split; [by left|]. by intros [?|(? & _)].
      * rewrite elem_of_mkdirRecursive. split.
        -- intros [?|Hd]; [by left|]. right. done.
        -- intros [?|(_ & _ & Hd)]; [by left|by right].
  - unfold result. rewrite executeTask_directories. fold dir.
    destruct (compileSet _ _) as [|f l].
    + split; [by left|]. by intros [?|?].
    + case_bool_decide.
      * split; [by left|done].
      * split; [by right|]. intros _. unfold mkdirRecursive.
        apply elem_of_union_l, elem_of_union_l. by apply elem_of_singleton.
  - intros Hnone. unfold result, executeTask. by rewrite Hnone.
Qed.

(** X8. [runTask] runs the file [executeTask] links: its command line is
    the path the build command line ends with, after [-o]. And
    [cleanTask] deletes the directory [executeTask] makes sure of: its
    command line is [rm -r], or [del] followed by a space on Windows, then
    a space and the build directory, which exists once [executeTask] has
    compiled a file. *)
Theorem runTask_and_cleanTask_agree_with_executeTask (e : TaskExecution)
    (sp : Settings) (activeFolder : string) (buildMode : Builds)
    (fileDirents : list Dirent) (files : list string) (fs : gset string) :
  let task := Some {| execution := Some e |} in
  let dir := buildDir path_join activeFolder buildMode in
  (∃ exe front,
     runTask path_join task activeFolder buildMode (operatingSystem sp)
       = Some exe
     ∧ fst (executeTask path_join task sp activeFolder buildMode
              fileDirents files fs) = Some (front +:+ " -o " +:+ exe))
  ∧ cleanTask path_join task activeFolder buildMode (operatingSystem sp) =
      Some (match operatingSystem sp with
            | windows => "del  "
            | _ => "rm -r "
            end +:+ dir)
  ∧ (compileSet (getLanguage fileDirents) files ≠ [] →
     dir ∈ snd (executeTask path_join task sp activeFolder buildMode
                  fileDirents files fs)).
Proof.
  intros task dir. split; [|split].
  - eexists _, _. split; [reflexivity|].
    unfold task. rewrite executeTask_closed_form. simpl fst. unfold linkCommand.
    rewrite <- !append_assoc. reflexivity.
  - unfold cleanTask, task. simpl. by destruct (operatingSystem sp).
  - intros Hsources. rewrite executeTask_directories. fold dir.
    destruct (compileSet _ _) as [|f l]; [done|].
    case_bool_decide; [done|]. unfold mkdirRecursive.
    apply elem_of_union_l, elem_of_union_l. by apply elem_of_singleton.
Qed.

(** X9. Only the include paths after the first get the [-I] flag: the
    first one is appended as it is, directly after the flags that precede
    it. *)
Theorem fullCompilerArgs_first_include_path_is_bare (sp : Settings)
    (language : Languages) (buildMode : Builds) (first : string)
    (others : list string) :
  fullCompilerArgs (withIncludePaths (first :: others) sp) language buildMode
  = fullCompilerArgs (withIncludePaths [] sp) language buildMode
    +:+ first +:+ join "" (map (λ p, " -I " +:+ p) others).
Proof.
  rewrite !fullCompilerArgs_pieces. unfold includesOf. simpl includePaths.
  rewrite join_cons. simpl join. rewrite append_empty_r.
  unfold warningsOf, standardOf. simpl.
  by rewrite !append_assoc.
Qed.

End TaskCommandFacts.

(** A witness of the creation: the build of a folder [proj] that holds no
    build directory leaves the build directory and the directories above
    it, and no other. *)
Lemma executeTask_creates_only_the_build_directory_witness :
  ∃ directories : gset string,
    directories =
      snd (TaskProvider.executeTask posixJoin
             (Some {| TaskProvider.execution :=
                        Some {| TaskProvider.commandLine := "" |} |})
             flagSettings "proj" TaskProvider.release
             [{| name := "a.cpp"; isFile := true |};
              {| name := "b.cpp"; isFile := true |}]
             ["a.cpp"; "b.cpp"] ∅)
    ∧ "proj/build/release/" ∈ directories
    ∧ "proj/build" ∈ directories
    ∧ "proj" ∈ directories
    ∧ "proj/src" ∉ directories.
Proof.
  eexists. split; [reflexivity|].
  destruct (executeTask_creates_only_the_build_directory posixJoin
              (Some {| TaskProvider.execution :=
                         Some {| TaskProvider.commandLine := "" |} |})
              flagSettings "proj" TaskProvider.release
              [{| name := "a.cpp"; isFile := true |};
               {| name := "b.cpp"; isFile := true |}]
              ["a.cpp"; "b.cpp"] ∅) as (_ & _ & Hiff & _).
  assert (Hnew : ∀ d,
    d = "proj/build/release/"
    ∨ (∃ a rest, "proj/build/release/" = d +:+ String a rest
                 ∧ TaskProvider.isSeparator linux a = true ∧ d ≠ "") →
    d ∈ snd (TaskProvider.executeTask posixJoin
               (Some {| TaskProvider.execution :=
                          Some {| TaskProvider.commandLine := "" |} |})
               flagSettings "proj" TaskProvider.release
               [{| name := "a.cpp"; isFile := true |};
                {| name := "b.cpp"; isFile := true |}]
               ["a.cpp"; "b.cpp"] ∅)).
  { intros d Hd. apply Hiff. right. split; [apply not_elem_of_empty|].
    split; [vm_compute; discriminate|exact Hd]. }
  split; [apply Hnew; by left|].
  split; [apply Hnew; right; by exists "/"%char, "release/"|].
  split; [apply Hnew; right; by exists "/"%char, "build/release/"|].
  intros [Hold|(_ & _ & [Hdir|(a & rest & Hdir & _)])]%Hiff.
  - by apply not_elem_of_empty in Hold.
  - vm_compute in Hdir. discriminate Hdir.
  - vm_compute in Hdir. discriminate Hdir.
Defined.

(** ** Storing, reloading and resetting the settings *)

Section StoreAndReload.
Import SettingsProvider.

Lemma bind_TypeError {A B : Type} (r : Result A) (k : A → Result B) :
  r ≫= k = TypeError ↔ r = TypeError ∨ ∃ a, r = Ok a ∧ k a = TypeError.
Proof.
  destruct r as [a|]; simpl; split; eauto.
  - intros [?|(a' & [= <-] & ?)]; [discriminate|done].
Qed.












(** X14. A load appends the global include paths to the include paths it
    finds, it never replaces them. When neither the document nor the
    global configuration holds include paths, the list it appends to is
    the static default itself: the default grows with the load, and a
    second load of the same document holds the global include paths
    twice. *)
Theorem loadLocalSettings_appends_global_include_paths (h : Host)
    (file : SettingsFile) (st st' : State) :
  loadLocalSettings h file st = Ok st' →
  let found := findSettingsValue h (readJsonFile file) "includePaths" true in
  (∀ l, found = Some (JArr l) →
        ∃ extra, includePaths st' = JArr (l ++ extra)
                 ∧ DEFAULT_INCLUDE_PATHS st' = DEFAULT_INCLUDE_PATHS st)
  ∧ (found = None →
     ∃ extra,
       includePaths st' = JArr (DEFAULT_INCLUDE_PATHS st ++ extra)
       ∧ DEFAULT_INCLUDE_PATHS st' = (DEFAULT_INCLUDE_PATHS st ++ extra)%list
       ∧ ∀ st'',
           loadLocalSettings h file st' = Ok st'' →
           includePaths st'' =
             JArr (DEFAULT_INCLUDE_PATHS st ++ extra ++ extra)).
Proof.
  intros Hload found.
  pose proof (loadLocalSettings_fields _ _ _ _ Hload)
    as (_ & _ & _ & _ & _ & _ & _ & _ & Hip & Hstatic).
  cbv zeta in Hip, Hstatic. fold found in Hip, Hstatic. split.
  - intros l Hfound. rewrite Hfound in Hip, Hstatic. simpl in Hip.
    destruct Hip as [[_ Hip]|(_ & l' & extra & [= <-] & _ & Hip)].
    + exists []. by rewrite app_nil_r.
    + by exists extra.
  - intros Hfound. rewrite Hfound in Hip, Hstatic. simpl in Hip.
    destruct Hip as [[Hg Hip]|(Hg & l' & extra & [= <-] & Hspread & Hip)].
    + exists []. rewrite Hip in Hstatic. rewrite !app_nil_r.
      split; [done|]. split; [done|]. intros st'' Hload'.
      pose proof (loadLocalSettings_fields _ _ _ _ Hload')
        as (_ & _ & _ & _ & _ & _ & _ & _ & Hip' & _).
      cbv zeta in Hip'. fold found in Hip'. rewrite Hfound, Hstatic in Hip'.
      simpl in Hip'.
      destruct Hip' as [[_ ->]|(Hg' & _)]; [done|congruence].
    + exists extra. rewrite Hip in Hstatic.
      split; [done|]. split; [done|]. intros st'' Hload'.
      pose proof (loadLocalSettings_fields _ _ _ _ Hload')
        as (_ & _ & _ & _ & _ & _ & _ & _ & Hip' & _).
      cbv zeta in Hip'. fold found in Hip'. rewrite Hfound, Hstatic in Hip'.
      simpl in Hip'.
      destruct Hip' as [[Hg' _]|(_ & l'' & extra' & [= <-] & Hspread' & ->)];
        [congruence|].
      rewrite Hspread in Hspread'. injection Hspread' as <-.
      by rewrite <- app_assoc.
Qed.

(** A witness of the growing default: two loads of an absent document on
    a host with one global include path. *)
Lemma loadLocalSettings_appends_global_include_paths_witness :
  ∃ st' st'',
    loadLocalSettings includeHost Absent (initial linux []) = Ok st'
    ∧ loadLocalSettings includeHost Absent st' = Ok st''
    ∧ includePaths st'' = JArr [JStr "/opt/include"; JStr "/opt/include"].
Proof.
  eexists _, _. split; [vm_compute; reflexivity|].
  split; [vm_compute; reflexivity|].
  destruct (loadLocalSettings_appends_global_include_paths includeHost
              Absent (initial linux []) _ ltac:(vm_compute; reflexivity))
    as [_ Hnone].
  destruct Hnone as (extra & Hfirst & _ & Hsecond); [vm_compute; reflexivity|].
  vm_compute in Hfirst. injection Hfirst as <-.
  exact (Hsecond _ ltac:(vm_compute; reflexivity)).
Defined.

End StoreAndReload.

(** ** When a load raises, and how writes compose *)

Section LoadErrors.
Import SettingsProvider.

Lemma searchMsvcToolsPath_raises_iff (h : Host) (st : State) :
  searchMsvcToolsPath h st = TypeError ↔ ∀ s, msvcBatchPath st ≠ JStr s.
Proof.
  split.
  - intros Hraise s Hs.
    destruct (searchMsvcToolsPath_outcomes h st s Hs) as (_ & _ & st2 & Hok).
    congruence.
  - intros Hnot. unfold searchMsvcToolsPath.
    destruct (msvcBatchPath st) as [| | |s| |]; try done. by destruct (Hnot s).
Qed.

(** X15. A load raises in three cases and no other: [useMsvc] is set and
    the batch path is not a string; the test of the warning style raises,
    the warnings not being an array whose entries up to the first one with
    a slash are strings or arrays; or a global include path is configured
    and either the include paths are not an array or the global include
    path is neither a string nor an array. *)
Theorem loadLocalSettings_raises_iff (h : Host) (file : SettingsFile)
    (st : State) :
  let get name defaultValue :=
    getSettingsValue h (readJsonFile file) name defaultValue true in
  let includePaths0 :=
    default (JArr (DEFAULT_INCLUDE_PATHS st))
      (findSettingsValue h (readJsonFile file) "includePaths" true) in
  let globalIncludePath :=
    getSettingsValue h (configGlobalCCpp_default h) "includePath" (JStr "")
      false in
  loadLocalSettings h file st = TypeError ↔
    (truthy (get "useMsvc" DEFAULT_USE_MSVC) = true
     ∧ ∀ s, get "msvcBatchPath" DEFAULT_MSVC_BATCH_PATH ≠ JStr s)
    ∨ warnings_some "/" (get "warnings" DEFAULT_WARNINGS_UNIX) = TypeError
    ∨ (truthy globalIncludePath = true
       ∧ ((∀ l, includePaths0 ≠ JArr l)
          ∨ spread globalIncludePath = TypeError)).
Proof.
  intros get includePaths0 globalIncludePath. subst get. cbv beta.
  unfold loadLocalSettings. cbv zeta.
  match goal with
  | |- context [searchMsvcToolsPath h ?s] => set (st1 := s)
  end.
  set (useMsvc0 := getSettingsValue h (readJsonFile file) "useMsvc"
                     DEFAULT_USE_MSVC true) in *.
  set (batch0 := getSettingsValue h (readJsonFile file) "msvcBatchPath"
                   DEFAULT_MSVC_BATCH_PATH true) in *.
  set (warnings0 := getSettingsValue h (readJsonFile file) "warnings"
                      DEFAULT_WARNINGS_UNIX true) in *.
  set (step := if truthy (useMsvc st1) then searchMsvcToolsPath h st1
               else Ok st1).
  assert (Hstep : step = TypeError ↔
                  truthy useMsvc0 = true ∧ ∀ s, batch0 ≠ JStr s).
  { unfold step. change (useMsvc st1) with useMsvc0.
    destruct (truthy useMsvc0).
    - rewrite searchMsvcToolsPath_raises_iff. simpl. tauto.
    - split; [discriminate|]. by intros [? _]. }
  assert (Hstatic : ∀ st2, step = Ok st2 →
                    DEFAULT_INCLUDE_PATHS st2 = DEFAULT_INCLUDE_PATHS st).
  { unfold step. intros st2 H. destruct (truthy (useMsvc st1)).
    - by apply searchMsvcToolsPath_frame in H as [->|[p ->]].
    - by injection H as <-. }
  destruct step as [st2|] eqn:Estep.
  - simpl mbind. rewrite (Hstatic st2 eq_refl).
    fold includePaths0 globalIncludePath. clear Hstatic.
    assert (Hno : ¬ (truthy useMsvc0 = true ∧ ∀ s, batch0 ≠ JStr s)).
    { intros H. apply Hstep in H. discriminate. }
    destruct (warnings_some "/" warnings0) as [msvc|]; simpl mbind;
      [|split; [intros _; right; by left|done]].
    destruct (truthy globalIncludePath).
    + destruct includePaths0 as [| | | |l|]; simpl mbind;
        try (split; [intros _; right; right; split; [done|];
                     left; intros l; discriminate|done]).
      destruct (spread globalIncludePath) as [extra|]; simpl mbind.
      * split; [discriminate|].
        intros [?|[?|[_ [Hn|?]]]]; try done. by destruct (Hn l).
      * split; [|done]. intros _. right. right. split; [done|by right].
    + simpl mbind. split; [discriminate|].
      intros [?|[?|[? _]]]; done.
  - simpl mbind. split; [|done]. intros _. left. by apply Hstep.
Qed.


End LoadErrors.

(** ** The branch the constructor takes *)

Section Strategy.
Import SettingsProvider.

(** X27. [updateCheck] is the negation of [commandsAlreadyStored]: its own
    test of the file decides nothing. With it the constructor loads
    nothing exactly without an active folder; otherwise it starts cold
    exactly when the properties file is missing and the commands are not
    stored, reads the properties exactly when the properties file exists
    and the settings file does not, and loads the settings document in
    every other case, also an incomplete one next to a properties file. *)
Theorem constructor_strategy_by_missing_files
    (settingsFileMissing propertiesFileMissing : bool) (file : SettingsFile)
    (activeFolder : string) :
  updateCheck file = negb (commandsAlreadyStored file)
  ∧ (loadStrategy settingsFileMissing (updateCheck file)
       propertiesFileMissing activeFolder = NoLoad ↔ activeFolder = "")
  ∧ (loadStrategy settingsFileMissing (updateCheck file)
       propertiesFileMissing activeFolder = ColdStart ↔
     activeFolder ≠ "" ∧ propertiesFileMissing = true
     ∧ commandsAlreadyStored file = false)
  ∧ (loadStrategy settingsFileMissing (updateCheck file)
       propertiesFileMissing activeFolder = FromProperties ↔
     activeFolder ≠ "" ∧ propertiesFileMissing = false
     ∧ settingsFileMissing = true)
  ∧ (loadStrategy settingsFileMissing (updateCheck file)
       propertiesFileMissing activeFolder = WarmLoad ↔
     activeFolder ≠ ""
     ∧ (if propertiesFileMissing then commandsAlreadyStored file = true
        else settingsFileMissing = false)).
Proof.
  assert (Hcheck : updateCheck file = negb (commandsAlreadyStored file)).
  { unfold updateCheck, commandsAlreadyStored.
    destruct (pathExists_output file); [|reflexivity]. simpl.
    by destruct (readJsonFile file) as [settingsJson|];
      [destruct (_ && _ && _)|]. }
  split; [exact Hcheck|]. rewrite Hcheck. unfold loadStrategy.
  destruct activeFolder as [|a rest]; simpl.
  - rewrite !andb_false_r.
    repeat split; try discriminate; try reflexivity;
      intros [Hne _]; contradiction.
  - rewrite !andb_true_r.
    destruct (commandsAlreadyStored file), propertiesFileMissing,
      settingsFileMissing; simpl;
      repeat split; try discriminate; try reflexivity;
      try (intros (_ & H1 & H2); discriminate);
      try (intros (_ & H); discriminate).
Qed.

End Strategy.

(** ** The constructor and the load from the properties document *)

Section Construction.
Import SettingsProvider SettingsConstruction.
Variables (path_dirname path_basename toLowerCase : string → string).


Lemma getArchitecture_defines (h : Host) (st : State) :
  architecure (getArchitecture h st) ≠ None
  ∧ useMsvc (getArchitecture h st) = useMsvc st
  ∧ (truthy (useMsvc st) = true →
     architecure (getArchitecture h st) = Some x64
     ∧ isCygwin (getArchitecture h st) = false).
Proof.
  unfold getArchitecture.
  destruct (truthy (useMsvc st)), (truthy (cCompilerPath st)),
    (truthy (cppCompilerPath st)); simpl; repeat split; done.
Qed.

(** X18. Without an active folder the constructor loads nothing: the
    provider holds the initial values and the settings document is as it
    was. With an active folder every way through the constructor ends in
    [getArchitecture]: the architecture of the provider is defined, and
    it is [x64], not under Cygwin, when [useMsvc] is set. And when the
    settings file and the properties file both exist, the settings
    document is loaded as it is, complete or not, and is not written. *)
Theorem constructor_resolves_the_architecture (h : Host)
    (createFileData : State → SettingsFile → Result (State * SettingsFile))
    (os : OperatingSystems) (static : list JsonValue)
    (settingsFileMissing propertiesFileMissing : bool)
    (file : SettingsFile) (propertiesFile : option JsonValue)
    (activeFolder : string) :
  let built :=
    constructor path_dirname path_basename toLowerCase h createFileData os
      static settingsFileMissing propertiesFileMissing file propertiesFile
      activeFolder in
  (activeFolder = "" → built = Ok (initial os static, file))
  ∧ (activeFolder ≠ "" →
     ∀ st file',
       built = Ok (st, file') →
       architecure st ≠ None
       ∧ (truthy (useMsvc st) = true →
          architecure st = Some x64 ∧ isCygwin st = false))
  ∧ (activeFolder ≠ "" →
     settingsFileMissing = false → propertiesFileMissing = false →
     built =
       (st ← loadLocalSettings h file (initial os static);
        Ok (getArchitecture h st, file))).
Proof.
  intros built. unfold built, constructor, loadStrategy.
  split; [|split].
  - intros ->. simpl. by rewrite !andb_false_r.
  - intros Hactive st file' H.
    assert (Hend : ∀ s, architecure (getArchitecture h s) ≠ None
                        ∧ (truthy (useMsvc (getArchitecture h s)) = true →
                           architecure (getArchitecture h s) = Some x64
                           ∧ isCygwin (getArchitecture h s) = false)).
    { intros s. destruct (getArchitecture_defines h s) as (Hd & Hu & Hm).
      split; [done|]. rewrite Hu. exact Hm. }
    destruct (is_empty activeFolder) eqn:He;
      [by apply is_empty_true in He|]. simpl in H.
    rewrite !andb_true_r in H.
    destruct (updateCheck file && propertiesFileMissing).
    + apply bind_Ok in H as (created & _ & [= <- <-]). apply Hend.
    + destruct (settingsFileMissing && negb propertiesFileMissing).
      * apply bind_Ok in H as (st1 & _ & H).
        apply bind_Ok in H as (created & _ & [= <- <-]). apply Hend.
      * apply bind_Ok in H as (st1 & _ & [= <- <-]). apply Hend.
  - intros Hactive -> ->.
    destruct (is_empty activeFolder) eqn:He;
      [by apply is_empty_true in He|]. simpl.
    by rewrite !andb_false_r.
Qed.

(** C9, as the code has it. The constructor ends each of its loads in
    [getArchitecture]: when it completes for an active folder with
    [useMsvc] set, the architecture is [x64] and the Cygwin flag is
    [false], and the outcome is the same whatever the compiler probe of
    the host answers, so no probe takes part in it. The reloads that
    [changeCallback] and [deleteCallback] run afterwards do not take that
    step: they leave the architecture and the Cygwin flag as they were. *)
Theorem constructor_msvc_is_x64 (h : Host)
    (createFileData : State → SettingsFile → Result (State * SettingsFile))
    (os : OperatingSystems) (static : list JsonValue)
    (settingsFileMissing propertiesFileMissing : bool)
    (file : SettingsFile) (propertiesFile : option JsonValue)
    (activeFolder : string) (st : State) (file' : SettingsFile) :
  activeFolder ≠ "" →
  constructor path_dirname path_basename toLowerCase h createFileData os
    static settingsFileMissing propertiesFileMissing file propertiesFile
    activeFolder = Ok (st, file') →
  truthy (useMsvc st) = true →
  architecure st = Some x64
  ∧ isCygwin st = false
  ∧ (∀ probe,
       constructor path_dirname path_basename toLowerCase (withProbe probe h)
         createFileData os static settingsFileMissing propertiesFileMissing
         file propertiesFile activeFolder = Ok (st, file'))
  ∧ (∀ file1 st1,
       changeCallback h st file1 = Ok st1 →
       architecure st1 = architecure st ∧ isCygwin st1 = isCygwin st)
  ∧ (∀ extensionState file1 st1 file1',
       deleteCallback h extensionState st file1 = Ok (st1, file1') →
       architecure st1 = architecure st ∧ isCygwin st1 = isCygwin st).
Proof.
  intros Hactive Hbuilt Hmsvc.
  assert (Hend : ∀ h' s,
    truthy (useMsvc (getArchitecture h s)) = true →
    getArchitecture h' s = getArchitecture h s
    ∧ architecure (getArchitecture h s) = Some x64
    ∧ isCygwin (getArchitecture h s) = false).
  { intros h' s Hs.
    destruct (getArchitecture_defines h s) as (_ & Hu & Hx).
    rewrite Hu in Hs. split; [|exact (Hx Hs)].
    unfold getArchitecture. by rewrite Hs. }
  assert (Hload : ∀ file1 s s1,
    loadLocalSettings h file1 s = Ok s1 →
    architecure s1 = architecure s ∧ isCygwin s1 = isCygwin s).
  { intros file1 s s1 H1. apply loadLocalSettings_Ok in H1
      as (_ & _ & _ & _ & _ & _ & _ & _ & _ & _ & Ha & Hc & _). done. }
  assert (Hconstructed : ∃ s,
    st = getArchitecture h s
    ∧ ∀ probe,
        constructor path_dirname path_basename toLowerCase
          (withProbe probe h) createFileData os static settingsFileMissing
          propertiesFileMissing file propertiesFile activeFolder
        = Ok (getArchitecture (withProbe probe h) s, file')).
  { revert Hbuilt. unfold constructor, loadStrategy.
    destruct (is_empty activeFolder) eqn:He;
      [by apply is_empty_true in He|]. simpl. rewrite !andb_true_r.
    destruct (updateCheck file && propertiesFileMissing).
    - intros (created & Hcreated & [= <- <-])%bind_Ok.
      exists (fst created). split; [done|]. intros probe.
      change (loadGlobalSettings (withProbe probe h) (initial os static))
        with (loadGlobalSettings h (initial os static)).
      by rewrite Hcreated.
    - destruct (settingsFileMissing && negb propertiesFileMissing).
      + intros (s1 & Hs1 & H)%bind_Ok.
        apply bind_Ok in H as (created & Hcreated & [= <- <-]).
        exists (fst created). split; [done|]. intros probe.
        change (getSettingsFromProperties path_dirname path_basename
                  toLowerCase (withProbe probe h) propertiesFile
                  (initial os static))
          with (getSettingsFromProperties path_dirname path_basename
                  toLowerCase h propertiesFile (initial os static)).
        rewrite Hs1. simpl. by rewrite Hcreated.
      + intros (s1 & Hs1 & [= <- <-])%bind_Ok.
        exists s1. split; [done|]. intros probe.
        change (loadLocalSettings (withProbe probe h) file
                  (initial os static))
          with (loadLocalSettings h file (initial os static)).
        by rewrite Hs1. }
  destruct Hconstructed as (s & -> & Hprobe).
  split; [apply (Hend h s Hmsvc)|]. split; [apply (Hend h s Hmsvc)|].
  split; [|split].
  - intros probe. rewrite Hprobe.
    by rewrite (proj1 (Hend (withProbe probe h) s Hmsvc)).
  - intros file1 st1 H1. exact (Hload _ _ _ H1).
  - intros extensionState file1 st1 file1' H1. unfold deleteCallback in H1.
    destruct (truthy_opt _).
    + unfold writeFileData in H1. apply bind_Ok in H1 as (s1 & Hs1 & H1).
      apply bind_Ok in H1 as (f1 & _ & [= <- <-]). exact (Hload _ _ _ Hs1).
    + by injection H1 as <- <-.
Qed.

End Construction.

(** A witness of C9: the constructor on a document that asks for the
    Microsoft toolchain, on a host whose probe would answer [x86] under
    Cygwin. *)
Lemma constructor_msvc_is_x64_witness :
  ∃ st file',
    SettingsConstruction.constructor id id id cygwinHost
      (λ st file, Ok (st, file)) windows [] false false
      (SettingsProvider.Doc gccMsvcDoc) None "proj" = Ok (st, file')
    ∧ truthy (SettingsProvider.useMsvc st) = true
    ∧ SettingsProvider.architecure st = Some x64
    ∧ SettingsProvider.isCygwin st = false.
Proof.
  destruct (SettingsConstruction.constructor id id id cygwinHost
              (λ st file, Ok (st, file)) windows [] false false
              (SettingsProvider.Doc gccMsvcDoc) None "proj")
    as [[st file']|] eqn:Hbuilt; [|vm_compute in Hbuilt; discriminate Hbuilt].
  exists st, file'. split; [reflexivity|].
  assert (Hmsvc : truthy (SettingsProvider.useMsvc st) = true).
  { vm_compute in Hbuilt. injection Hbuilt as <- _. reflexivity. }
  split; [exact Hmsvc|].
  destruct (constructor_msvc_is_x64 id id id cygwinHost
              (λ st file, Ok (st, file)) windows [] false false
              (SettingsProvider.Doc gccMsvcDoc) None "proj" st file')
    as (Harch & Hcygwin & _); [discriminate|exact Hbuilt|exact Hmsvc|].
  split; [exact Harch|exact Hcygwin].
Defined.

(** C9, as the specification has it, fails. The constructor builds a
    provider from a document that names [gcc]; the probe answers [x86]
    under Cygwin. The document is then changed to ask for the Microsoft
    toolchain, and the reload of [changeCallback] leaves a provider with
    [useMsvc] set whose architecture is [x86], the result of a detection,
    and whose Cygwin flag is set. *)
Lemma changeCallback_keeps_x86_in_msvc_mode :
  SettingsConstruction.constructor id id id cygwinHost
    (λ st file, Ok (st, file)) windows [] false false
    (SettingsProvider.Doc gccDoc) None "proj"
    = Ok (constructed gccDoc, SettingsProvider.Doc gccDoc)
  ∧ ∃ st',
      SettingsProvider.changeCallback cygwinHost (constructed gccDoc)
        (SettingsProvider.Doc gccMsvcDoc) = Ok st'
      ∧ truthy (SettingsProvider.useMsvc st') = true
      ∧ SettingsProvider.architecure st' = Some x86
      ∧ SettingsProvider.isCygwin st' = true.
Proof.
  split; [vm_compute; reflexivity|].
  eexists. split; [vm_compute; reflexivity|]. repeat split.
Qed.

(** ** The helpers of [vscodeUtils.ts] *)

Section VscodeHelpers.
Import VscodeUtilsMore.

(** X19. Writing the activation state and reading it back gives the value
    written when the memento is defined and [false] when it is not, and
    [deleteCallback] after such a write rewrites the settings exactly when
    [true] was written to a defined memento; otherwise it leaves provider
    and file alone. *)
Theorem activation_state_gates_deleteCallback
    (h : SettingsProvider.Host) (newState : bool)
    (extensionState : option JsonSettings)
    (st : SettingsProvider.State) (file : SettingsProvider.SettingsFile) :
  VscodeUtils.getActivationState
    (updateActivationState newState extensionState)
  = Some (JBool (newState && bool_decide (is_Some extensionState)))
  ∧ SettingsProvider.deleteCallback h
      (updateActivationState newState extensionState) st file
    = (if newState && bool_decide (is_Some extensionState)
       then SettingsProvider.writeFileData h st file
       else Ok (st, file)).
Proof.
  unfold SettingsProvider.deleteCallback.
  destruct extensionState as [memento|]; simpl.
  - rewrite lookup_insert_eq. destruct newState; split; reflexivity.
  - rewrite andb_false_r. split; reflexivity.
Qed.

Section LaunchConfig.
Variable Config : Type.
Variable name : Config → string.

Lemma indexFrom_Some (configs : list Config) (configName : string)
    (start i : nat) :
  indexFrom Config name start configs configName = Some i ↔
  ∃ k, i = start + k
       ∧ (∃ config, configs !! k = Some config ∧ name config = configName)
       ∧ ∀ j config, j < k → configs !! j = Some config →
           name config ≠ configName.
Proof.
  revert start i. induction configs as [|config rest IH]; intros start i.
  - simpl. split; [discriminate|].
    intros (k & _ & (config & Hk & _) & _). discriminate.
  - simpl. destruct (String.eqb (name config) configName) eqn:E; simpl.
    + apply String.eqb_eq in E. split.
      * intros [= <-]. exists 0. split; [lia|]. split.
        -- exists config. split; [reflexivity | exact E].
        -- intros j config' Hj. lia.
      * intros (k & -> & _ & Hbefore). destruct k as [|k].
        -- f_equal. lia.
        -- exfalso. apply (Hbefore 0 config); [lia | reflexivity | exact E].
    + apply String.eqb_neq in E. rewrite IH. split.
      * intros (k & -> & (config' & Hk & Hn) & Hbefore).
        exists (S k). split; [lia|]. split.
        -- exists config'. split; [exact Hk | exact Hn].
        -- intros j config'' Hj Hlook. destruct j as [|j].
           ++ simpl in Hlook. injection Hlook as <-. exact E.
           ++ simpl in Hlook. apply (Hbefore j); [lia | exact Hlook].
      * intros (k & -> & (config' & Hk & Hn) & Hbefore).
        destruct k as [|k].
        -- simpl in Hk. injection Hk as <-. contradiction.
        -- exists k. split; [lia|]. split.
           ++ exists config'. split; [exact Hk | exact Hn].
           ++ intros j config'' Hj Hlook.
              apply (Hbefore (S j)); [lia | exact Hlook].
Qed.

(** X20. [getLaunchConfigIndex] answers [i] exactly when the configuration
    at position [i] is the first one with the name sought, and
    [undefined] exactly when the document is undefined or holds no
    configuration of that name. *)
Theorem getLaunchConfigIndex_is_first_match
    (configJson : option (JsonLaunchConfig Config)) (configName : string) :
  (∀ i, getLaunchConfigIndex Config name configJson configName = Some i ↔
     ∃ json, configJson = Some json
       ∧ (∃ config, configurations Config json !! i = Some config
                    ∧ name config = configName)
       ∧ ∀ j config, j < i → configurations Config json !! j = Some config →
           name config ≠ configName)
  ∧ (getLaunchConfigIndex Config name configJson configName = None ↔
     ∀ json, configJson = Some json →
       ∀ config, config ∈ configurations Config json →
         name config ≠ configName).
Proof.
  assert (Hsome : ∀ i,
    getLaunchConfigIndex Config name configJson configName = Some i ↔
     ∃ json, configJson = Some json
       ∧ (∃ config, configurations Config json !! i = Some config
                    ∧ name config = configName)
       ∧ ∀ j config, j < i → configurations Config json !! j = Some config →
           name config ≠ configName).
  { intros i. destruct configJson as [json|]; simpl.
    - rewrite indexFrom_Some. split.
      + intros (k & -> & Hk & Hbefore). exists json.
        split; [reflexivity|]. split; [exact Hk | exact Hbefore].
      + intros (json' & [= <-] & Hk & Hbefore). exists i.
        split; [reflexivity|]. split; [exact Hk | exact Hbefore].
    - split; [discriminate|]. intros (json & Hjson & _). discriminate. }
  split; [exact Hsome|].
  split.
  - intros Hnone json -> config Hin Hname.
    apply list_elem_of_lookup in Hin as [k Hk].
    revert config Hk Hname.
    induction (lt_wf k) as [k _ IH]. intros config Hk Hname.
    assert (Hfirst : ∀ j config', j < k →
      configurations Config json !! j = Some config' →
      name config' ≠ configName).
    { intros j config' Hj Hlook Hn. exact (IH j Hj config' Hlook Hn). }
    assert (Hi : getLaunchConfigIndex Config name (Some json) configName
                 = Some k).
    { apply Hsome. exists json. split; [reflexivity|]. split.
      - exists config. split; [exact Hk | exact Hname].
      - exact Hfirst. }
    rewrite Hnone in Hi. discriminate.
  - intros Hall.
    destruct (getLaunchConfigIndex Config name configJson configName)
      as [i|]; [|reflexivity].
    destruct (proj1 (Hsome i) eq_refl)
      as (json & -> & (config & Hk & Hname) & _).
    exfalso. apply (Hall json eq_refl config); [|exact Hname].
    apply list_elem_of_lookup. exists i. exact Hk.
Qed.

End LaunchConfig.

Lemma fold_files_found (host : CmakeHost) (files : list string)
    (found : bool) :
  fold_left
    (λ found file,
       if includes (toLowerCase host "CMakeLists.txt")
            (toLowerCase host file)
       then true else found) files found = true ↔
  found = true
  ∨ ∃ file, file ∈ files
            ∧ includes (toLowerCase host "CMakeLists.txt")
                (toLowerCase host file) = true.
Proof.
  revert found. induction files as [|file rest IH]; intros found; simpl.
  - split; [tauto|]. intros [H|(file & Hin & _)]; [exact H|].
    apply elem_of_nil in Hin. contradiction.
  - rewrite IH. split.
    + intros [H|(file' & Hin & Hinc)].
      * destruct (includes _ (toLowerCase host file)) eqn:E.
        -- right. exists file. split; [apply elem_of_cons; tauto | exact E].
        -- left. exact H.
      * right. exists file'. split; [apply elem_of_cons; tauto | exact Hinc].
    + intros [H|(file' & Hin & Hinc)].
      * left. rewrite H. destruct (includes _ _); reflexivity.
      * apply elem_of_cons in Hin as [->|Hin].
        -- left. rewrite Hinc. reflexivity.
        -- right. exists file'. split; [exact Hin | exact Hinc].
Qed.

Lemma visitFolder_found (host : CmakeHost) (found : bool) (folder : string) :
  visitFolder host found folder = true ↔
  found = true ∨ folderShowsCmake host folder.
Proof.
  unfold visitFolder, folderShowsCmake.
  destruct found; simpl; [tauto|].
  set (settingsPath := path_join host [folder; ".vscode"; "settings.json"]).
  destruct (pathExists host settingsPath) eqn:Hexists.
  - destruct (readJsonFile host settingsPath) as [configLocal|] eqn:Hread.
    + destruct (truthy_opt (configLocal !! "cmake.sourceDirectory")) eqn:Ht.
      * split; [|reflexivity]. intros _. right. right.
        split; [reflexivity|]. exists configLocal. split; [reflexivity|exact Ht].
      * rewrite fold_files_found. split.
        -- intros [H|H]; [discriminate|]. right. left. exact H.
        -- intros [H|[H|(_ & configLocal' & [= <-] & Ht')]];
             [discriminate | right; exact H | congruence].
    + rewrite fold_files_found. split.
      * intros [H|H]; [discriminate|]. right. left. exact H.
      * intros [H|[H|(_ & configLocal' & Hread' & _)]];
          [discriminate | right; exact H | discriminate].
  - rewrite fold_files_found. split.
    + intros [H|H]; [discriminate|]. right. left. exact H.
    + intros [H|[H|(Hex & _)]];
        [discriminate | right; exact H | discriminate].
Qed.

Lemma fold_folders_found (host : CmakeHost) (folders : list string)
    (found : bool) :
  fold_left (visitFolder host) folders found = true ↔
  found = true
  ∨ ∃ folder, folder ∈ folders ∧ folderShowsCmake host folder.
Proof.
  revert found. induction folders as [|folder rest IH]; intros found; simpl.
  - split; [tauto|]. intros [H|(folder & Hin & _)]; [exact H|].
    apply elem_of_nil in Hin. contradiction.
  - rewrite IH, visitFolder_found. split.
    + intros [[H|H]|(folder' & Hin & Hshow)].
      * left. exact H.
      * right. exists folder. split; [apply elem_of_cons; tauto | exact H].
      * right. exists folder'.
        split; [apply elem_of_cons; tauto | exact Hshow].
    + intros [H|(folder' & Hin & Hshow)].
      * left. left. exact H.
      * apply elem_of_cons in Hin as [->|Hin].
        -- left. right. exact Hshow.
        -- right. exists folder'. split; [exact Hin | exact Hshow].
Qed.

(** X21. [isCmakeProject] answers [true] exactly when some workspace
    folder lists a file whose lower-case name contains [cmakelists.txt] or
    holds a settings document with a truthy [cmake.sourceDirectory], or
    when the [cmake.sourceDirectory] of the configuration is truthy and is
    not the text [${workspaceFolder}]. *)
Theorem isCmakeProject_iff (host : CmakeHost) :
  isCmakeProject host = true ↔
  (∃ folders folder,
     workspaceFolders host = Some folders ∧ folder ∈ folders
     ∧ folderShowsCmake host folder)
  ∨ (∃ cmakeSetting,
       cmakeSourceDirectory host = Some cmakeSetting
       ∧ truthy cmakeSetting = true
       ∧ cmakeSetting ≠ JStr "${workspaceFolder}").
Proof.
  unfold isCmakeProject.
  set (found :=
    match workspaceFolders host with
    | Some folders => fold_left (visitFolder host) folders false
    | None => false
    end).
  assert (Hfound : found = true ↔
    ∃ folders folder, workspaceFolders host = Some folders
      ∧ folder ∈ folders ∧ folderShowsCmake host folder).
  { subst found. destruct (workspaceFolders host) as [folders|].
    - rewrite fold_folders_found. split.
      + intros [H|(folder & Hin & Hshow)]; [discriminate|].
        exists folders, folder. split; [reflexivity|]. split; assumption.
      + intros (folders' & folder & [= <-] & Hin & Hshow).
        right. exists folder. split; assumption.
    - split; [discriminate|]. intros (? & ? & H & _). discriminate. }
  destruct found; simpl.
  - split; [|reflexivity]. intros _. left. apply Hfound. reflexivity.
  - assert (Hno : ¬ ∃ folders folder, workspaceFolders host = Some folders
      ∧ folder ∈ folders ∧ folderShowsCmake host folder).
    { intros H. apply Hfound in H. discriminate. }
    destruct (cmakeSourceDirectory host) as [cmakeSetting|].
    + destruct (truthy cmakeSetting) eqn:Ht; simpl.
      * assert (Hdiff :
          match cmakeSetting with
          | JStr s => negb (String.eqb s "${workspaceFolder}")
          | _ => true
          end = true ↔ cmakeSetting ≠ JStr "${workspaceFolder}").
        { destruct cmakeSetting as [| | |s| |]; try (split; [discriminate|reflexivity]).
          rewrite negb_true_iff, String.eqb_neq. split.
          - intros Hs [= ->]. contradiction.
          - intros Hs ->. contradiction. }
        destruct (match cmakeSetting with JStr s => _ | _ => true end) eqn:Hd.
        -- split; [|reflexivity]. intros _. right. exists cmakeSetting.
           split; [reflexivity|]. split; [exact Ht|]. apply Hdiff.
           reflexivity.
        -- split; [discriminate|]. intros [H|(v & [= <-] & _ & Hne)];
             [contradiction|]. apply Hdiff in Hne. discriminate.
      * split; [discriminate|]. intros [H|(v & [= <-] & Ht' & _)];
          [contradiction | congruence].
    + split; [discriminate|]. intros [H|(v & Hv & _)];
        [contradiction | discriminate].
Qed.

(** X22. Whatever the platform, the execution built by
    [getProcessExecution] carries the command line unchanged, runs a shell
    whose path is not empty, and an unset and an empty [SystemDrive] or
    [SHELL] give the same execution. A shell execution arises only for
    the MSVC build on Windows; every process execution has the command
    line as its last argument and the active folder as its working
    directory. *)
Theorem getProcessExecution_carries_the_command_line
    (SystemDrive SHELL : option string) (operatingSystem : OperatingSystems)
    (isMsvcBuildTask : bool) (commandLine activeFolder : string) :
  match getProcessExecution SystemDrive SHELL operatingSystem
          isMsvcBuildTask commandLine activeFolder with
  | ShellExecution line executable shellArgs =>
      operatingSystem = windows ∧ isMsvcBuildTask = true
      ∧ line = commandLine ∧ executable ≠ EmptyString
  | ProcessExecution process args cwd =>
      (operatingSystem = windows → isMsvcBuildTask = false)
      ∧ last args = Some commandLine ∧ cwd = activeFolder
      ∧ process ≠ EmptyString
  end
  ∧ getProcessExecution (Some EmptyString) (Some EmptyString)
      operatingSystem isMsvcBuildTask commandLine activeFolder
    = getProcessExecution None None operatingSystem isMsvcBuildTask
        commandLine activeFolder.
Proof.
  assert (Hdrive : ∀ d : string, d +:+ "/Windows/System32/cmd.exe" ≠ EmptyString).
  { intros d. destruct d; discriminate. }
  split; [|destruct operatingSystem; reflexivity].
  destruct operatingSystem; simpl.
  - unfold winProcessExecution. destruct isMsvcBuildTask.
    + repeat split. apply Hdrive.
    + split; [reflexivity|]. split; [reflexivity|]. split; [reflexivity|].
      apply Hdrive.
  - split; [discriminate|]. split; [reflexivity|]. split; [reflexivity|].
    destruct SHELL as [[|a sh]|]; discriminate.
  - split; [discriminate|]. split; [reflexivity|]. split; [reflexivity|].
    destruct SHELL as [[|a sh]|]; discriminate.
Qed.

End VscodeHelpers.

(** ** The provider over the workspace configuration *)

Section WorkspaceProviderFacts.
Import WorkspaceProvider.
Variable Compilers_value : Compilers → string.
Variable commandExists : string → Lookup.
Variable maxArguments : N.
Variable execSync : string → option string.
Variable path_basename : string → string → string.

Local Abbreviation checkCompilers :=
  (WorkspaceProvider.checkCompilers Compilers_value commandExists
     maxArguments execSync).
Local Abbreviation getSettings :=
  (WorkspaceProvider.getSettings Compilers_value maxArguments execSync
     path_basename).

Lemma getSettings_Ok (config : string → option JsonValue) (st st' : State) :
  getSettings config st = Ok st' →
  ∃ cPath cppPath,
    from_option id (JStr "gcc") (config "compilerPathC") = JStr cPath
    ∧ from_option id (JStr "g++") (config "compilerPathCpp") = JStr cppPath
    ∧ _cCompiler st'
      = Some (if includes (Compilers_value clang) (path_basename cPath "exe")
              then clang else gcc)
    ∧ _cppCompiler st'
      = Some (if includes (Compilers_value clangpp)
                   (path_basename cppPath "exe")
              then clangpp else gpp)
    ∧ _debugger st'
      = Some (if includes (Compilers_value clangpp)
                   (path_basename cppPath "exe")
              then lldb else gdb)
    ∧ _architecure st'
      = Some (Utils.getArchitecture maxArguments execSync
                (Compilers_value
                   (if includes (Compilers_value clang)
                         (path_basename cPath "exe")
                    then clang else gcc))).
Proof.
  unfold WorkspaceProvider.getSettings. cbv zeta.
  destruct (from_option id (JStr "gcc") (config "compilerPathC"))
    as [| | |cPath| |]; try discriminate.
  destruct (from_option id (JStr "g++") (config "compilerPathCpp"))
    as [| | |cppPath| |]; try discriminate.
  unfold basename, mbind, Result_bind. intros H. exists cPath, cppPath.
  destruct (includes (Compilers_value clang) (path_basename cPath "exe"));
    destruct (includes (Compilers_value clangpp)
                (path_basename cppPath "exe"));
    injection H as <-; simpl;
    (split; [reflexivity|]); (split; [reflexivity|]);
    (split; [reflexivity|]); (split; [reflexivity|]);
    split; reflexivity.
Qed.

(** X23. After [getSettings] the debugger follows the C++ compiler alone:
    two configurations that agree on [compilerPathCpp] give the same
    debugger whatever their C compilers are, and the debugger is [lldb]
    exactly when the C++ compiler is [clang++]. *)
Theorem getSettings_debugger_follows_the_cpp_compiler
    (config1 config2 : string → option JsonValue) (st1 st2 st1' st2' : State)
    (Hcpp : config1 "compilerPathCpp" = config2 "compilerPathCpp")
    (H1 : getSettings config1 st1 = Ok st1')
    (H2 : getSettings config2 st2 = Ok st2') :
  _debugger st1' = _debugger st2'
  ∧ (_debugger st1' = Some lldb ↔ _cppCompiler st1' = Some clangpp).
Proof.
  apply getSettings_Ok in H1
    as (cPath1 & cppPath1 & _ & Hp1 & _ & Hcpp1 & Hd1 & _).
  apply getSettings_Ok in H2
    as (cPath2 & cppPath2 & _ & Hp2 & _ & _ & Hd2 & _).
  rewrite Hcpp in Hp1. rewrite Hp1 in Hp2. injection Hp2 as <-.
  rewrite Hd1, Hd2, Hcpp1. split; [reflexivity|].
  destruct (includes _ _); split; (reflexivity || discriminate).
Qed.

(** X24. After [getSettings] the C compiler is [gcc] or [clang], and the
    architecture is the one of the probe run on the name of that member,
    not on the configured path: two configurations with the same kind of
    C compiler give the same architecture. *)
Theorem getSettings_probes_the_compiler_kind
    (config1 config2 : string → option JsonValue) (st1 st2 st1' st2' : State)
    (H1 : getSettings config1 st1 = Ok st1')
    (H2 : getSettings config2 st2 = Ok st2')
    (Hkind : _cCompiler st1' = _cCompiler st2') :
  (_cCompiler st1' = Some gcc ∨ _cCompiler st1' = Some clang)
  ∧ _architecure st1' = _architecure st2'
  ∧ ∃ compiler, _cCompiler st1' = Some compiler
      ∧ _architecure st1'
        = Some (Utils.getArchitecture maxArguments execSync
                  (Compilers_value compiler)).
Proof.
  apply getSettings_Ok in H1
    as (cPath1 & cppPath1 & _ & _ & Hc1 & _ & _ & Ha1).
  apply getSettings_Ok in H2
    as (cPath2 & cppPath2 & _ & _ & Hc2 & _ & _ & Ha2).
  rewrite Hc1, Hc2 in Hkind. injection Hkind as Hkind.
  rewrite Ha1, Ha2, Hc1, Hkind. split; [|split].
  - rewrite <- Hkind. destruct (includes _ _); [right|left]; reflexivity.
  - reflexivity.
  - eexists. split; reflexivity.
Qed.

Lemma usable_Some (r : Lookup) (path : string) :
  usable r = Some path → f r = true ∧ p r = Some path ∧ path ≠ EmptyString.
Proof.
  unfold usable. destruct (f r); [|discriminate].
  destruct (p r) as [[|a path']|]; try discriminate.
  intros [= <-]. repeat split. discriminate.
Qed.

Lemma choose_writes (section : string) (first second : option string)
    (setFirst setSecond : string → Run → Run) (unset : State → State)
    (s : Run) :
  (∀ path s, snd (setFirst path s) = (snd s ++ [(section, path)])%list) →
  (∀ path s, snd (setSecond path s) = (snd s ++ [(section, path)])%list) →
  snd (choose first second setFirst setSecond unset s)
  = (snd s ++ written section first second)%list.
Proof.
  intros Hfirst Hsecond. unfold choose, written.
  destruct first; [apply Hfirst|]. destruct second; [apply Hsecond|].
  simpl. by rewrite app_nil_r.
Qed.

Lemma written_from (section : string) (first second : option string)
    (key value : string) :
  (key, value) ∈ written section first second →
  key = section ∧ (first = Some value ∨ second = Some value).
Proof.
  unfold written. destruct first as [path|]; [|destruct second as [path|]].
  - intros [= -> ->]%list_elem_of_singleton. auto.
  - intros [= -> ->]%list_elem_of_singleton. auto.
  - intros []%elem_of_nil.
Qed.

Lemma written_keys (section : string) (first second : option string) :
  (written section first second).*1 = []
  ∨ (written section first second).*1 = [section].
Proof.
  unfold written. destruct first; [by right|]. destruct second; [by right|by left].
Qed.

(** The updates of [checkCompilers], section by section. *)
Lemma checkCompilers_writes (st : State) :
  snd (checkCompilers st)
  = (match _operatingSystem st with
     | mac =>
         written "compilerPathC" (usable (commandExists "clang"))
           (usable (commandExists "gcc"))
         ++ written "compilerPathCpp" (usable (commandExists "clang++"))
              (usable (commandExists "g++"))
         ++ written "debuggerPath" (usable (commandExists "lldb"))
              (usable (commandExists "gdb"))
         ++ []
     | os =>
         written "compilerPathC" (usable (commandExists "gcc"))
           (usable (commandExists "clang"))
         ++ written "compilerPathCpp" (usable (commandExists "g++"))
              (usable (commandExists "clang++"))
         ++ written "debuggerPath" (usable (commandExists "gdb"))
              (usable (commandExists "lldb"))
         ++ written "makePath" (usable (commandExists "make"))
              (match os with
               | windows => usable (commandExists "mingw32-make")
               | _ => None
               end)
     end)%list.
Proof.
  unfold WorkspaceProvider.checkCompilers. cbv zeta.
  assert (Hprobe : ∀ s : Run,
    snd match _cCompiler (fst s) with
        | Some compiler =>
            if negb (is_empty (Compilers_value compiler)) then
              (set_architecure
                 (Some (Utils.getArchitecture maxArguments execSync
                          (Compilers_value compiler)))
                 (fst s), snd s)
            else s
        | None => s
        end = snd s).
  { intros s. destruct (_cCompiler (fst s)) as [compiler|]; [|reflexivity].
    by destruct (negb (is_empty (Compilers_value compiler))). }
  rewrite Hprobe. unfold written at 4 8.
  destruct (_operatingSystem st);
    repeat match goal with
           | |- context [match usable (commandExists "make") with
                         | Some _ => _ | None => _ end] =>
               destruct (usable (commandExists "make"))
           | |- context [match usable (commandExists "mingw32-make") with
                         | Some _ => _ | None => _ end] =>
               destruct (usable (commandExists "mingw32-make"))
           end;
    unfold setMake, config_update; cbn [fst snd];
    rewrite !(choose_writes _ _ _ _ _ _ _) by reflexivity;
    cbn [snd]; rewrite ?app_nil_r, <- ?app_assoc; reflexivity.
Qed.

(** X25. The configuration updates issued by [checkCompilers] touch each
    section at most once; each writes the non-empty path of a command that
    was found and that belongs to the section; and on macOS [makePath] is
    never written. *)
Theorem checkCompilers_writes_found_paths (st : State) :
  NoDup (snd (checkCompilers st)).*1
  ∧ (∀ section value, (section, value) ∈ snd (checkCompilers st) →
       value ≠ EmptyString
       ∧ ∃ command, command ∈ commandsOf section
           ∧ f (commandExists command) = true
           ∧ p (commandExists command) = Some value)
  ∧ (_operatingSystem st = mac → "makePath" ∉ (snd (checkCompilers st)).*1).
Proof.
  rewrite checkCompilers_writes.
  assert (Hfound : ∀ section command value,
    usable (commandExists command) = Some value →
    command ∈ commandsOf section →
    value ≠ EmptyString
    ∧ ∃ command, command ∈ commandsOf section
        ∧ f (commandExists command) = true
        ∧ p (commandExists command) = Some value).
  { intros section command value Hu Hin.
    apply usable_Some in Hu as (Hf & Hp & Hne).
    split; [exact Hne|]. exists command. repeat split; assumption. }
  assert (Hkeys : ∀ a1 b1 a2 b2 a3 b3 (make : list (string * string)),
    make.*1 = [] ∨ make.*1 = ["makePath"] →
    NoDup (written "compilerPathC" a1 b1 ++ written "compilerPathCpp" a2 b2
           ++ written "debuggerPath" a3 b3 ++ make)%list.*1
    ∧ (make.*1 = [] →
       "makePath" ∉ (written "compilerPathC" a1 b1
                     ++ written "compilerPathCpp" a2 b2
                     ++ written "debuggerPath" a3 b3 ++ make)%list.*1)).
  { intros a1 b1 a2 b2 a3 b3 make Hmake. rewrite !fmap_app.
    destruct (written_keys "compilerPathC" a1 b1) as [->| ->],
      (written_keys "compilerPathCpp" a2 b2) as [->| ->],
      (written_keys "debuggerPath" a3 b3) as [->| ->],
      Hmake as [->| ->]; simpl;
      (split;
       [ repeat (apply NoDup_cons_2;
                 [rewrite ?elem_of_cons, elem_of_nil; intros H;
                  repeat (destruct H as [H|H]; try discriminate); exact H|]);
         apply NoDup_nil_2
       | intros Hnil; try discriminate Hnil;
         rewrite ?elem_of_cons, elem_of_nil; intros H;
         repeat (destruct H as [H|H]; try discriminate); exact H ]). }
  split; [|split].
  - destruct (_operatingSystem st); apply Hkeys;
      (apply written_keys || by left).
  - intros section value Hin.
    assert (Hcase : ∃ first second command1 command2,
      (section, value) ∈ written section first second
      ∧ first = usable (commandExists command1)
      ∧ (second = usable (commandExists command2) ∨ second = None)
      ∧ command1 ∈ commandsOf section ∧ command2 ∈ commandsOf section).
    { destruct (_operatingSystem st);
        rewrite !elem_of_app in Hin;
        destruct Hin as [Hin|[Hin|[Hin|Hin]]];
        try (apply elem_of_nil in Hin; contradiction);
        destruct (written_from _ _ _ _ _ Hin) as [-> _];
        do 4 eexists;
        (split; [exact Hin|]);
        (split; [reflexivity|]);
        (split; [first [left; reflexivity | right; reflexivity]|]);
        split; apply list_elem_of_In; simpl;
        first [left; reflexivity | right; left; reflexivity]. }
    destruct Hcase as (first & second & command1 & command2 & Hw & -> & Hsecond
                       & Hc1 & Hc2).
    apply written_from in Hw as [_ [Hu|Hu]].
    + exact (Hfound _ _ _ Hu Hc1).
    + destruct Hsecond as [->| ->]; [|discriminate].
      exact (Hfound _ _ _ Hu Hc2).
  - intros ->. apply Hkeys; [by left | reflexivity].
Qed.

Lemma choose_frame {A : Type} (proj : State → A)
    (first second : option string) (setFirst setSecond : string → Run → Run)
    (unset : State → State) (s : Run) :
  (∀ path s, proj (fst (setFirst path s)) = proj (fst s)) →
  (∀ path s, proj (fst (setSecond path s)) = proj (fst s)) →
  (∀ st, proj (unset st) = proj st) →
  proj (fst (choose first second setFirst setSecond unset s)) = proj (fst s).
Proof.
  intros Hfirst Hsecond Hunset. unfold choose.
  destruct first; [apply Hfirst|]. destruct second; [apply Hsecond|].
  apply Hunset.
Qed.

(** The state before the architecture probe at the end of
    [checkCompilers]: its C compiler is the one of the first choice, and
    its architecture is the one it started with. *)
Lemma checkCompilers_steps (st : State) :
  ∃ s : Run,
    checkCompilers st
    = match _cCompiler (fst s) with
      | Some compiler =>
          if negb (is_empty (Compilers_value compiler)) then
            (set_architecure
               (Some (Utils.getArchitecture maxArguments execSync
                        (Compilers_value compiler)))
               (fst s), snd s)
          else s
      | None => s
      end
    ∧ _architecure (fst s) = _architecure st
    ∧ _cCompiler (fst s)
      = match _operatingSystem st with
        | mac =>
            match usable (commandExists "clang") with
            | Some _ => Some clang
            | None =>
                match usable (commandExists "gcc") with
                | Some _ => Some gcc
                | None => None
                end
            end
        | _ =>
            match usable (commandExists "gcc") with
            | Some _ => Some gcc
            | None =>
                match usable (commandExists "clang") with
                | Some _ => Some clang
                | None => None
                end
            end
        end.
Proof.
  unfold WorkspaceProvider.checkCompilers. cbv zeta.
  eexists. split; [reflexivity|].
  assert (Hmake : ∀ {A : Type} (proj : State → A) path (s : Run),
    proj (fst (setMake path s)) = proj (fst s)) by reflexivity.
  split.
  - destruct (_operatingSystem st);
      repeat match goal with
             | |- context [match ?o with Some _ => _ | None => _ end] =>
                 destruct o
             end;
      rewrite ?Hmake;
      rewrite !(choose_frame _architecure) by reflexivity; reflexivity.
  - destruct (_operatingSystem st);
      repeat match goal with
             | |- context [match usable (commandExists "make") with
                           | Some _ => _ | None => _ end] =>
                 destruct (usable (commandExists "make"))
             | |- context [match usable (commandExists "mingw32-make") with
                           | Some _ => _ | None => _ end] =>
                 destruct (usable (commandExists "mingw32-make"))
             end;
      rewrite ?Hmake;
      rewrite !(choose_frame _cCompiler) by reflexivity;
      destruct (usable (commandExists "gcc")),
        (usable (commandExists "clang")); reflexivity.
Qed.

(** X26. [checkCompilers] selects a C compiler exactly when [gcc] or
    [clang] is found, taking [clang] first on macOS and [gcc] first
    elsewhere, and it probes the architecture only then: with no C
    compiler found the architecture stays as it was. *)
Theorem checkCompilers_selects_the_c_compiler_by_platform (st : State) :
  (_cCompiler (fst (checkCompilers st)) = Some gcc ↔
     is_Some (usable (commandExists "gcc"))
     ∧ (_operatingSystem st = mac → usable (commandExists "clang") = None))
  ∧ (_cCompiler (fst (checkCompilers st)) = Some clang ↔
     is_Some (usable (commandExists "clang"))
     ∧ (_operatingSystem st ≠ mac → usable (commandExists "gcc") = None))
  ∧ (_cCompiler (fst (checkCompilers st)) = None ↔
     usable (commandExists "gcc") = None
     ∧ usable (commandExists "clang") = None)
  ∧ _architecure (fst (checkCompilers st))
    = match _cCompiler (fst (checkCompilers st)) with
      | Some compiler =>
          if is_empty (Compilers_value compiler) then _architecure st
          else Some (Utils.getArchitecture maxArguments execSync
                       (Compilers_value compiler))
      | None => _architecure st
      end.
Proof.
  destruct (checkCompilers_steps st) as (s & -> & Harch & Hc).
  match goal with
  | |- context [_architecure (fst ?final)] => set (s' := final)
  end.
  assert (Hsame : _cCompiler (fst s') = _cCompiler (fst s)).
  { subst s'. destruct (_cCompiler (fst s)) as [compiler|] eqn:E; [|exact E].
    destruct (is_empty (Compilers_value compiler)); exact E. }
  assert (Hprobe :
    _architecure (fst s')
    = match _cCompiler (fst s) with
      | Some compiler =>
          if is_empty (Compilers_value compiler) then _architecure st
          else Some (Utils.getArchitecture maxArguments execSync
                       (Compilers_value compiler))
      | None => _architecure st
      end).
  { subst s'. destruct (_cCompiler (fst s)) as [compiler|]; [|exact Harch].
    destruct (is_empty (Compilers_value compiler));
      [exact Harch|reflexivity]. }
  clearbody s'. rewrite Hsame, Hprobe.
  split; [|split; [|split]].
  - rewrite Hc. destruct (_operatingSystem st);
      destruct (usable (commandExists "gcc")),
        (usable (commandExists "clang"));
      (split;
       [ intros H; try discriminate H;
         (split;
          [ eexists; reflexivity
          | intros Hos; (reflexivity || discriminate Hos) ])
       | intros [[path Hpath] Himp]; try reflexivity;
         try discriminate Hpath; try discriminate (Himp eq_refl) ]).
  - rewrite Hc. destruct (_operatingSystem st);
      destruct (usable (commandExists "gcc")),
        (usable (commandExists "clang"));
      (split;
       [ intros H; try discriminate H;
         (split;
          [ eexists; reflexivity
          | intros Hos;
            (reflexivity || (exfalso; apply Hos; reflexivity)) ])
       | intros [[path Hpath] Himp]; try reflexivity;
         try discriminate Hpath;
         try (assert (Hnone := Himp ltac:(discriminate));
              discriminate Hnone) ]).
  - rewrite Hc. destruct (_operatingSystem st);
      destruct (usable (commandExists "gcc")),
        (usable (commandExists "clang"));
      (split;
       [ intros H; try discriminate H; split; reflexivity
       | intros [H1 H2]; try reflexivity;
         try discriminate H1; try discriminate H2 ]).
  - reflexivity.
Qed.

End WorkspaceProviderFacts.

(** A witness of the debugger rule: two configurations with the same C++
    compiler, one with [clang] and one with the default C compiler. *)
Lemma getSettings_debugger_follows_the_cpp_compiler_witness :
  ∃ st1' st2',
    WorkspaceProvider.getSettings commandNames argumentLimit dumpmachine
      (λ path _, Path.base path) clangCConfig (freshProvider linux) = Ok st1'
    ∧ WorkspaceProvider.getSettings commandNames argumentLimit dumpmachine
        (λ path _, Path.base path) gccCConfig (freshProvider mac) = Ok st2'
    ∧ WorkspaceProvider._cCompiler st1' = Some WorkspaceProvider.clang
    ∧ WorkspaceProvider._cCompiler st2' = Some WorkspaceProvider.gcc
    ∧ WorkspaceProvider._debugger st1' = WorkspaceProvider._debugger st2'.
Proof.
  eexists _, _. split; [vm_compute; reflexivity|].
  split; [vm_compute; reflexivity|].
  split; [vm_compute; reflexivity|]. split; [vm_compute; reflexivity|].
  refine (proj1 (getSettings_debugger_follows_the_cpp_compiler commandNames
                   argumentLimit dumpmachine (λ path _, Path.base path)
                   clangCConfig
                   gccCConfig (freshProvider linux) (freshProvider mac)
                   _ _ _ _ _)).
  - reflexivity.
  - vm_compute. reflexivity.
  - vm_compute. reflexivity.
Defined.

(** A witness of the probe: the default configuration and one that names
    [g++] only both probe [gcc]. *)
Lemma getSettings_probes_the_compiler_kind_witness :
  ∃ st1' st2',
    WorkspaceProvider.getSettings commandNames argumentLimit dumpmachine
      (λ path _, Path.base path) gccCConfig (freshProvider linux) = Ok st1'
    ∧ WorkspaceProvider.getSettings commandNames argumentLimit dumpmachine
        (λ path _, Path.base path) (λ _, None) (freshProvider linux) = Ok st2'
    ∧ WorkspaceProvider._architecure st1' = Some x64
    ∧ WorkspaceProvider._architecure st1' = WorkspaceProvider._architecure st2'.
Proof.
  eexists _, _. split; [vm_compute; reflexivity|].
  split; [vm_compute; reflexivity|].
  split; [vm_compute; reflexivity|].
  refine (proj1 (proj2 (getSettings_probes_the_compiler_kind commandNames
                          argumentLimit dumpmachine
                          (λ path _, Path.base path) gccCConfig
                          (λ _, None) (freshProvider linux)
                          (freshProvider linux) _ _ _ _ _))).
  - vm_compute. reflexivity.
  - vm_compute. reflexivity.
  - vm_compute. reflexivity.
Defined.
